(** * Vista Haven: the rental-listing price pipeline

    A shallow embedding of [vistahaven_analysis.py] (class
    [VistaHavenAnalyzer]): the synthetic data generator, the loader with its
    fallback, the cleaner, the exploratory analysis, the SQL aggregation
    queries, the correlation matrix, the predictor's split-and-evaluate
    skeleton, the two presenters and the pipeline of [main].

    Conventions of the embedding:
    - a pandas [DataFrame] is the list of its rows, in index order; a row is
      the record [Listing] with one field per column;
    - a float is a rational ([Q]); a missing float (NaN / [None]) is [None]
      of an [option Q].  Arithmetic is exact: rounding of binary floating
      point is not part of the model;
    - the six boolean columns hold either Python/numpy booleans or the
      integers 0/1 ([flag]);
    - the global numpy random generator is an explicit state, threaded
      through the generator; its draws are an interface ([NumpyRandom]);
    - a Python exception is the [Raise] case of [result]. *)

From Stdlib Require Import String Ascii.
From Stdlib Require Import List ZArith QArith Qround Qabs Lqa Lia Bool.
From Stdlib Require Import Sorting.Sorted Sorting.Permutation Sorting.Mergesort Orders.
From Stdlib Require Import Reals Qreals Lra.
From Stdlib Require OrderedTypeEx.
Import ListNotations.

Local Open Scope Z_scope.
Local Open Scope Q_scope.

(* ------------------------------------------------------------------ *)
(** ** Data model *)

(** A cell of one of the six boolean columns: dtype [bool] as the generator
    and [read_csv] produce it, or dtype [int64] holding 1/0 after
    [astype(int)]. *)
Inductive flag : Type :=
| BoolCell (b : bool)
| IntCell (b : bool).

Definition flag_truth (f : flag) : bool :=
  match f with BoolCell b => b | IntCell b => b end.

(** The integer a cell compares equal to ([True == 1] in Python, SQLite
    stores booleans as 0/1). *)
Definition flag_int (f : flag) : Z :=
  if flag_truth f then 1%Z else 0%Z.

(** [Series.astype(int)] on one cell. *)
Definition astype_int (f : flag) : flag := IntCell (flag_truth f).

Record Listing : Type := mkListing {
  listing_id : Z;
  city : string;
  neighborhood : string;
  property_type : string;
  room_type : string;
  accommodates : Z;
  bedrooms : Z;
  bathrooms : Q;
  price : option Q;
  minimum_nights : Z;
  number_of_reviews : Z;
  review_scores_rating : option Q;
  host_is_superhost : flag;
  host_listings_count : Z;
  instant_bookable : flag;
  availability_365 : Z;
  num_amenities : Z;
  has_wifi : flag;
  has_kitchen : flag;
  has_parking : flag;
  has_pool : flag
}.

Definition DataFrame : Type := list Listing.

Definition set_review_scores_rating (v : option Q) (r : Listing) : Listing :=
  mkListing (listing_id r) (city r) (neighborhood r) (property_type r)
    (room_type r) (accommodates r) (bedrooms r) (bathrooms r) (price r)
    (minimum_nights r) (number_of_reviews r) v
    (host_is_superhost r) (host_listings_count r) (instant_bookable r)
    (availability_365 r) (num_amenities r) (has_wifi r) (has_kitchen r)
    (has_parking r) (has_pool r).

(** The loop over [bool_columns] of [clean_data], on one row. *)
Definition bool_columns_astype_int (r : Listing) : Listing :=
  mkListing (listing_id r) (city r) (neighborhood r) (property_type r)
    (room_type r) (accommodates r) (bedrooms r) (bathrooms r) (price r)
    (minimum_nights r) (number_of_reviews r) (review_scores_rating r)
    (astype_int (host_is_superhost r)) (host_listings_count r)
    (astype_int (instant_bookable r))
    (availability_365 r) (num_amenities r) (astype_int (has_wifi r))
    (astype_int (has_kitchen r)) (astype_int (has_parking r))
    (astype_int (has_pool r)).

(** The six boolean columns of a row, in the order of [bool_columns]. *)
Definition bool_columns (r : Listing) : list flag :=
  [host_is_superhost r; instant_bookable r; has_wifi r; has_kitchen r;
   has_parking r; has_pool r].

Definition is_int_cell (f : flag) : bool :=
  match f with IntCell _ => true | BoolCell _ => false end.

(* ------------------------------------------------------------------ *)
(** ** Column statistics: sorting, quantile, median *)

Module QOrder <: TotalLeBool.
Definition t := Q.
Definition leb := Qle_bool.
Theorem leb_total : forall a b, leb a b = true \/ leb b a = true.
Proof.
  intros a b. unfold leb. rewrite !Qle_bool_iff.
  destruct (Qlt_le_dec a b) as [H | H]; [left; apply Qlt_le_weak, H | right; exact H].
Qed.
End QOrder.

Module QSort := Sort QOrder.

(** [Series.dropna()]: the present values of a float column. *)
Fixpoint dropna (xs : list (option Q)) : list Q :=
  match xs with
  | [] => []
  | Some x :: t => x :: dropna t
  | None :: t => dropna t
  end.

(** Element [k] of a sorted sample, the index clipped to the last one. *)
Definition clipped_nth (vs : list Q) (k : nat) : Q :=
  nth (Nat.min k (length vs - 1)) vs 0.

(** Linear interpolation at the virtual index [h] of a sorted sample. *)
Definition lerp_at (vs : list Q) (h : Q) : Q :=
  let lo := Z.to_nat (Qfloor h) in
  let a := clipped_nth vs lo in
  let b := clipped_nth vs (S lo) in
  a + (b - a) * (h - inject_Z (Qfloor h)).

(** [Series.quantile(q)] with the default linear interpolation: missing
    values are skipped, an empty sample gives NaN, otherwise the value at
    virtual index [(n - 1) * q] of the sorted sample.  The interpolation is
    exact here; numpy interpolates in binary floating point, where the
    quantile of two prices one unit in the last place apart is one of the
    two.  The statements below rely on the inclusive comparisons of the
    band only, which hold either way. *)
Definition quantile (xs : list (option Q)) (q : Q) : option Q :=
  let vs := QSort.sort (dropna xs) in
  match vs with
  | [] => None
  | _ :: _ => Some (lerp_at vs ((inject_Z (Z.of_nat (length vs)) - 1) * q))
  end.

(** [Series.median()]: missing values are skipped, an empty sample gives
    NaN, otherwise the middle value or the mean of the two middle values. *)
Definition median (xs : list (option Q)) : option Q :=
  let vs := QSort.sort (dropna xs) in
  let n := length vs in
  match vs with
  | [] => None
  | _ :: _ =>
      if Nat.odd n then Some (nth (n / 2) vs 0)
      else Some ((nth (n / 2 - 1) vs 0 + nth (n / 2) vs 0) / 2)
  end.

(** [Series.mean()]: missing values are skipped, an empty sample gives NaN. *)
Definition Qsum (vs : list Q) : Q := fold_right Qplus 0 vs.

Definition mean (xs : list (option Q)) : option Q :=
  match dropna xs with
  | [] => None
  | vs => Some (Qsum vs / inject_Z (Z.of_nat (length vs)))
  end.

(** Comparisons of a float column against a scalar: false when either side
    is NaN. *)
Definition ge_nan (x y : option Q) : bool :=
  match x, y with Some a, Some b => Qle_bool b a | _, _ => false end.

Definition le_nan (x y : option Q) : bool :=
  match x, y with Some a, Some b => Qle_bool a b | _, _ => false end.

(* ------------------------------------------------------------------ *)
(** ** The cleaner: [clean_data] *)

(** [fillna(value)] on one cell: a NaN fill value leaves the cell missing. *)
Definition fillna (value : option Q) (cell : option Q) : option Q :=
  match cell with
  | Some x => Some x
  | None => value
  end.

Definition fill_rating (value : option Q) (r : Listing) : Listing :=
  set_review_scores_rating (fillna value (review_scores_rating r)) r.

(** The row mask [(price >= q01) & (price <= q99)]. *)
Definition in_band (q01 q99 : option Q) (r : Listing) : bool :=
  ge_nan (price r) q01 && le_nan (price r) q99.

(** [fillna(median, inplace=True)] on the selected rating column is taken
    to write through to the frame, as pandas does without copy-on-write;
    with copy-on-write it acts on a temporary and a missing rating stays
    missing. *)
Definition clean_data (df : DataFrame) : DataFrame :=
  (* Handle missing values *)
  let df1 := map (fill_rating (median (map review_scores_rating df))) df in
  (* Remove outliers *)
  let q01 := quantile (map price df1) (1 # 100) in
  let q99 := quantile (map price df1) (99 # 100) in
  let df2 := filter (in_band q01 q99) df1 in
  (* Convert boolean columns *)
  map bool_columns_astype_int df2.

(** The number printed as "Removed ... outliers/invalid records". *)
Definition removed_count (df : DataFrame) : Z :=
  (Z.of_nat (length df) - Z.of_nat (length (clean_data df)))%Z.

(* ------------------------------------------------------------------ *)
(** ** The global numpy generator and the state monad of its draws *)

(** The draws of [np.random] the program uses, as transformers of the
    generator state [G].  [np_seed s] is the state [np.random.seed(s)]
    installs: it depends on the seed only. [np_choice n p] draws an index
    below [n], uniformly or with the probabilities [p]. *)
Class NumpyRandom (G : Type) : Type := {
  np_seed : Z -> G;
  np_choice : nat -> option (list Q) -> G -> nat * G;
  np_randint : Z -> Z -> G -> Z * G;
  np_poisson : Q -> G -> Z * G;
  np_uniform : Q -> Q -> G -> Q * G
}.

Definition Rand (G A : Type) : Type := G -> A * G.

Definition ret {G A : Type} (a : A) : Rand G A := fun g => (a, g).

Definition bind {G A B : Type} (m : Rand G A) (k : A -> Rand G B) : Rand G B :=
  fun g => let (a, g') := m g in k a g'.

Declare Scope rand_scope.
Delimit Scope rand_scope with rand.
Notation "x <- m ;; k" := (bind m (fun x => k))
  (at level 61, m at next level, right associativity) : rand_scope.

(* ------------------------------------------------------------------ *)
(** ** Python built-ins used by the generator *)

(** [max(30, x)]: the first argument is kept unless the second is greater. *)
Definition py_max (a x : Q) : Q := if Qle_bool x a then a else x.

(** Round half to even to the nearest integer. *)
Definition round_half_even (x : Q) : Z :=
  let f := Qfloor x in
  let r := x - inject_Z f in
  match Qcompare r (1 # 2) with
  | Lt => f
  | Gt => (f + 1)%Z
  | Eq => if Z.even f then f else (f + 1)%Z
  end.

(** [round(x, 2)], of the exact value; Python rounds the double nearest
    to it, which can differ in the last digit at a tie. *)
Definition py_round2 (x : Q) : Q :=
  inject_Z (round_half_even (x * 100)) / 100.

(** [dict.get(key, default)] on a dict literal, as an association list. *)
Fixpoint dict_get (d : list (string * Q)) (key : string) (default : Q) : Q :=
  match d with
  | [] => default
  | (k, v) :: t => if String.eqb k key then v else dict_get t key default
  end.

(** Truthiness of an optional float: [None] and [0.0] are false. *)
Definition py_truthy (x : option Q) : bool :=
  match x with
  | None => false
  | Some v => negb (Qeq_bool v 0)
  end.

(* ------------------------------------------------------------------ *)
(** ** The synthetic generator: [_generate_sample_data] *)

Definition cities : list string :=
  ["New York"; "San Francisco"; "Los Angeles"; "Chicago";
   "Boston"; "Seattle"; "Austin"; "Miami"]%string.

Definition room_types : list string :=
  ["Entire home/apt"; "Private room"; "Shared room"; "Hotel room"]%string.

Definition property_types : list string :=
  ["Apartment"; "House"; "Condo"; "Townhouse"; "Loft"; "Villa"; "Cottage"]%string.

Definition neighborhoods : list string :=
  ["Downtown"; "Midtown"; "Uptown"; "Waterfront";
   "Historic District"; "Arts District"; "Business District"]%string.

Definition city_multipliers : list (string * Q) :=
  [("New York", 15 # 10); ("San Francisco", 14 # 10); ("Los Angeles", 12 # 10);
   ("Boston", 13 # 10); ("Seattle", 12 # 10); ("Chicago", 1);
   ("Austin", 9 # 10); ("Miami", 11 # 10)]%string.

(** The room-type adjustment of the base price (the if/elif chain). *)
Definition room_type_adjust (room_type : string) (base_price : Q) : Q :=
  if String.eqb room_type "Entire home/apt" then base_price * (15 # 10)
  else if String.eqb room_type "Private room" then base_price * (7 # 10)
  else if String.eqb room_type "Shared room" then base_price * (4 # 10)
  else if String.eqb room_type "Hotel room" then base_price * (12 # 10)
  else base_price.

(** The price before the random noise. *)
Definition price_before_noise (base_price : Q) (bedrooms : Z) (bathrooms : Q)
    (num_amenities : Z) (has_wifi has_kitchen has_parking has_pool
    host_is_superhost : bool) (review_scores_rating : option Q) : Q :=
  let price := base_price in
  let price := price + inject_Z bedrooms * 30 in
  let price := price + bathrooms * 20 in
  let price := price + inject_Z num_amenities * 2 in
  let price := price + (if has_wifi then 20 else 0) in
  let price := price + (if has_kitchen then 30 else 0) in
  let price := price + (if has_parking then 25 else 0) in
  let price := price + (if has_pool then 40 else 0) in
  let price := price + (if host_is_superhost then 30 else 0) in
  price + (if py_truthy review_scores_rating
           then match review_scores_rating with
                | Some rating => (rating - 4) * 30
                | None => 0
                end
           else 0).

Section Generator.
Context {G : Type} `{NumpyRandom G}.
Local Open Scope rand_scope.

(** [np.random.choice(a, p=p)] on a Python list. *)
Definition choice {A : Type} (default : A) (a : list A) (p : option (list Q))
  : Rand G A :=
  i <- np_choice (length a) p ;; ret (nth i a default).

Definition choice_bool (p_true p_false : Q) : Rand G bool :=
  choice false [true; false] (Some [p_true; p_false]).

(** The state [np.random.seed(s)] leaves behind, whatever it was before. *)
Definition seed (s : Z) : Rand G unit := fun _ => (tt, np_seed s).

(** One iteration of the loop, for the index [i] of [range(n_listings)]. *)
Definition generate_listing (i : Z) : Rand G Listing :=
  city <- choice EmptyString cities None ;;
  room_type <- choice EmptyString room_types
                 (Some [5 # 10; 35 # 100; 1 # 10; 5 # 100]) ;;
  property_type <- choice EmptyString property_types None ;;
  neighborhood <- choice EmptyString neighborhoods None ;;
  let base_price := 100 * dict_get city_multipliers city 1 in
  let base_price := room_type_adjust room_type base_price in
  bedrooms <- np_randint 1 6 ;;
  bathrooms <- choice 0 [1; 15 # 10; 2; 25 # 10; 3]
                 (Some [3 # 10; 25 # 100; 25 # 100; 15 # 100; 5 # 100]) ;;
  extra <- np_randint 0 3 ;;
  let accommodates := (bedrooms * 2 + extra)%Z in
  number_of_reviews <- np_poisson 20 ;;
  review_scores_rating <-
    (if (0 <? number_of_reviews)%Z
     then (x <- np_uniform (35 # 10) 5 ;; ret (Some x))
     else ret None) ;;
  num_amenities <- np_randint 5 25 ;;
  has_wifi <- choice_bool (95 # 100) (5 # 100) ;;
  has_kitchen <- choice_bool (8 # 10) (2 # 10) ;;
  has_parking <- choice_bool (6 # 10) (4 # 10) ;;
  has_pool <- choice_bool (2 # 10) (8 # 10) ;;
  host_is_superhost <- choice_bool (3 # 10) (7 # 10) ;;
  host_listings_count <- choice 0%Z [1; 2; 3; 5; 10]%Z
                 (Some [5 # 10; 2 # 10; 15 # 100; 1 # 10; 5 # 100]) ;;
  instant_bookable <- choice_bool (6 # 10) (4 # 10) ;;
  minimum_nights <- choice 0%Z [1; 2; 3; 7; 30]%Z
                 (Some [5 # 10; 2 # 10; 15 # 100; 1 # 10; 5 # 100]) ;;
  let price := price_before_noise base_price bedrooms bathrooms
                 num_amenities has_wifi has_kitchen has_parking has_pool
                 host_is_superhost review_scores_rating in
  noise <- np_uniform (85 # 100) (115 # 100) ;;
  let price := price * noise in
  let price := py_max 30 (py_round2 price) in
  availability_365 <- np_randint 0 366 ;;
  ret (mkListing (i + 1) city neighborhood property_type room_type
         accommodates bedrooms bathrooms (Some price) minimum_nights
         number_of_reviews review_scores_rating
         (BoolCell host_is_superhost) host_listings_count
         (BoolCell instant_bookable) availability_365 num_amenities
         (BoolCell has_wifi) (BoolCell has_kitchen) (BoolCell has_parking)
         (BoolCell has_pool)).

(** [for i in range(n_listings): ... data.append(...)], [todo] iterations
    from index [i] on. *)
Fixpoint generate_rows (todo : nat) (i : Z) : Rand G DataFrame :=
  match todo with
  | O => ret []
  | S todo' =>
      row <- generate_listing i ;;
      rest <- generate_rows todo' (i + 1)%Z ;;
      ret (row :: rest)
  end.

Definition _generate_sample_data (n_listings : nat) : Rand G DataFrame :=
  _ <- seed 42 ;;
  generate_rows n_listings 0%Z.

End Generator.

(** The row of the cleaned frame that comes from the row [r] of [df]. *)
Definition cleaned_row (df : DataFrame) (r : Listing) : Listing :=
  bool_columns_astype_int
    (fill_rating (median (map review_scores_rating df)) r).

(** [kept] is [l] with some elements removed, the order unchanged. *)
Inductive Subseq {A : Type} : list A -> list A -> Prop :=
| Subseq_nil : Subseq [] []
| Subseq_drop (x : A) (kept l : list A) : Subseq kept l -> Subseq kept (x :: l)
| Subseq_keep (x : A) (kept l : list A) : Subseq kept l -> Subseq (x :: kept) (x :: l).

(** The percentile band [clean_data] computes on a frame. *)
Definition q01_of (df : DataFrame) : option Q := quantile (map price df) (1 # 100).
Definition q99_of (df : DataFrame) : option Q := quantile (map price df) (99 # 100).

(** A listing with the given identifier and price, for concrete frames. *)
Definition listing_priced (id : Z) (p : Q) : Listing :=
  mkListing id "Chicago" "Downtown" "Apartment" "Private room" 2 1 1 (Some p)
    1 12 (Some (45 # 10)) (BoolCell false) 1 (BoolCell true) 200 10
    (BoolCell true) (BoolCell true) (BoolCell false) (BoolCell false).

Definition five_listings : DataFrame :=
  [listing_priced 1 100; listing_priced 2 150; listing_priced 3 200;
   listing_priced 4 250; listing_priced 5 300].

(* ------------------------------------------------------------------ *)
(** ** Exceptions, standard output and the loader: [load_data] *)

(** An instance of a subclass of Python's [Exception], with its text. *)
Inductive exn : Type :=
| Exception (kind msg : string).

Inductive result (A : Type) : Type :=
| Ok (a : A)
| Raise (e : exn).
Arguments Ok {A} a.
Arguments Raise {A} e.

(** The lines [load_data] prints. *)
Inductive message : Type :=
| MsgLoading
| MsgGenerated (n : nat)
| MsgLoaded (n : nat) (source : string)
| MsgErrorLoading (e : exn)
| MsgGeneratingInstead.

(** What a call can change: the global generator state and standard output
    (most recent line last). *)
Record World (G : Type) : Type := mkWorld {
  rng : G;
  stdout : list message
}.
Arguments mkWorld {G} rng stdout.
Arguments rng {G} w.
Arguments stdout {G} w.

(** A call that may raise and that changes the world either way. *)
Definition Py (G A : Type) : Type := World G -> result A * World G.

Definition py_ret {G A : Type} (a : A) : Py G A := fun w => (Ok a, w).

Definition py_bind {G A B : Type} (m : Py G A) (k : A -> Py G B) : Py G B :=
  fun w =>
    match m w with
    | (Ok a, w') => k a w'
    | (Raise e, w') => (Raise e, w')
    end.

(** [try: body except Exception as e: handler(e)]. *)
Definition try_except {G A : Type} (body : Py G A) (handler : exn -> Py G A)
  : Py G A :=
  fun w =>
    match body w with
    | (Ok a, w') => (Ok a, w')
    | (Raise e, w') => handler e w'
    end.

Definition print {G : Type} (m : message) : Py G unit :=
  fun w => (Ok tt, mkWorld (rng w) (stdout w ++ [m])).

(** A computation on the global generator, run inside a call. *)
Definition draw {G A : Type} (m : Rand G A) : Py G A :=
  fun w => let (a, g) := m (rng w) in (Ok a, mkWorld g (stdout w)).

(** A call of a function of the environment that only returns or raises. *)
Definition call {G A : Type} (r : result A) : Py G A := fun w => (r, w).

Declare Scope py_scope.
Delimit Scope py_scope with py.
Notation "x <- m ;; k" := (py_bind m (fun x => k))
  (at level 61, m at next level, right associativity) : py_scope.
Notation "m ;;; k" := (py_bind m (fun _ => k))
  (at level 61, right associativity) : py_scope.

Section Loader.
Context {G : Type} `{NumpyRandom G}.

(** [pd.read_csv] on the file system of the call: the parsed table, or the
    exception it raises (missing file, malformed content, ...). *)
Variable read_csv : string -> result DataFrame.

Local Open Scope py_scope.

Definition load_data (data_source : string) : Py G DataFrame :=
  print MsgLoading ;;;
  if String.eqb data_source "sample" then
    df <- draw (_generate_sample_data 1000) ;;
    print (MsgGenerated (length df)) ;;;
    py_ret df
  else
    try_except
      (df <- call (read_csv data_source) ;;
       print (MsgLoaded (length df) data_source) ;;;
       py_ret df)
      (fun e =>
         print (MsgErrorLoading e) ;;;
         print MsgGeneratingInstead ;;;
         draw (_generate_sample_data 1000)).

End Loader.

(* ------------------------------------------------------------------ *)
(** ** Grouping and sorting of rows *)

(** Stable insertion sort by a boolean order. *)
Section SortBy.
Context {A : Type} (leb : A -> A -> bool).

Fixpoint insert_by (x : A) (l : list A) : list A :=
  match l with
  | [] => [x]
  | y :: t => if leb x y then x :: l else y :: insert_by x t
  end.

Definition sort_by (l : list A) : list A := fold_right insert_by [] l.
End SortBy.

(** [GROUP BY key] / [groupby(key)]: the groups in ascending key order, each
    with its rows in table order. *)
Section GroupBy.
Context {K : Type} (eqb ltb : K -> K -> bool) (key : Listing -> K).

Fixpoint group_insert (r : Listing) (gs : list (K * list Listing))
  : list (K * list Listing) :=
  match gs with
  | [] => [(key r, [r])]
  | (k, rs) :: t =>
      if eqb (key r) k then (k, rs ++ [r]) :: t
      else if ltb (key r) k then (key r, [r]) :: gs
      else (k, rs) :: group_insert r t
  end.

Definition group_by (table : DataFrame) : list (K * list Listing) :=
  fold_left (fun gs r => group_insert r gs) table [].
End GroupBy.

Definition group_by_Z := group_by Z.eqb Z.ltb.
Definition group_by_string := group_by String.eqb String.ltb.

(** The mean price of each group ([AVG(price)], [groupby(...)['price'].mean()]). *)
Definition group_mean_price {K : Type} (gs : list (K * list Listing))
  : list (K * option Q) :=
  map (fun g => (fst g, mean (map price (snd g)))) gs.

(* ------------------------------------------------------------------ *)
(** ** The aggregator: [perform_sql_analysis] *)

(** SQLite's [ROUND(x, 2)]: half away from zero; NULL stays NULL. *)
Definition sql_round2 (x : option Q) : option Q :=
  match x with
  | None => None
  | Some v =>
      if Qle_bool 0 v
      then Some (inject_Z (Qfloor (v * 100 + (1 # 2))) / 100)
      else Some (- (inject_Z (Qfloor (- v * 100 + (1 # 2))) / 100))
  end.

(** [ORDER BY avg_price DESC]: NULL sorts last. *)
Definition avg_desc_leb (x y : option Q) : bool :=
  match x, y with
  | _, None => true
  | None, Some _ => false
  | Some a, Some b => Qle_bool b a
  end.

(** A row of a per-key average, with the group size where the query selects
    [COUNT( * )]. *)
Record AvgRow (K : Type) : Type := mkAvgRow {
  row_key : K;
  avg_price : option Q;
  num_listings : nat
}.
Arguments mkAvgRow {K} row_key avg_price num_listings.
Arguments row_key {K} a.
Arguments avg_price {K} a.
Arguments num_listings {K} a.

Definition avg_rows {K : Type} (gs : list (K * list Listing)) : list (AvgRow K) :=
  map (fun g => mkAvgRow (fst g) (sql_round2 (mean (map price (snd g))))
                  (length (snd g))) gs.

(** [SELECT CASE WHEN col = 1 THEN with ELSE without END, ROUND(AVG(price), 2)
    FROM listings GROUP BY col]. *)
Definition status_query (col : Listing -> flag) (with_label without_label : string)
    (listings : DataFrame) : list (string * option Q) :=
  map (fun a => (if Z.eqb (row_key a) 1 then with_label else without_label,
                 avg_price a))
      (avg_rows (group_by_Z (fun r => flag_int (col r)) listings)).

(** Query 1: the ten most expensive cities.  Cities with equal averages
    keep their ascending order here (a stable sort); SQL fixes no order
    among them. *)
Definition query1 (listings : DataFrame) : list (AvgRow string) :=
  firstn 10
    (sort_by (fun a b => avg_desc_leb (avg_price a) (avg_price b))
       (avg_rows (group_by_string city listings))).

(** Query 2: the three [SELECT]s joined by [UNION ALL]. *)
Definition query2 (listings : DataFrame) : list (string * option Q) :=
  status_query has_wifi "With WiFi" "No WiFi" listings
  ++ status_query has_kitchen "With Kitchen" "No Kitchen" listings
  ++ status_query has_pool "With Pool" "No Pool" listings.

(** Query 3: the superhost premium. *)
Definition query3 (listings : DataFrame) : list (AvgRow string) :=
  map (fun a => mkAvgRow (if Z.eqb (row_key a) 1 then "Superhost"
                          else "Regular Host")%string
                  (avg_price a) (num_listings a))
      (avg_rows (group_by_Z (fun r => flag_int (host_is_superhost r)) listings)).

(** Query 4: the price by number of bedrooms, [WHERE bedrooms <= 5]. *)
Definition query4 (listings : DataFrame) : list (AvgRow Z) :=
  avg_rows (group_by_Z bedrooms
              (filter (fun r => (bedrooms r <=? 5)%Z) listings)).

Record SqlAnalysis : Type := mkSqlAnalysis {
  expensive_cities : list (AvgRow string);
  amenity_impact : list (string * option Q);
  superhost_premium : list (AvgRow string);
  bedroom_analysis : list (AvgRow Z)
}.

(** [create_database]: the table [listings] is a copy of the frame. *)
Definition create_database (df : DataFrame) : DataFrame := df.

(** [perform_sql_analysis]: the table is the one of [db_connection], created
    from the current frame when there is no connection yet. *)
Definition perform_sql_analysis (db_connection : option DataFrame)
    (df : DataFrame) : SqlAnalysis :=
  let listings := match db_connection with
                  | Some table => table
                  | None => create_database df
                  end in
  mkSqlAnalysis (query1 listings) (query2 listings) (query3 listings)
    (query4 listings).

(* ------------------------------------------------------------------ *)
(** ** The correlation matrix: [correlation_analysis] *)

Definition Zcol (f : Listing -> Z) : Listing -> option Q :=
  fun r => Some (inject_Z (f r)).

Definition flag_col (f : Listing -> flag) : Listing -> option Q :=
  fun r => Some (inject_Z (flag_int (f r))).

Definition numeric_cols : list (string * (Listing -> option Q)) :=
  [("price", price); ("accommodates", Zcol accommodates);
   ("bedrooms", Zcol bedrooms); ("bathrooms", fun r => Some (bathrooms r));
   ("minimum_nights", Zcol minimum_nights);
   ("number_of_reviews", Zcol number_of_reviews);
   ("review_scores_rating", review_scores_rating);
   ("host_listings_count", Zcol host_listings_count);
   ("availability_365", Zcol availability_365);
   ("num_amenities", Zcol num_amenities)]%string.

(** The observations of two columns on the rows where both are present. *)
Fixpoint complete_pairs (cx cy : Listing -> option Q) (df : DataFrame)
  : list (R * R) :=
  match df with
  | [] => []
  | r :: t =>
      match cx r, cy r with
      | Some x, Some y => (Q2R x, Q2R y) :: complete_pairs cx cy t
      | _, _ => complete_pairs cx cy t
      end
  end.

Definition Rsum (l : list R) : R := fold_right Rplus 0%R l.

Definition clip_unit (v : R) : R :=
  if Rlt_dec 1 v then 1%R else if Rlt_dec v (-1) then (-1)%R else v.

Definition swap_pair (p : R * R) : R * R := (snd p, fst p).

(** Pearson's coefficient of a non-empty list of paired observations: NaN
    with a zero divisor, otherwise the quotient clipped to [-1, 1]. *)
Definition pearson_of_pairs (ps : list (R * R)) : option R :=
  let nobs := INR (length ps) in
  let meanx := (Rsum (map fst ps) / nobs)%R in
  let meany := (Rsum (map snd ps) / nobs)%R in
  let ssqdm_x := Rsum (map (fun p => (fst p - meanx) * (fst p - meanx))%R ps) in
  let ssqdm_y := Rsum (map (fun p => (snd p - meany) * (snd p - meany))%R ps) in
  let covxy := Rsum (map (fun p => (fst p - meanx) * (snd p - meany))%R ps) in
  let divisor := sqrt (ssqdm_x * ssqdm_y) in
  if Req_dec_T divisor 0 then None
  else Some (clip_unit (covxy / divisor)).

(** An entry of [DataFrame.corr()]: Pearson's coefficient over the pairwise
    complete observations of two columns, NaN when there is none. *)
Definition pearson (cx cy : Listing -> option Q) (df : DataFrame) : option R :=
  match complete_pairs cx cy df with
  | [] => None
  | p :: t => pearson_of_pairs (p :: t)
  end.

(** [self.df[numeric_cols].corr()], row by row. *)
Definition correlation_analysis (df : DataFrame) : list (list (option R)) :=
  map (fun ci => map (fun cj => pearson (snd ci) (snd cj) df) numeric_cols)
      numeric_cols.

(** Entry [(i, j)] of a matrix; NaN outside of it. *)
Definition entry (m : list (list (option R))) (i j : nat) : option R :=
  nth j (nth i m []) None.

(** A column varies over a frame when two of its rows hold different
    values in it; otherwise it is constant, or holds no value at all. *)
Definition column_varies (col : Listing -> option Q) (df : DataFrame) : Prop :=
  exists r1 r2 x1 x2,
    In r1 df /\ In r2 df /\ col r1 = Some x1 /\ col r2 = Some x2 /\ ~ x1 == x2.

(* ------------------------------------------------------------------ *)
(** ** The predictor: [build_price_prediction_model] *)

Definition feature_cols : list (string * (Listing -> option Q)) :=
  [("accommodates", Zcol accommodates); ("bedrooms", Zcol bedrooms);
   ("bathrooms", fun r => Some (bathrooms r));
   ("num_amenities", Zcol num_amenities);
   ("host_is_superhost", flag_col host_is_superhost);
   ("instant_bookable", flag_col instant_bookable);
   ("has_wifi", flag_col has_wifi); ("has_kitchen", flag_col has_kitchen);
   ("has_parking", flag_col has_parking); ("has_pool", flag_col has_pool);
   ("number_of_reviews", Zcol number_of_reviews);
   ("review_scores_rating", review_scores_rating)]%string.

Definition features (r : Listing) : list (option Q) :=
  map (fun c => snd c r) feature_cols.

Inductive metric : Type := MSE | RMSE | R2 | MAE.

(** A line the predictor prints: a metric with its value, or a feature with
    its importance. *)
Inductive out_line : Type :=
| MetricLine (m : metric) (v : option Q)
| ImportanceLine (feature : string) (importance : Q).

(** The metrics that appear in the printed lines. *)
Fixpoint reported_metrics (out : list out_line) : list metric :=
  match out with
  | [] => []
  | MetricLine m _ :: t => m :: reported_metrics t
  | ImportanceLine _ _ :: t => reported_metrics t
  end.

Definition metric_eqb (a b : metric) : bool :=
  match a, b with
  | MSE, MSE | RMSE, RMSE | R2, R2 | MAE, MAE => true
  | _, _ => false
  end.

Definition reports (out : list out_line) (m : metric) : bool :=
  existsb (metric_eqb m) (reported_metrics out).

(** Validation of a target vector by scikit-learn: NaN is refused. *)
Fixpoint check_finite (what : string) (ys : list (option Q)) : result (list Q) :=
  match ys with
  | [] => Ok []
  | None :: _ => Raise (Exception "ValueError" what)
  | Some y :: t =>
      match check_finite what t with
      | Ok l => Ok (y :: l)
      | Raise e => Raise e
      end
  end.

Definition Qsqr (x : Q) : Q := x * x.

Definition mean_Q (vs : list Q) : Q := Qsum vs / inject_Z (Z.of_nat (length vs)).

Definition residuals (y_true y_pred : list Q) : list Q :=
  map (fun p => fst p - snd p) (combine y_true y_pred).

(** [sklearn.metrics.mean_squared_error]. *)
Definition mean_squared_error (y_true y_pred : list Q) : Q :=
  Qsum (map Qsqr (residuals y_true y_pred)) / inject_Z (Z.of_nat (length y_true)).

(** [sklearn.metrics.r2_score]: NaN below two samples; with a constant
    target, 1 for a perfect fit and 0 otherwise. *)
Definition r2_score (y_true y_pred : list Q) : option Q :=
  if (length y_true <? 2)%nat then None
  else
    let numerator := Qsum (map Qsqr (residuals y_true y_pred)) in
    let ybar := mean_Q y_true in
    let denominator := Qsum (map (fun y => Qsqr (y - ybar)) y_true) in
    if negb (Qeq_bool denominator 0) then Some (1 - numerator / denominator)
    else if negb (Qeq_bool numerator 0) then Some 0
    else Some 1.

(** [np.mean(np.abs(y_test - y_pred))]. *)
Definition mean_absolute_error (y_true y_pred : list Q) : Q :=
  Qsum (map Qabs (residuals y_true y_pred)) / inject_Z (Z.of_nat (length y_true)).

Definition take {A : Type} (default : A) (l : list A) (idx : list nat) : list A :=
  map (fun i => nth i l default) idx.

Record Split : Type := mkSplit {
  X_train : list (list (option Q));
  X_test : list (list (option Q));
  y_train : list (option Q);
  y_test : list (option Q)
}.

Section Predictor.
(** [np.random.RandomState(seed).permutation(n)]. *)
Variable permutation : Z -> nat -> list nat.

(** The fitted ensemble; [fit n_estimators random_state X y], its
    predictions and its feature importances. *)
Variable Forest : Type.
Variable fit : nat -> Z -> list (list (option Q)) -> list Q -> Forest.
Variable predict : Forest -> list (list (option Q)) -> list Q.
Variable feature_importances_ : Forest -> list Q.

Variable np_sqrt : Q -> Q.

(** [train_test_split(X, y, test_size=..., random_state=...)]: the test
    part is the first [ceil(test_size * n)] indices of the seeded
    permutation, the train part the rest; an empty train part raises. *)
Definition train_test_split (X : list (list (option Q))) (y : list (option Q))
    (test_size : Q) (random_state : Z) : result Split :=
  let n_samples := length X in
  let n_test := Z.to_nat (Qceiling (test_size * inject_Z (Z.of_nat n_samples))) in
  let n_train := (n_samples - n_test)%nat in
  if (n_train =? 0)%nat
  then Raise (Exception "ValueError" "the resulting train set will be empty")
  else
    let perm := permutation random_state n_samples in
    let ind_test := firstn n_test perm in
    let ind_train := firstn n_train (skipn n_test perm) in
    Ok (mkSplit (take [] X ind_train) (take [] X ind_test)
          (take None y ind_train) (take None y ind_test)).

Definition importance_desc_leb (a b : string * Q) : bool :=
  Qle_bool (snd b) (snd a).

(** The value returned and the lines printed, or the exception raised. *)
Definition build_price_prediction_model (df : DataFrame)
  : result (Forest * list (string * Q) * list out_line) :=
  let X := map features df in
  let y := map price df in
  match train_test_split X y (2 # 10) 42 with
  | Raise e => Raise e
  | Ok s =>
      match check_finite "Input y contains NaN" (y_train s) with
      | Raise e => Raise e
      | Ok y_tr =>
          let model := fit 100 42 (X_train s) y_tr in
          let y_pred := predict model (X_test s) in
          match check_finite "Input contains NaN" (y_test s) with
          | Raise e => Raise e
          | Ok y_te =>
              let mse := mean_squared_error y_te y_pred in
              let rmse := np_sqrt mse in
              let r2 := r2_score y_te y_pred in
              let mae := mean_absolute_error y_te y_pred in
              let feature_importance :=
                sort_by importance_desc_leb
                  (combine (map fst feature_cols) (feature_importances_ model)) in
              Ok (model, feature_importance,
                  [MetricLine R2 r2; MetricLine RMSE (Some rmse);
                   MetricLine MAE (Some mae)]
                  ++ map (fun fi => ImportanceLine (fst fi) (snd fi))
                       (firstn 10 feature_importance))
          end
      end
  end.

End Predictor.

(* ------------------------------------------------------------------ *)
(** ** The presenters: [create_visualizations] and [generate_report] *)

(** Arithmetic on floats that may be NaN. *)
Definition nan_sub (a b : option Q) : option Q :=
  match a, b with
  | Some x, Some y => Some (x - y)
  | _, _ => None
  end.

(** The rows selected by [df[df[col] == v]]. *)
Definition where_flag (col : Listing -> flag) (v : Z) (df : DataFrame) : DataFrame :=
  filter (fun r => Z.eqb (flag_int (col r)) v) df.

Definition where_room_type (v : string) (df : DataFrame) : DataFrame :=
  filter (fun r => String.eqb (room_type r) v) df.

(** [Series.plot(kind=...)]: plotting a series without data raises. *)
Definition plot_series {K : Type} (s : list (K * option Q))
  : result (list (K * option Q)) :=
  match s with
  | [] =>
      Raise (Exception "IndexError"
               "index 0 is out of bounds for axis 0 with size 0")
  | _ :: _ => Ok s
  end.

(** [ax.bar(x, height)] with two labels: matplotlib broadcasts the heights
    against the labels, so one height is repeated, two are used as they are
    and any other number cannot be broadcast. *)
Definition bar2 (label0 label1 : string) (height : list (option Q))
  : result (list (string * option Q)) :=
  match height with
  | [v] => Ok [(label0, v); (label1, v)]
  | [v0; v1] => Ok [(label0, v0); (label1, v1)]
  | _ => Raise (Exception "ValueError"
                  "shape mismatch: objects cannot be broadcast to a single shape")
  end.

(** [with_amenity - without_amenity] of the loop over [amenities]. *)
Definition amenity_delta (col : Listing -> flag) (df : DataFrame) : option Q :=
  let with_amenity := mean (map price (where_flag col 1 df)) in
  let without_amenity := mean (map price (where_flag col 0 df)) in
  nan_sub with_amenity without_amenity.

Record Figure : Type := mkFigure {
  price_histogram : list (option Q);
  price_mean_marker : option Q;
  city_bars : list (string * option Q);
  room_type_boxes : list (string * list (option Q));
  bedroom_line : list (Z * option Q);
  superhost_bars : list (string * option Q);
  amenity_bars : list (string * option Q)
}.

(** The six panels, or the exception of the first call that raises.  Writing
    the image file and showing the window are not modelled. *)
Definition create_visualizations (df : DataFrame) : result Figure :=
  (* 1. Price distribution *)
  let hist := map price df in
  let mean_marker := mean (map price df) in
  (* 2. Price by city *)
  let city_avg :=
    sort_by (fun a b => avg_desc_leb (snd a) (snd b))
      (group_mean_price (group_by_string city df)) in
  match plot_series city_avg with
  | Raise e => Raise e
  | Ok panel2 =>
      (* 3. Price by room type *)
      let boxes := map (fun g => (fst g, map price (snd g)))
                     (group_by_string room_type df) in
      (* 4. Bedrooms vs Price *)
      let bedroom_price := group_mean_price (group_by_Z bedrooms df) in
      match plot_series bedroom_price with
      | Raise e => Raise e
      | Ok panel4 =>
          (* 5. Superhost impact *)
          let superhost_data :=
            group_mean_price
              (group_by_Z (fun r => flag_int (host_is_superhost r)) df) in
          match bar2 "Regular Host" "Superhost" (map snd superhost_data) with
          | Raise e => Raise e
          | Ok panel5 =>
              (* 6. Amenities impact *)
              let amenity_impact :=
                map (fun amenity => amenity_delta amenity df)
                  [has_wifi; has_kitchen; has_parking; has_pool] in
              let panel6 :=
                combine ["WiFi"; "Kitchen"; "Parking"; "Pool"]%string
                  amenity_impact in
              Ok (mkFigure hist mean_marker panel2 boxes panel4 panel5 panel6)
          end
      end
  end.

(** [Series.idxmax()]: the label of the first greatest present value; an
    empty or all-NaN series raises. *)
Fixpoint first_max {K : Type} (best : option (K * Q)) (s : list (K * option Q))
  : option (K * Q) :=
  match s with
  | [] => best
  | (_, None) :: t => first_max best t
  | (k, Some v) :: t =>
      match best with
      | None => first_max (Some (k, v)) t
      | Some (_, b) =>
          if Qle_bool v b then first_max best t else first_max (Some (k, v)) t
      end
  end.

Definition idxmax {K : Type} (s : list (K * option Q)) : result K :=
  match first_max None s with
  | Some (k, _) => Ok k
  | None => Raise (Exception "ValueError"
                     "attempt to get argmax of an empty sequence")
  end.

(** [Series.max()]: NaN for an empty or all-NaN series. *)
Definition series_max {K : Type} (s : list (K * option Q)) : option Q :=
  option_map snd (first_max None s).

(** [Series.diff()]: NaN first, then each value minus the one before. *)
Fixpoint diff_from (prev : option Q) (vs : list (option Q)) : list (option Q) :=
  match vs with
  | [] => []
  | v :: t => nan_sub v prev :: diff_from v t
  end.

Definition diff (vs : list (option Q)) : list (option Q) := diff_from None vs.

Record Report : Type := mkReport {
  most_expensive_city : string;
  most_expensive_price : option Q;
  entire_home_premium : option Q;
  superhost_premium_delta : option Q;
  bedroom_corr : option R;
  price_per_bedroom : option Q
}.

(** The key findings of the report, or the exception raised on the way. *)
Definition generate_report (df : DataFrame) : result Report :=
  let city_mean := group_mean_price (group_by_string city df) in
  match idxmax city_mean with
  | Raise e => Raise e
  | Ok most_expensive_city =>
      let most_expensive_price := series_max city_mean in
      let entire_home_premium :=
        nan_sub (mean (map price (where_room_type "Entire home/apt" df)))
                (mean (map price (where_room_type "Private room" df))) in
      let superhost_premium :=
        nan_sub (mean (map price (where_flag host_is_superhost 1 df)))
                (mean (map price (where_flag host_is_superhost 0 df))) in
      let bedroom_corr := pearson (Zcol bedrooms) price df in
      let per_bedroom :=
        mean (diff (map snd (group_mean_price (group_by_Z bedrooms df)))) in
      Ok (mkReport most_expensive_city most_expensive_price
            entire_home_premium superhost_premium bedroom_corr per_bedroom)
  end.

(* ------------------------------------------------------------------ *)
(** ** A small generator to run the model on concrete inputs *)

(** A linear congruential generator standing in for numpy's: a state is an
    integer, each draw reads it and steps it. *)
Definition lcg_next (g : Z) : Z := ((g * 1103515245 + 12345) mod 2147483648)%Z.

#[export] Instance lcg_random : NumpyRandom Z := {
  np_seed s := s;
  np_choice n _ g := (Z.to_nat (g mod Z.of_nat n), lcg_next g);
  np_randint low high g := ((low + g mod (high - low))%Z, lcg_next g);
  np_poisson _ g := ((g mod 40)%Z, lcg_next g);
  np_uniform low high g :=
    (low + (high - low) * ((g mod 1000)%Z # 1000), lcg_next g)
}.

(* ------------------------------------------------------------------ *)
(** ** Predicates on frames used in the statements *)

(** Every cell of the six boolean columns is a 0/1 integer. *)
Definition int_flags (df : DataFrame) : Prop :=
  Forall (fun r => forallb is_int_cell (bool_columns r) = true) df.

(** No rating is left to fill: all are present, or none is (and the median
    is NaN). *)
Definition ratings_settled (df : DataFrame) : Prop :=
  Forall (fun r => review_scores_rating r <> None) df
  \/ Forall (fun r => review_scores_rating r = None) df.

(** Every row of the frame lies in the frame's own percentile band. *)
Definition all_in_own_band (df : DataFrame) : Prop :=
  Forall (fun r => in_band (q01_of df) (q99_of df) r = true) df.

(** A listing with the given price and amenity and host flags. *)
Definition listing_flagged (id : Z) (p : Q)
    (wifi kitchen parking pool superhost : bool) : Listing :=
  mkListing id "Austin" "Midtown" "House" "Entire home/apt" 4 2 (15 # 10)
    (Some p) 2 8 (Some (48 # 10)) (BoolCell superhost) 2 (BoolCell false) 120 14
    (BoolCell wifi) (BoolCell kitchen) (BoolCell parking) (BoolCell pool).

(** Four listings; cleaning keeps the two middle prices, one with parking
    and one without. *)
Definition four_listings : DataFrame :=
  [listing_flagged 1 100 true true true false false;
   listing_flagged 2 150 true false true false true;
   listing_flagged 3 200 false true false true false;
   listing_flagged 4 250 true true false true true].

(** The groups of a 0/1 key: none, one of the two, or both in ascending
    order. *)
Definition flag_groups_shape (gs : list (Z * list Listing)) : Prop :=
  map fst gs = [] \/ map fst gs = [0%Z] \/ map fst gs = [1%Z]
  \/ map fst gs = [0%Z; 1%Z].

(** Each group holds at least one row, and only rows that satisfy [P]. *)
Definition groups_hold {K : Type} (P : Listing -> Prop)
    (gs : list (K * list Listing)) : Prop :=
  Forall (fun g => snd g <> [] /\ Forall P (snd g)) gs.

(** Every price of the frame is present. *)
Definition prices_present (df : DataFrame) : Prop :=
  Forall (fun r => price r <> None) df.

(* ------------------------------------------------------------------ *)
(** ** Stand-ins for scikit-learn to run the predictor on concrete inputs *)

(** The permutation that leaves the rows in place. *)
Definition identity_permutation (seed : Z) (n : nat) : list nat := seq 0 n.

(** An ensemble that predicts the mean of its training target. *)
Definition mean_fit (n_estimators : nat) (random_state : Z)
    (X : list (list (option Q))) (y : list Q) : Q := mean_Q y.

Definition mean_predict (model : Q) (X : list (list (option Q))) : list Q :=
  map (fun _ => model) X.

Definition uniform_importances (model : Q) : list Q := repeat (1 # 12) 12.

(** The integer square root of the integer part. *)
Definition floor_sqrt (x : Q) : Q := inject_Z (Z.sqrt (Qfloor x)).

Definition twelve_listings : DataFrame :=
  map (fun k => listing_priced (Z.of_nat k) (inject_Z (90 + 10 * Z.of_nat k)))
    (seq 1 12).

Definition three_listings : DataFrame :=
  [listing_priced 1 100; listing_priced 2 150; listing_priced 3 200].

(* ------------------------------------------------------------------ *)
(** ** Keys of groups *)

(** What grouping needs of the key comparisons: [eqb] decides equality and
    [ltb] is a strict total order. *)
Record KeyOrder {K : Type} (eqb ltb : K -> K -> bool) : Prop := mkKeyOrder {
  key_eqb_eq : forall a b, eqb a b = true <-> a = b;
  key_ltb_irrefl : forall a, ltb a a = false;
  key_ltb_trans : forall a b c, ltb a b = true -> ltb b c = true -> ltb a c = true;
  key_ltb_total : forall a b, eqb a b = false -> ltb a b = false -> ltb b a = true
}.

(** The rows of the group with key [k]; none when there is no such group. *)
Definition group_rows {K : Type} (eqb : K -> K -> bool) (k : K)
    (gs : list (K * list Listing)) : list Listing :=
  match find (fun g => eqb k (fst g)) gs with
  | Some g => snd g
  | None => []
  end.

(** The number of rows over all groups. *)
Definition group_total {K : Type} (gs : list (K * list Listing)) : nat :=
  fold_right (fun g acc => (length (snd g) + acc)%nat) 0%nat gs.

(** The keys of the groups are strictly ascending. *)
Definition keys_ascending {K : Type} (ltb : K -> K -> bool)
    (gs : list (K * list Listing)) : Prop :=
  StronglySorted (fun a b => ltb a b = true) (map fst gs).

(* ------------------------------------------------------------------ *)
(** ** The exploratory analysis: [perform_exploratory_analysis] *)

(** A row of [groupby(key)['price'].agg(['mean', 'median', 'count'])];
    [count] counts the prices that are present. *)
Record PriceStats : Type := mkPriceStats {
  stat_key : string;
  stat_mean : option Q;
  stat_median : option Q;
  stat_count : nat
}.

Definition price_agg (gs : list (string * list Listing)) : list PriceStats :=
  map (fun g => let prices := map price (snd g) in
                mkPriceStats (fst g) (mean prices) (median prices)
                  (length (dropna prices))) gs.

(** [sort_values('mean', ascending=False)]: NaN last. *)
Definition mean_desc_leb (a b : PriceStats) : bool :=
  avg_desc_leb (stat_mean a) (stat_mean b).

Record Insights : Type := mkInsights {
  city_prices : list PriceStats;
  room_prices : list PriceStats
}.

(** The insights stored and returned (the printed overview is left out). *)
Definition perform_exploratory_analysis (df : DataFrame) : Insights :=
  let city_prices := price_agg (group_by_string city df) in
  let city_prices := sort_by mean_desc_leb city_prices in
  let room_prices := price_agg (group_by_string room_type df) in
  let room_prices := sort_by mean_desc_leb room_prices in
  mkInsights city_prices room_prices.

(** The number of rows of a frame whose price is present. *)
Definition priced_count (df : DataFrame) : nat := length (dropna (map price df)).

Definition sum_nat (l : list nat) : nat := fold_right Nat.add 0%nat l.

(* ------------------------------------------------------------------ *)
(** ** What numpy guarantees of its draws *)

(** The ranges of the draws: an index below the size, an integer in
    [low, high), a non-negative count, a float between the bounds. *)
Class NumpyRandomLaws (G : Type) `{NumpyRandom G} : Prop := {
  np_choice_range : forall n p g, (0 < n)%nat -> (fst (np_choice n p g) < n)%nat;
  np_randint_range : forall low high g,
    (low < high)%Z -> (low <= fst (np_randint low high g) < high)%Z;
  np_poisson_nonneg : forall lam g, (0 <= fst (np_poisson lam g))%Z;
  np_uniform_range : forall low high g,
    low <= high ->
    low <= fst (np_uniform low high g) /\ fst (np_uniform low high g) <= high
}.

Definition is_bool_cell (f : flag) : bool :=
  match f with BoolCell _ => true | IntCell _ => false end.

(** The shape every generated row has, whatever the draws. *)
Definition generated_shape (r : Listing) : Prop :=
  (review_scores_rating r = None <-> (number_of_reviews r <= 0)%Z)
  /\ forallb is_bool_cell (bool_columns r) = true
  /\ price r <> None.

(** The ranges of the columns of a generated row. *)
Definition generated_ranges (r : Listing) : Prop :=
  In (city r) cities /\ In (room_type r) room_types
  /\ In (property_type r) property_types /\ In (neighborhood r) neighborhoods
  /\ (1 <= bedrooms r <= 5)%Z
  /\ In (bathrooms r) [1; 15 # 10; 2; 25 # 10; 3]
  /\ (bedrooms r * 2 <= accommodates r <= bedrooms r * 2 + 2)%Z
  /\ (0 <= number_of_reviews r)%Z
  /\ (review_scores_rating r = None <-> number_of_reviews r = 0%Z)
  /\ (forall x, review_scores_rating r = Some x -> 35 # 10 <= x /\ x <= 5)
  /\ (5 <= num_amenities r <= 24)%Z
  /\ In (host_listings_count r) [1; 2; 3; 5; 10]%Z
  /\ In (minimum_nights r) [1; 2; 3; 7; 30]%Z
  /\ (0 <= availability_365 r <= 365)%Z
  /\ (exists p, price r = Some p /\ 6885 # 100 <= p /\ p <= 7567 # 10).

(** The band test on a bare price. *)
Definition in_band_Q (a b x : Q) : bool := Qle_bool a x && Qle_bool x b.

(* ------------------------------------------------------------------ *)
(** ** Further notions used in the statements *)

(** The columns cleaning leaves alone: everything but the rating, and the
    truth value of each flag. *)
Definition same_listing (r0 r : Listing) : Prop :=
  listing_id r = listing_id r0 /\ city r = city r0
  /\ neighborhood r = neighborhood r0 /\ property_type r = property_type r0
  /\ room_type r = room_type r0 /\ accommodates r = accommodates r0
  /\ bedrooms r = bedrooms r0 /\ bathrooms r = bathrooms r0
  /\ price r = price r0 /\ minimum_nights r = minimum_nights r0
  /\ number_of_reviews r = number_of_reviews r0
  /\ host_listings_count r = host_listings_count r0
  /\ availability_365 r = availability_365 r0
  /\ num_amenities r = num_amenities r0
  /\ map flag_truth (bool_columns r) = map flag_truth (bool_columns r0).

(** A frame whose two middle listings differ in every numeric column. *)
Definition mixed_listings : DataFrame :=
  [listing_priced 1 50; listing_priced 2 100;
   listing_flagged 3 200 true false true false true; listing_priced 4 400].

(** A frame where two of five listings have no rating. *)
Definition partly_rated : DataFrame :=
  [listing_priced 1 100;
   set_review_scores_rating None (listing_priced 2 150);
   set_review_scores_rating (Some 4) (listing_priced 3 200);
   set_review_scores_rating None (listing_priced 4 250);
   listing_priced 5 300].

(** The group of a key, when it has rows. *)
Definition nonempty_group (k : Z) (rows : list Listing) : list (Z * list Listing) :=
  match rows with
  | [] => []
  | _ :: _ => [(k, rows)]
  end.

(** The mean price of the listings whose flag [col] equals [v]. *)
Definition flag_mean (col : Listing -> flag) (v : Z) (df : DataFrame) : option Q :=
  mean (map price (where_flag col v df)).

(** The rows a with/without comparison should have: the listings without
    the flag first, then those with it, each only when there are any. *)
Definition status_rows (col : Listing -> flag) (with_label without_label : string)
    (listings : DataFrame) : list (string * option Q) :=
  match where_flag col 0 listings with
  | [] => []
  | _ :: _ => [(without_label, sql_round2 (flag_mean col 0 listings))]
  end
  ++ match where_flag col 1 listings with
     | [] => []
     | _ :: _ => [(with_label, sql_round2 (flag_mean col 1 listings))]
     end.

(* ------------------------------------------------------------------ *)
(** ** The pipeline: [main] *)

Record PipelineOutput (Forest : Type) : Type := mkPipelineOutput {
  out_frame : DataFrame;
  out_insights : Insights;
  out_sql : SqlAnalysis;
  out_correlation : list (list (option R));
  out_prediction : Forest * list (string * Q) * list out_line;
  out_figure : Figure;
  out_report : Report
}.
Arguments mkPipelineOutput {Forest} _ _ _ _ _ _ _.
Arguments out_frame {Forest} _.
Arguments out_insights {Forest} _.
Arguments out_sql {Forest} _.
Arguments out_correlation {Forest} _.
Arguments out_prediction {Forest} _.
Arguments out_figure {Forest} _.
Arguments out_report {Forest} _.

Section Pipeline.
Context {G : Type} `{NumpyRandom G}.
Variable read_csv : string -> result DataFrame.
Variable permutation : Z -> nat -> list nat.
Variable Forest : Type.
Variable fit : nat -> Z -> list (list (option Q)) -> list Q -> Forest.
Variable predict : Forest -> list (list (option Q)) -> list Q.
Variable feature_importances_ : Forest -> list Q.
Variable np_sqrt : Q -> Q.

Local Open Scope py_scope.

(** The stages in the order [main] calls them on one analyzer: each works
    on the frame the one before left in [self.df]. *)
Definition main : Py G (PipelineOutput Forest) :=
  df <- load_data read_csv "sample" ;;
  let df := clean_data df in
  let db_connection := create_database df in
  let insights := perform_exploratory_analysis df in
  let sql := perform_sql_analysis (Some db_connection) df in
  let correlation := correlation_analysis df in
  prediction <- call (build_price_prediction_model permutation Forest fit
                        predict feature_importances_ np_sqrt df) ;;
  figure <- call (create_visualizations df) ;;
  report <- call (generate_report df) ;;
  py_ret (mkPipelineOutput df insights sql correlation prediction figure report).

End Pipeline.

(* ================================================================== *)
(** * Properties *)

(** Linear arithmetic over the rationals and over the reals. *)
Ltac lraQ := Lqa.lra.
Ltac lraR := Lra.lra.

(* ------------------------------------------------------------------ *)
(** ** Sorted samples and the monotonicity of the quantile *)

Lemma sort_strongly_sorted (l : list Q) : StronglySorted Qle (QSort.sort l).
Proof.
  assert (Hs : StronglySorted (fun x y => is_true (Qle_bool x y)) (QSort.sort l)).
  { apply QSort.StronglySorted_sort.
    intros x y z Hxy Hyz. unfold is_true in *.
    rewrite Qle_bool_iff in *. eapply Qle_trans; eassumption. }
  induction Hs as [| a t Ht IH Hall]; constructor; auto.
  eapply Forall_impl; [| exact Hall].
  intros x Hx. apply Qle_bool_iff, Hx.
Qed.

Lemma sort_length (l : list Q) : length (QSort.sort l) = length l.
Proof. symmetry. apply Permutation_length, QSort.Permuted_sort. Qed.

Lemma sort_In (l : list Q) (x : Q) : In x (QSort.sort l) <-> In x l.
Proof.
  split; intros Hx.
  - eapply Permutation_in; [apply Permutation_sym, QSort.Permuted_sort | exact Hx].
  - eapply Permutation_in; [apply QSort.Permuted_sort | exact Hx].
Qed.

Lemma nth_sorted (vs : list Q) :
  StronglySorted Qle vs ->
  forall i j, (i <= j)%nat -> (j < length vs)%nat -> nth i vs 0 <= nth j vs 0.
Proof.
  induction 1 as [| a t Ht IH Hall]; intros i j Hij Hj; simpl in Hj.
  - lia.
  - destruct i as [| i], j as [| j]; simpl; try lia.
    + apply Qle_refl.
    + rewrite Forall_forall in Hall. apply Hall, nth_In. lia.
    + apply IH; lia.
Qed.

Lemma clipped_nth_mono (vs : list Q) (i j : nat) :
  StronglySorted Qle vs -> vs <> [] -> (i <= j)%nat ->
  clipped_nth vs i <= clipped_nth vs j.
Proof.
  intros Hs Hne Hij. unfold clipped_nth.
  assert (0 < length vs)%nat by (destruct vs; [congruence | simpl; lia]).
  apply nth_sorted; auto; lia.
Qed.

Lemma lerp_between (a b t : Q) :
  a <= b -> 0 <= t -> t <= 1 -> a <= a + (b - a) * t /\ a + (b - a) * t <= b.
Proof.
  intros Hab H0 H1.
  assert (Hp : 0 <= (b - a) * t) by (apply Qmult_le_0_compat; lraQ).
  assert (Hq : 0 <= (b - a) * (1 - t)) by (apply Qmult_le_0_compat; lraQ).
  split; [lraQ |].
  setoid_replace ((b - a) * (1 - t)) with (b - a - (b - a) * t) in Hq by ring.
  lraQ.
Qed.

Lemma floor_fraction (h : Q) :
  0 <= h - inject_Z (Qfloor h) /\ h - inject_Z (Qfloor h) <= 1.
Proof.
  pose proof (Qfloor_le h) as Hl. pose proof (Qlt_floor h) as Hu.
  rewrite inject_Z_plus in Hu. split; [lraQ |].
  apply Qlt_le_weak. change (inject_Z 1) with 1 in Hu. lraQ.
Qed.

Lemma lerp_at_mono (vs : list Q) (h1 h2 : Q) :
  StronglySorted Qle vs -> vs <> [] -> 0 <= h1 -> h1 <= h2 ->
  lerp_at vs h1 <= lerp_at vs h2.
Proof.
  intros Hs Hne H0 H12. unfold lerp_at.
  pose proof (Qfloor_resp_le _ _ H12) as Hf.
  pose proof (Qfloor_resp_le _ _ H0) as Hf0. change (Qfloor 0) with 0%Z in Hf0.
  destruct (floor_fraction h1) as [Ht1 Ht1'].
  destruct (floor_fraction h2) as [Ht2 Ht2'].
  destruct (Z.eq_dec (Qfloor h1) (Qfloor h2)) as [E | N].
  - rewrite <- E in *.
    pose proof (clipped_nth_mono vs (Z.to_nat (Qfloor h1))
                  (S (Z.to_nat (Qfloor h1))) Hs Hne ltac:(lia)) as Hab.
    set (a := clipped_nth vs (Z.to_nat (Qfloor h1))) in *.
    set (b := clipped_nth vs (S (Z.to_nat (Qfloor h1)))) in *.
    set (f := inject_Z (Qfloor h1)) in *.
    assert (Hp : 0 <= (b - a) * (h2 - h1)) by (apply Qmult_le_0_compat; lraQ).
    setoid_replace ((b - a) * (h2 - h1))
      with ((b - a) * (h2 - f) - (b - a) * (h1 - f)) in Hp by ring.
    lraQ.
  - assert (Hlt : (S (Z.to_nat (Qfloor h1)) <= Z.to_nat (Qfloor h2))%nat) by lia.
    pose proof (clipped_nth_mono vs _ _ Hs Hne (Nat.le_succ_diag_r (Z.to_nat (Qfloor h1)))) as Hab1.
    pose proof (clipped_nth_mono vs _ _ Hs Hne (Nat.le_succ_diag_r (Z.to_nat (Qfloor h2)))) as Hab2.
    pose proof (clipped_nth_mono vs _ _ Hs Hne Hlt) as Hmid.
    destruct (lerp_between _ _ _ Hab1 Ht1 Ht1') as [_ Hu].
    destruct (lerp_between _ _ _ Hab2 Ht2 Ht2') as [Hl _].
    eapply Qle_trans; [exact Hu |]. eapply Qle_trans; [exact Hmid | exact Hl].
Qed.

(** The first percentile never exceeds the ninety-ninth. *)
Lemma quantile_01_le_99 (xs : list (option Q)) (a b : Q) :
  quantile xs (1 # 100) = Some a -> quantile xs (99 # 100) = Some b -> a <= b.
Proof.
  unfold quantile. intros Ha Hb.
  pose proof (sort_strongly_sorted (dropna xs)) as Hs.
  destruct (QSort.sort (dropna xs)) as [| v vs] eqn:E; [discriminate |].
  injection Ha as <-. injection Hb as <-.
  apply lerp_at_mono; auto; try discriminate.
  all: match goal with
       | |- context [inject_Z ?z - 1] =>
           assert (Hn : 1 <= inject_Z z)
             by (change 1 with (inject_Z 1); rewrite <- Zle_Qle; lia);
           set (n := inject_Z z) in *
       end; lraQ.
Qed.

(* ------------------------------------------------------------------ *)
(** ** The cleaner *)

Lemma filter_Subseq {A : Type} (f : A -> bool) (l : list A) :
  Subseq (filter f l) l.
Proof.
  induction l as [| x l IH]; simpl; [constructor |].
  destruct (f x); constructor; exact IH.
Qed.

Lemma price_fill_rating v r : price (fill_rating v r) = price r.
Proof. reflexivity. Qed.

Lemma price_astype r : price (bool_columns_astype_int r) = price r.
Proof. reflexivity. Qed.

Lemma map_price_fill v (df : DataFrame) :
  map price (map (fill_rating v) df) = map price df.
Proof. rewrite map_map. apply map_ext. intros r. apply price_fill_rating. Qed.

Lemma filter_map_fill v q01 q99 (df : DataFrame) :
  filter (in_band q01 q99) (map (fill_rating v) df)
  = map (fill_rating v) (filter (in_band q01 q99) df).
Proof.
  induction df as [| r df IH]; simpl; [reflexivity |].
  assert (E : in_band q01 q99 (fill_rating v r) = in_band q01 q99 r) by reflexivity.
  rewrite E. destruct (in_band q01 q99 r); simpl; now rewrite IH.
Qed.

(** The cleaner keeps exactly the rows inside the band of the frame it was
    given, and transforms each of them on its own. *)
Lemma clean_data_filter (df : DataFrame) :
  clean_data df
  = map (cleaned_row df) (filter (in_band (q01_of df) (q99_of df)) df).
Proof.
  unfold clean_data, q01_of, q99_of, cleaned_row. cbv zeta.
  rewrite map_price_fill, filter_map_fill, map_map.
  reflexivity.
Qed.

Lemma in_band_spec (q01 q99 : option Q) (r : Listing) :
  in_band q01 q99 r = true <->
  exists p a b, price r = Some p /\ q01 = Some a /\ q99 = Some b /\ a <= p /\ p <= b.
Proof.
  unfold in_band, ge_nan, le_nan. rewrite andb_true_iff. split.
  - destruct (price r) as [p |], q01 as [a |], q99 as [b |];
      intros [H1 H2]; try discriminate.
    exists p, a, b. rewrite Qle_bool_iff in H1, H2. auto.
  - intros (p & a & b & -> & -> & -> & H1 & H2).
    rewrite !Qle_bool_iff. auto.
Qed.

(** C2: after cleaning every remaining price lies in the closed band of the
    1st and 99th percentiles of the prices before cleaning; a row whose
    price equals either percentile is kept; and the cleaned frame consists
    of rows of the given frame, in order, none added. *)
Theorem clean_data_price_within_percentiles (df : DataFrame) :
  (forall r, In r (clean_data df) ->
     exists p a b, price r = Some p /\ q01_of df = Some a /\ q99_of df = Some b
                   /\ a <= p /\ p <= b)
  /\ (forall r p a b, In r df -> price r = Some p ->
        q01_of df = Some a -> q99_of df = Some b ->
        p == a \/ p == b -> In (cleaned_row df r) (clean_data df))
  /\ (exists kept, Subseq kept df /\ clean_data df = map (cleaned_row df) kept)
  /\ (length (clean_data df) <= length df)%nat.
Proof.
  rewrite clean_data_filter. repeat split.
  - intros r Hr. apply in_map_iff in Hr as (r0 & <- & Hr0).
    apply filter_In in Hr0 as [_ Hband]. apply in_band_spec in Hband.
    exact Hband.
  - intros r p a b Hr Hp Ha Hb Hpab.
    apply in_map, filter_In. split; [exact Hr |].
    apply in_band_spec. exists p, a, b. repeat split; auto.
    + destruct Hpab as [E | E]; rewrite E;
        [apply Qle_refl | eapply quantile_01_le_99; eassumption].
    + destruct Hpab as [E | E]; rewrite E;
        [eapply quantile_01_le_99; eassumption | apply Qle_refl].
  - exists (filter (in_band (q01_of df) (q99_of df)) df).
    split; [apply filter_Subseq | reflexivity].
  - rewrite length_map. apply filter_length_le.
Qed.

Lemma dropna_nil_iff (xs : list (option Q)) :
  dropna xs = [] <-> Forall (fun x => x = None) xs.
Proof.
  induction xs as [| [x |] xs IH]; simpl.
  - split; auto.
  - split; [discriminate | intros Hx; inversion Hx; discriminate].
  - rewrite IH. split; [intros Hx; constructor; auto | intros Hx; now inversion Hx].
Qed.

Lemma median_None_iff (xs : list (option Q)) :
  median xs = None <-> Forall (fun x => x = None) xs.
Proof.
  rewrite <- dropna_nil_iff. unfold median.
  pose proof (sort_length (dropna xs)) as Hlen.
  destruct (QSort.sort (dropna xs)) as [| v vs] eqn:E.
  - destruct (dropna xs); [tauto | discriminate].
  - split.
    + destruct (Nat.odd _); discriminate.
    + intros Hnil. rewrite Hnil in Hlen. discriminate.
Qed.

Lemma astype_int_cells (r : Listing) :
  forallb is_int_cell (bool_columns r) = true -> bool_columns_astype_int r = r.
Proof.
  destruct r as [? ? ? ? ? ? ? ? ? ? ? ? f1 ? f2 ? ? f3 f4 f5 f6].
  unfold bool_columns, bool_columns_astype_int. simpl.
  destruct f1, f2, f3, f4, f5, f6; simpl; intros Hf; try discriminate; reflexivity.
Qed.

Lemma fill_rating_id (v : option Q) (r : Listing) :
  fillna v (review_scores_rating r) = review_scores_rating r -> fill_rating v r = r.
Proof.
  intros Hf. unfold fill_rating. rewrite Hf. destruct r; reflexivity.
Qed.

Lemma map_id_on {A : Type} (f : A -> A) (l : list A) :
  Forall (fun x => f x = x) l -> map f l = l.
Proof. induction 1 as [| x l Hx _ IH]; simpl; congruence. Qed.

(** A frame whose ratings are settled and whose flags are integers goes
    through the cleaner as through a plain row filter. *)
Lemma clean_data_settled (c : DataFrame) :
  ratings_settled c -> int_flags c ->
  clean_data c = filter (in_band (q01_of c) (q99_of c)) c.
Proof.
  intros Hr Hf. rewrite clean_data_filter. apply map_id_on.
  apply Forall_forall. intros r Hin. apply filter_In in Hin as [Hin _].
  unfold cleaned_row.
  assert (Hfill : fill_rating (median (map review_scores_rating c)) r = r).
  { apply fill_rating_id. destruct Hr as [Hsome | Hnone].
    - rewrite Forall_forall in Hsome. specialize (Hsome r Hin).
      destruct (review_scores_rating r); [reflexivity | congruence].
    - assert (Hm : median (map review_scores_rating c) = None).
      { apply median_None_iff. apply Forall_map. exact Hnone. }
      rewrite Hm. destruct (review_scores_rating r); reflexivity. }
  rewrite Hfill. apply astype_int_cells.
  unfold int_flags in Hf. rewrite Forall_forall in Hf. apply Hf, Hin.
Qed.

Lemma clean_data_int_flags (df : DataFrame) : int_flags (clean_data df).
Proof.
  unfold int_flags, clean_data. cbv zeta.
  apply Forall_forall. intros r Hin.
  apply in_map_iff in Hin as (r0 & <- & _). reflexivity.
Qed.

Lemma clean_data_ratings_settled (df : DataFrame) : ratings_settled (clean_data df).
Proof.
  rewrite clean_data_filter. unfold ratings_settled, cleaned_row.
  destruct (median (map review_scores_rating df)) as [m |] eqn:Em.
  - left. apply Forall_forall. intros r Hin.
    apply in_map_iff in Hin as (r0 & <- & _). simpl.
    destruct (review_scores_rating r0); discriminate.
  - right. apply median_None_iff in Em. rewrite Forall_map in Em.
    rewrite Forall_forall in Em.
    apply Forall_forall. intros r Hin.
    apply in_map_iff in Hin as (r0 & <- & Hin0). apply filter_In in Hin0 as [Hin0 _].
    simpl. rewrite (Em r0 Hin0). reflexivity.
Qed.

Lemma filter_all_true {A : Type} (f : A -> bool) (l : list A) :
  Forall (fun x => f x = true) l <-> filter f l = l.
Proof.
  induction l as [| x l IH]; simpl.
  - split; auto.
  - destruct (f x) eqn:E.
    + rewrite Forall_cons_iff, IH. split; [intros [_ ->]; reflexivity |].
      intros Hx. injection Hx as Hx. auto.
    + split.
      * intros Hx. inversion Hx. congruence.
      * intros Hx. pose proof (filter_length_le f l) as Hl.
        apply (f_equal (@length A)) in Hx. simpl in Hx. lia.
Qed.

Lemma filter_length_all {A : Type} (f : A -> bool) (l : list A) :
  length (filter f l) = length l <-> filter f l = l.
Proof.
  split; [| congruence].
  induction l as [| x l IH]; simpl; [reflexivity |].
  destruct (f x).
  - simpl. intros Hlen. f_equal. apply IH. lia.
  - intros Hlen. pose proof (filter_length_le f l). lia.
Qed.

(** C1, as stated: a second pass over a once-cleaned frame would remove no
    row.  It fails on five listings priced 100, 150, 200, 250 and 300: the
    first pass keeps the three middle ones, the second pass only one. *)
Lemma clean_data_twice_removes_rows :
  ~ (length (clean_data (clean_data five_listings))
     = length (clean_data five_listings)
     /\ map bool_columns (clean_data (clean_data five_listings))
        = map bool_columns (clean_data five_listings)).
Proof.
  intros [Hlen _]. vm_compute in Hlen. discriminate.
Qed.

(** C1, amended: a second pass over a once-cleaned frame changes no cell
    (the six boolean columns are 0/1 integers already) and adds no row; it
    keeps exactly the rows inside the percentile band recomputed on the
    once-cleaned prices, so it removes no row precisely when every
    once-cleaned price lies in that band, and then the frame is a fixed
    point of the cleaner. *)
Theorem clean_data_second_pass (df : DataFrame) :
  let c := clean_data df in
  int_flags c
  /\ clean_data c = filter (in_band (q01_of c) (q99_of c)) c
  /\ Subseq (clean_data c) c
  /\ (length (clean_data c) = length c <-> all_in_own_band c)
  /\ (clean_data c = c <-> all_in_own_band c).
Proof.
  intros c.
  assert (Hc : clean_data c = filter (in_band (q01_of c) (q99_of c)) c).
  { apply clean_data_settled;
      [apply clean_data_ratings_settled | apply clean_data_int_flags]. }
  split; [apply clean_data_int_flags |].
  split; [exact Hc |].
  rewrite Hc. split; [apply filter_Subseq |].
  unfold all_in_own_band. rewrite filter_all_true.
  split; [apply filter_length_all | reflexivity].
Qed.

(* ------------------------------------------------------------------ *)
(** ** The generator *)

Lemma py_max_ge (a x : Q) : a <= py_max a x.
Proof.
  unfold py_max. destruct (Qle_bool x a) eqn:E; [apply Qle_refl |].
  destruct (Qlt_le_dec a x) as [Hlt | Hle]; [apply Qlt_le_weak, Hlt |].
  apply Qle_bool_iff in Hle. congruence.
Qed.

Ltac step_draws :=
  repeat match goal with
         | |- context [let (_, _) := ?m in _] => destruct m
         | |- context [if ?b then _ else _] => destruct b
         end.

Section GeneratorFacts.
Context {G : Type} `{NumpyRandom G}.

Lemma generate_listing_price (i : Z) (g : G) :
  exists p, price (fst (generate_listing i g)) = Some p /\ 30 <= p.
Proof.
  unfold generate_listing, bind, ret, choice_bool, choice, bind, ret.
  destruct (np_choice (length cities) None g) as [i1 g1].
  destruct (np_choice (length room_types) _ g1) as [i2 g2].
  destruct (np_choice (length property_types) None g2) as [i3 g3].
  destruct (np_choice (length neighborhoods) None g3) as [i4 g4].
  destruct (np_randint 1 6 g4) as [beds g5].
  destruct (np_choice _ _ g5) as [i5 g6].
  destruct (np_randint 0 3 g6) as [extra g7].
  destruct (np_poisson 20 g7) as [reviews g8].
  destruct (0 <? reviews)%Z; step_draws; simpl;
    (eexists; split; [reflexivity | apply py_max_ge]).
Qed.

Lemma generate_rows_length (todo : nat) :
  forall i g, length (fst (generate_rows todo i g)) = todo.
Proof.
  induction todo as [| todo IH]; intros i g; simpl; [reflexivity |].
  unfold bind, ret.
  destruct (generate_listing i g) as [row g1].
  specialize (IH (i + 1)%Z g1).
  destruct (generate_rows todo (i + 1)%Z g1) as [rest g2].
  simpl in *. congruence.
Qed.

Lemma generate_rows_price (todo : nat) :
  forall i g,
    Forall (fun r => exists p, price r = Some p /\ 30 <= p)
      (fst (generate_rows todo i g)).
Proof.
  induction todo as [| todo IH]; intros i g; simpl; [constructor |].
  unfold bind, ret.
  pose proof (generate_listing_price i g) as Hrow.
  destruct (generate_listing i g) as [row g1].
  specialize (IH (i + 1)%Z g1).
  destruct (generate_rows todo (i + 1)%Z g1) as [rest g2].
  simpl in *. constructor; assumption.
Qed.

Lemma generate_sample_data_rows (n : nat) (g : G) :
  _generate_sample_data n g = generate_rows n 0%Z (np_seed 42).
Proof. reflexivity. Qed.

(** C7: two runs of the generator with the same listing count return the
    same frame (same rows, same values, same order) and leave the same
    generator state, whatever the state of the global generator was
    before each run: the run starts by re-seeding it with 42. *)
Theorem generate_sample_data_deterministic (n : nat) (g1 g2 : G) :
  _generate_sample_data n g1 = _generate_sample_data n g2.
Proof. rewrite !generate_sample_data_rows. reflexivity. Qed.

(** C8: a generated frame has the requested number of rows, each priced
    at 30 or more; after cleaning, every remaining price is positive. *)
Theorem generated_prices_at_least_30 (n : nat) (g : G) :
  let df := fst (_generate_sample_data n g) in
  length df = n
  /\ Forall (fun r => exists p, price r = Some p /\ 30 <= p) df
  /\ Forall (fun r => exists p, price r = Some p /\ 0 < p) (clean_data df).
Proof.
  intros df. subst df. rewrite generate_sample_data_rows.
  split; [apply generate_rows_length |].
  pose proof (generate_rows_price n 0%Z (np_seed 42)) as Hprice.
  split; [exact Hprice |].
  rewrite clean_data_filter. apply Forall_forall. intros r Hin.
  apply in_map_iff in Hin as (r0 & <- & Hin0).
  apply filter_In in Hin0 as [Hin0 _].
  rewrite Forall_forall in Hprice. destruct (Hprice r0 Hin0) as (p & Hp & Hge).
  exists p. split; [exact Hp | lraQ].
Qed.

End GeneratorFacts.

(* ------------------------------------------------------------------ *)
(** ** The loader *)

Section LoaderFacts.
Context {G : Type} `{NumpyRandom G}.
Variable read_csv : string -> result DataFrame.

Lemma draw_generate (n : nat) (w : World G) :
  exists df g,
    draw (_generate_sample_data n) w = (Ok df, mkWorld g (stdout w))
    /\ length df = n.
Proof.
  unfold draw.
  pose proof (generate_rows_length n 0%Z (np_seed 42)) as Hlen.
  rewrite generate_sample_data_rows.
  destruct (generate_rows n 0%Z (np_seed 42)) as [df g].
  exists df, g. split; [reflexivity | exact Hlen].
Qed.

(** C3: whatever the source and whatever [read_csv] does with it, returning
    a table or raising, [load_data] returns a frame and raises nothing;
    for a path, the frame is the table read when reading succeeds and the
    generated frame when reading raises. *)
Theorem load_data_never_raises (data_source : string) (w : World G) :
  exists df w',
    load_data read_csv data_source w = (Ok df, w')
    /\ (forall table, data_source <> "sample"%string ->
          read_csv data_source = Ok table -> df = table)
    /\ (forall e, data_source <> "sample"%string ->
          read_csv data_source = Raise e ->
          df = fst (_generate_sample_data 1000 (rng w))).
Proof.
  unfold load_data, py_bind, try_except, print, call, py_ret.
  destruct (String.eqb_spec data_source "sample") as [Es | Ns].
  - destruct (draw_generate 1000 (mkWorld (rng w) (stdout w ++ [MsgLoading])))
      as (df & g & Hd & _).
    simpl. rewrite Hd. exists df. eexists.
    split; [reflexivity | split; intros; contradiction].
  - simpl. destruct (read_csv data_source) as [df | e].
    + exists df. eexists. split; [reflexivity |].
      split; [intros table _ Ht; congruence | intros e _ He; discriminate].
    + unfold draw. simpl.
      rewrite !generate_sample_data_rows.
      destruct (generate_rows 1000 0%Z (np_seed 42)) as [df g].
      exists df. eexists. split; [reflexivity |].
      split; [intros table _ Ht; discriminate | intros; reflexivity].
Qed.

(** C10: when the source is a path and reading it raises, the frame
    returned is the generated one with exactly 1000 rows, and the output
    shows the error and the fallback notice. *)
Theorem load_data_fallback_has_1000_rows (data_source : string) (e : exn)
    (w : World G) :
  data_source <> "sample"%string ->
  read_csv data_source = Raise e ->
  exists df w',
    load_data read_csv data_source w = (Ok df, w')
    /\ length df = 1000%nat
    /\ df = fst (_generate_sample_data 1000 (rng w))
    /\ stdout w' = stdout w ++ [MsgLoading; MsgErrorLoading e; MsgGeneratingInstead].
Proof.
  intros Hsrc Hread.
  unfold load_data, py_bind, try_except, print, call, py_ret.
  apply String.eqb_neq in Hsrc. rewrite Hsrc. simpl. rewrite Hread.
  unfold draw. simpl.
  pose proof (generate_rows_length 1000 0%Z (np_seed 42)) as Hlen.
  rewrite !generate_sample_data_rows.
  destruct (generate_rows 1000 0%Z (np_seed 42)) as [df g].
  exists df. eexists. split; [reflexivity |].
  split; [exact Hlen |]. split; [reflexivity |].
  simpl. rewrite <- !app_assoc. reflexivity.
Qed.

End LoaderFacts.

Lemma load_data_fallback_witness :
  exists df w',
    load_data (fun _ => Raise (Exception "FileNotFoundError" "listings.csv"))
      "listings.csv" (mkWorld 7%Z [])
    = (Ok df, w')
    /\ length df = 1000%nat
    /\ df = fst (_generate_sample_data 1000 7%Z)
    /\ stdout w' = [] ++ [MsgLoading;
                          MsgErrorLoading (Exception "FileNotFoundError" "listings.csv");
                          MsgGeneratingInstead].
Proof.
  apply (load_data_fallback_has_1000_rows
           (fun _ => Raise (Exception "FileNotFoundError" "listings.csv"))
           "listings.csv" (Exception "FileNotFoundError" "listings.csv")
           (mkWorld 7%Z [])).
  - discriminate.
  - reflexivity.
Defined.

(* ------------------------------------------------------------------ *)
(** ** Grouping *)

Section GroupByFacts.
Context {K : Type} (eqb ltb : K -> K -> bool) (key : Listing -> K).

Lemma group_insert_nonempty (r : Listing) (gs : list (K * list Listing)) :
  group_insert eqb ltb key r gs <> [].
Proof.
  destruct gs as [| [k rs] t]; simpl; [discriminate |].
  destruct (eqb (key r) k); [discriminate |].
  destruct (ltb (key r) k); discriminate.
Qed.

Lemma fold_group_insert_nonempty (table : DataFrame) :
  forall gs, (table <> [] \/ gs <> []) ->
  fold_left (fun gs r => group_insert eqb ltb key r gs) table gs <> [].
Proof.
  induction table as [| r table IH]; intros gs Hne; simpl.
  - destruct Hne as [Hne | Hne]; [congruence | exact Hne].
  - apply IH. right. apply group_insert_nonempty.
Qed.

Lemma group_by_nonempty (table : DataFrame) :
  table <> [] -> group_by eqb ltb key table <> [].
Proof. intros Hne. apply fold_group_insert_nonempty. left. exact Hne. Qed.

Lemma group_insert_holds (P : Listing -> Prop) (r : Listing)
    (gs : list (K * list Listing)) :
  P r -> groups_hold P gs -> groups_hold P (group_insert eqb ltb key r gs).
Proof.
  intros Hr. unfold groups_hold.
  induction gs as [| [k rs] t IH]; intros Hgs; simpl.
  - repeat constructor; [discriminate | exact Hr].
  - inversion Hgs as [| g t' [Hne Hall] Ht]; subst.
    destruct (eqb (key r) k).
    + constructor; [| exact Ht]. simpl in *. split.
      * destruct rs; discriminate.
      * apply Forall_app. split; [exact Hall | repeat constructor; exact Hr].
    + destruct (ltb (key r) k).
      * constructor; [| exact Hgs]. simpl. split; [discriminate |].
        repeat constructor. exact Hr.
      * constructor; [split; assumption | apply IH, Ht].
Qed.

Lemma fold_group_insert_holds (P : Listing -> Prop) (table : DataFrame) :
  Forall P table ->
  forall gs, groups_hold P gs ->
  groups_hold P (fold_left (fun gs r => group_insert eqb ltb key r gs) table gs).
Proof.
  induction 1 as [| r table Hr _ IH]; intros gs Hgs; simpl; [exact Hgs |].
  apply IH, group_insert_holds; assumption.
Qed.

Lemma group_by_holds (P : Listing -> Prop) (table : DataFrame) :
  Forall P table -> groups_hold P (group_by eqb ltb key table).
Proof. intros Hall. apply fold_group_insert_holds; [exact Hall | constructor]. Qed.

End GroupByFacts.

Lemma flag_group_insert_shape (col : Listing -> flag) (r : Listing)
    (gs : list (Z * list Listing)) :
  flag_groups_shape gs ->
  flag_groups_shape
    (group_insert Z.eqb Z.ltb (fun r => flag_int (col r)) r gs).
Proof.
  unfold flag_groups_shape, flag_int.
  intros [Hs | [Hs | [Hs | Hs]]];
    destruct gs as [| [k1 rs1] [| [k2 rs2] [| g3 t]]]; simpl in Hs;
    try discriminate; inversion Hs; subst;
    simpl; destruct (flag_truth (col r)); simpl; auto.
Qed.

Lemma flag_group_by_shape (col : Listing -> flag) (table : DataFrame) :
  flag_groups_shape (group_by_Z (fun r => flag_int (col r)) table).
Proof.
  unfold group_by_Z, group_by.
  assert (Hgen : forall gs, flag_groups_shape gs ->
            flag_groups_shape
              (fold_left (fun gs r =>
                 group_insert Z.eqb Z.ltb (fun r => flag_int (col r)) r gs)
                 table gs)).
  { induction table as [| r table IH]; intros gs Hgs; simpl; [exact Hgs |].
    apply IH, flag_group_insert_shape, Hgs. }
  apply Hgen. left. reflexivity.
Qed.

(* ------------------------------------------------------------------ *)
(** ** The aggregator *)

Lemma status_query_labels (col : Listing -> flag) (with_label without_label : string)
    (listings : DataFrame) (l : string) (v : option Q) :
  In (l, v) (status_query col with_label without_label listings) ->
  l = with_label \/ l = without_label.
Proof.
  unfold status_query. intros Hin.
  apply in_map_iff in Hin as (a & Ha & _).
  injection Ha as Hl _. destruct (row_key a =? 1)%Z; auto.
Qed.

(** On every table, the amenity comparison has rows for WiFi, kitchen and
    pool only. *)
Lemma amenity_impact_labels (db_connection : option DataFrame) (df : DataFrame)
    (l : string) (v : option Q) :
  In (l, v) (amenity_impact (perform_sql_analysis db_connection df)) ->
  In l ["With WiFi"; "No WiFi"; "With Kitchen"; "No Kitchen";
        "With Pool"; "No Pool"]%string.
Proof.
  unfold perform_sql_analysis. simpl. unfold query2.
  rewrite !in_app_iff.
  intros [Hin | [Hin | Hin]]; apply status_query_labels in Hin;
    destruct Hin as [-> | ->]; simpl; tauto.
Qed.

(** C5, at a cleaned frame where one listing has parking and one has not:
    the aggregator compares WiFi, kitchen and pool and the two host
    statuses, and has no row for parking, while the amenity chart of
    [create_visualizations] covers all four amenities. *)
Theorem perform_sql_analysis_omits_parking :
  let df := clean_data four_listings in
  let analysis := perform_sql_analysis None df in
  map (fun r => flag_int (has_parking r)) df = [1; 0]%Z
  /\ map fst (amenity_impact analysis)
     = ["No WiFi"; "With WiFi"; "No Kitchen"; "With Kitchen";
        "No Pool"; "With Pool"]%string
  /\ map row_key (superhost_premium analysis)
     = ["Regular Host"; "Superhost"]%string
  /\ (exists fig, create_visualizations df = Ok fig
        /\ map fst (amenity_bars fig)
           = ["WiFi"; "Kitchen"; "Parking"; "Pool"]%string).
Proof.
  vm_compute. repeat split. eexists. split; reflexivity.
Qed.

(* ------------------------------------------------------------------ *)
(** ** The presenters *)

Lemma insert_by_length {A : Type} (leb : A -> A -> bool) (x : A) (l : list A) :
  length (insert_by leb x l) = S (length l).
Proof.
  induction l as [| y t IH]; simpl; [reflexivity |].
  destruct (leb x y); simpl; congruence.
Qed.

Lemma sort_by_length {A : Type} (leb : A -> A -> bool) (l : list A) :
  length (sort_by leb l) = length l.
Proof.
  induction l as [| x t IH]; simpl; [reflexivity |].
  rewrite insert_by_length. congruence.
Qed.

Lemma plot_series_ok {K : Type} (s : list (K * option Q)) :
  s <> [] -> plot_series s = Ok s.
Proof. destruct s; [congruence | reflexivity]. Qed.

Lemma nonempty_length {A : Type} (l : list A) : l <> [] <-> (0 < length l)%nat.
Proof. destruct l; simpl; split; intros; try congruence; lia. Qed.

Lemma bar2_ok (label0 label1 : string) (height : list (option Q)) :
  length height = 1%nat \/ length height = 2%nat ->
  exists bars, bar2 label0 label1 height = Ok bars /\ length bars = 2%nat.
Proof.
  destruct height as [| v0 [| v1 [| v2 t]]]; simpl; intros [Hl | Hl];
    try discriminate; eexists; split; reflexivity.
Qed.

Lemma flag_groups_count (col : Listing -> flag) (df : DataFrame) :
  df <> [] ->
  let gs := group_by_Z (fun r => flag_int (col r)) df in
  length gs = 1%nat \/ length gs = 2%nat.
Proof.
  intros Hne gs.
  pose proof (flag_group_by_shape col df) as Hshape.
  pose proof (group_by_nonempty Z.eqb Z.ltb (fun r => flag_int (col r)) df Hne) as Hgs.
  fold (group_by_Z (fun r => flag_int (col r)) df) in Hgs. fold gs in Hshape, Hgs.
  unfold flag_groups_shape in Hshape.
  rewrite <- (length_map fst gs).
  destruct Hshape as [Hs | [Hs | [Hs | Hs]]]; rewrite Hs; simpl; auto.
  destruct gs; [congruence | discriminate].
Qed.

Lemma mean_present (rows : DataFrame) :
  rows <> [] -> prices_present rows -> exists m, mean (map price rows) = Some m.
Proof.
  intros Hne Hp. unfold mean.
  destruct rows as [| r t]; [congruence |].
  inversion Hp as [| r' t' Hr _]; subst. simpl.
  destruct (price r) as [p |]; [| congruence].
  simpl. eexists. reflexivity.
Qed.

Lemma first_max_from_some {K : Type} (s : list (K * option Q)) :
  forall best, best <> None -> first_max best s <> None.
Proof.
  induction s as [| [k [v |]] t IH]; intros best Hb; simpl; auto.
  destruct best as [[kb b] |]; [| congruence].
  destruct (Qle_bool v b); apply IH; discriminate.
Qed.

Lemma idxmax_ok {K : Type} (s : list (K * option Q)) :
  s <> [] -> Forall (fun e => snd e <> None) s -> exists k, idxmax s = Ok k.
Proof.
  intros Hne Hall. unfold idxmax.
  destruct s as [| [k v] t]; [congruence |].
  inversion Hall as [| e t' He _]; subst. simpl in He.
  destruct v as [v |]; [| congruence]. simpl.
  pose proof (first_max_from_some t (Some (k, v)) ltac:(discriminate)) as Hm.
  destruct (first_max (Some (k, v)) t) as [[k' v'] |]; [eauto | congruence].
Qed.

Lemma group_mean_price_present {K : Type} (gs : list (K * list Listing)) :
  groups_hold (fun r => price r <> None) gs ->
  Forall (fun e => snd e <> None) (group_mean_price gs).
Proof.
  unfold groups_hold, group_mean_price. intros Hgs.
  apply Forall_map. eapply Forall_impl; [| exact Hgs].
  intros [k rows] [Hne Hp]. simpl in *.
  destruct (mean_present rows Hne Hp) as [m Hm]. rewrite Hm. discriminate.
Qed.

Lemma create_visualizations_ok (df : DataFrame) :
  df <> [] -> exists fig, create_visualizations df = Ok fig.
Proof.
  intros Hne. unfold create_visualizations.
  rewrite plot_series_ok.
  2: { apply nonempty_length. rewrite sort_by_length.
       unfold group_mean_price. rewrite length_map. apply nonempty_length.
       apply group_by_nonempty, Hne. }
  rewrite plot_series_ok.
  2: { apply nonempty_length. unfold group_mean_price. rewrite length_map.
       apply nonempty_length. apply group_by_nonempty, Hne. }
  destruct (bar2_ok "Regular Host" "Superhost"
              (map snd (group_mean_price
                 (group_by_Z (fun r => flag_int (host_is_superhost r)) df))))
    as (bars & Hbars & _).
  { unfold group_mean_price. rewrite !length_map.
    apply flag_groups_count, Hne. }
  rewrite Hbars. eexists. reflexivity.
Qed.

Lemma generate_report_ok (df : DataFrame) :
  df <> [] -> prices_present df -> exists rep, generate_report df = Ok rep.
Proof.
  intros Hne Hp. unfold generate_report.
  destruct (idxmax_ok (group_mean_price (group_by_string city df))) as [k Hk].
  - apply nonempty_length. unfold group_mean_price. rewrite length_map.
    apply nonempty_length. apply group_by_nonempty, Hne.
  - apply group_mean_price_present. apply group_by_holds, Hp.
  - rewrite Hk. eexists. reflexivity.
Qed.

Lemma clean_data_prices_present (df : DataFrame) : prices_present (clean_data df).
Proof.
  rewrite clean_data_filter. apply Forall_forall. intros r Hin.
  apply in_map_iff in Hin as (r0 & <- & Hin0).
  apply filter_In in Hin0 as [_ Hband].
  apply in_band_spec in Hband as (p & _ & _ & Hp & _).
  unfold cleaned_row. rewrite price_astype, price_fill_rating. congruence.
Qed.

(** C4: on a cleaned frame with at least one row, neither presenter raises:
    [create_visualizations] builds its six panels and [generate_report] its
    key findings. *)
Theorem presenters_do_not_crash (df : DataFrame) :
  clean_data df <> [] ->
  (exists fig, create_visualizations (clean_data df) = Ok fig)
  /\ (exists rep, generate_report (clean_data df) = Ok rep).
Proof.
  intros Hne. split.
  - apply create_visualizations_ok, Hne.
  - apply generate_report_ok; [exact Hne | apply clean_data_prices_present].
Qed.

Lemma presenters_do_not_crash_witness :
  clean_data four_listings <> []
  /\ (exists fig, create_visualizations (clean_data four_listings) = Ok fig)
  /\ (exists rep, generate_report (clean_data four_listings) = Ok rep).
Proof.
  assert (Hne : clean_data four_listings <> []) by (vm_compute; discriminate).
  split; [exact Hne | apply (presenters_do_not_crash four_listings Hne)].
Defined.

(** On an empty frame both presenters raise. *)
Example presenters_raise_on_empty :
  (exists msg, create_visualizations [] = Raise (Exception "IndexError" msg))
  /\ generate_report []
     = Raise (Exception "ValueError" "attempt to get argmax of an empty sequence").
Proof. split; [eexists |]; reflexivity. Qed.

(* ------------------------------------------------------------------ *)
(** ** The correlation matrix *)

Lemma complete_pairs_swap (cx cy : Listing -> option Q) (df : DataFrame) :
  complete_pairs cy cx df = map swap_pair (complete_pairs cx cy df).
Proof.
  induction df as [| r df IH]; simpl; [reflexivity |].
  destruct (cx r), (cy r); simpl; rewrite IH; reflexivity.
Qed.

Lemma pearson_of_pairs_swap (ps : list (R * R)) :
  pearson_of_pairs (map swap_pair ps) = pearson_of_pairs ps.
Proof.
  unfold pearson_of_pairs.
  rewrite length_map, !map_map. simpl.
  replace (map (fun x => snd x) ps) with (map snd ps) by reflexivity.
  replace (map (fun x => fst x) ps) with (map fst ps) by reflexivity.
  set (mx := (Rsum (map fst ps) / INR (length ps))%R).
  set (my := (Rsum (map snd ps) / INR (length ps))%R).
  replace (map (fun x => (snd x - my) * (fst x - mx))%R ps)
    with (map (fun p => (fst p - mx) * (snd p - my))%R ps)
    by (apply map_ext; intros; apply Rmult_comm).
  rewrite (Rmult_comm (Rsum (map (fun x => (snd x - my) * (snd x - my))%R ps))).
  reflexivity.
Qed.

Lemma pearson_symmetric (cx cy : Listing -> option Q) (df : DataFrame) :
  pearson cy cx df = pearson cx cy df.
Proof.
  unfold pearson. rewrite complete_pairs_swap.
  destruct (complete_pairs cx cy df) as [| p t]; [reflexivity |].
  apply (pearson_of_pairs_swap (p :: t)).
Qed.

Lemma complete_pairs_diagonal (c : Listing -> option Q) (df : DataFrame) :
  Forall (fun p => snd p = fst p) (complete_pairs c c df).
Proof.
  induction df as [| r df IH]; simpl; [constructor |].
  destruct (c r); [constructor; [reflexivity | exact IH] | exact IH].
Qed.

Lemma Rsum_squares_nonneg (f : R * R -> R) (ps : list (R * R)) :
  (0 <= Rsum (map (fun p => f p * f p) ps))%R.
Proof.
  induction ps as [| p t IH]; simpl; [lraR |].
  pose proof (Rle_0_sqr (f p)) as Hsq. unfold Rsqr in Hsq. lraR.
Qed.

Lemma clip_unit_one : clip_unit 1 = 1%R.
Proof.
  unfold clip_unit.
  destruct (Rlt_dec 1 1) as [Hlt | _]; [reflexivity |].
  destruct (Rlt_dec 1 (-1)) as [Hlt | _]; [lraR | reflexivity].
Qed.

Lemma pearson_of_pairs_diagonal (ps : list (R * R)) (v : R) :
  Forall (fun p => snd p = fst p) ps -> pearson_of_pairs ps = Some v -> v = 1%R.
Proof.
  intros Hdiag. unfold pearson_of_pairs.
  assert (Hext : forall F G : R * R -> R,
            (forall p, snd p = fst p -> F p = G p) -> map F ps = map G ps).
  { intros F G HFG. induction Hdiag as [| p t Hp _ IH]; simpl; [reflexivity |].
    rewrite (HFG p Hp), IH. reflexivity. }
  assert (Hmap : map snd ps = map fst ps) by (apply Hext; auto).
  rewrite Hmap.
  set (m := (Rsum (map fst ps) / INR (length ps))%R).
  assert (Hy : map (fun p => (snd p - m) * (snd p - m))%R ps
               = map (fun p => (fst p - m) * (fst p - m))%R ps)
    by (apply Hext; intros p ->; reflexivity).
  assert (Hc : map (fun p => (fst p - m) * (snd p - m))%R ps
               = map (fun p => (fst p - m) * (fst p - m))%R ps)
    by (apply Hext; intros p ->; reflexivity).
  rewrite Hy, Hc.
  set (ss := Rsum (map (fun p => (fst p - m) * (fst p - m))%R ps)).
  assert (Hss : (0 <= ss)%R) by apply (Rsum_squares_nonneg (fun p => (fst p - m)%R)).
  rewrite (sqrt_square ss Hss).
  destruct (Req_dec_T ss 0) as [_ | Hnz]; [discriminate |].
  intros Hv. injection Hv as <-.
  replace (ss / ss)%R with 1%R by (field; exact Hnz).
  apply clip_unit_one.
Qed.

Lemma pearson_diagonal (c : Listing -> option Q) (df : DataFrame) (v : R) :
  pearson c c df = Some v -> v = 1%R.
Proof.
  unfold pearson. pose proof (complete_pairs_diagonal c df) as Hdiag.
  destruct (complete_pairs c c df) as [| p t]; [discriminate |].
  apply pearson_of_pairs_diagonal, Hdiag.
Qed.

Lemma entry_of_maps {C : Type} (f : C -> C -> option R) (cols : list C) :
  forall (rows : list C) (i j : nat),
    entry (map (fun ci => map (fun cj => f ci cj) cols) rows) i j
    = match nth_error rows i, nth_error cols j with
      | Some ci, Some cj => f ci cj
      | _, _ => None
      end.
Proof.
  unfold entry.
  assert (Hrow : forall (g : C -> option R) (l : list C) (j : nat),
            nth j (map g l) None
            = match nth_error l j with Some cj => g cj | None => None end).
  { intros g l. induction l as [| c l IH]; intros [| j]; simpl; auto. }
  induction rows as [| ci rows IH]; intros [| i] j; simpl.
  - destruct j; reflexivity.
  - destruct j; reflexivity.
  - rewrite Hrow. reflexivity.
  - apply IH.
Qed.

Lemma Rsum_const (c : R) (l : list R) :
  Forall (fun x => x = c) l -> Rsum l = (INR (length l) * c)%R.
Proof.
  induction 1 as [| x l Hx _ IH]; [simpl; lraR |].
  change (Rsum (x :: l)) with (x + Rsum l)%R. rewrite IH, Hx.
  rewrite length_cons, S_INR. lraR.
Qed.

Lemma Rsum_zero (l : list R) : Forall (fun x => x = 0%R) l -> Rsum l = 0%R.
Proof. intros Hl. rewrite (Rsum_const 0 l Hl). lraR. Qed.

Lemma complete_pairs_constant (cx cy : Listing -> option Q) (df : DataFrame) (c : Q) :
  (forall r, In r df -> cx r = Some c) ->
  Forall (fun p => fst p = Q2R c) (complete_pairs cx cy df).
Proof.
  induction df as [| r df IH]; intros Hc; simpl; [constructor |].
  rewrite (Hc r (or_introl eq_refl)).
  assert (IH' := IH (fun r' Hr' => Hc r' (or_intror Hr'))).
  destruct (cy r); [constructor; [reflexivity | exact IH'] | exact IH'].
Qed.

Lemma pearson_of_pairs_constant (ps : list (R * R)) (c : R) :
  ps <> [] -> Forall (fun p => fst p = c) ps -> pearson_of_pairs ps = None.
Proof.
  intros Hne Hc. unfold pearson_of_pairs.
  assert (Hn : INR (length ps) <> 0%R).
  { apply not_0_INR. destruct ps; [congruence | discriminate]. }
  assert (Hmean : (Rsum (map fst ps) / INR (length ps))%R = c).
  { rewrite (Rsum_const c (map fst ps)).
    - rewrite length_map. field. exact Hn.
    - apply Forall_map. exact Hc. }
  rewrite Hmean.
  assert (Hss : Rsum (map (fun p => (fst p - c) * (fst p - c))%R ps) = 0%R).
  { apply Rsum_zero. apply Forall_map. eapply Forall_impl; [| exact Hc].
    intros p Hp. simpl in Hp. rewrite Hp. lraR. }
  rewrite Hss, Rmult_0_l, sqrt_0.
  destruct (Req_dec_T 0 0) as [_ | N]; [reflexivity | congruence].
Qed.

(** A column that is constant over the frame has no defined correlation
    with any column. *)
Lemma pearson_constant_column (cx cy : Listing -> option Q) (df : DataFrame) (c : Q) :
  (forall r, In r df -> cx r = Some c) ->
  pearson cx cy df = None /\ pearson cy cx df = None.
Proof.
  intros Hc.
  assert (H1 : pearson cx cy df = None).
  { unfold pearson. pose proof (complete_pairs_constant cx cy df c Hc) as Hps.
    destruct (complete_pairs cx cy df) as [| p t] eqn:E; [reflexivity |].
    apply (pearson_of_pairs_constant (p :: t) (Q2R c)); [discriminate | exact Hps]. }
  split; [exact H1 | rewrite pearson_symmetric; exact H1].
Qed.

Lemma Rsum_squares_zero (f : R * R -> R) (ps : list (R * R)) :
  Rsum (map (fun p => f p * f p)%R ps) = 0%R -> Forall (fun p => f p = 0%R) ps.
Proof.
  induction ps as [| p t IH]; intros Hs; [constructor |].
  change (f p * f p + Rsum (map (fun p => f p * f p) t) = 0)%R in Hs.
  pose proof (Rsum_squares_nonneg f t) as Ht.
  pose proof (Rle_0_sqr (f p)) as Hp. unfold Rsqr in Hp.
  constructor.
  - apply Rsqr_0_uniq. unfold Rsqr. lraR.
  - apply IH. lraR.
Qed.

Lemma pearson_of_pairs_diagonal_defined (ps : list (R * R)) :
  Forall (fun p => snd p = fst p) ps ->
  Rsum (map (fun p => (fst p - Rsum (map fst ps) / INR (length ps))
                      * (fst p - Rsum (map fst ps) / INR (length ps)))%R ps) <> 0%R ->
  pearson_of_pairs ps = Some 1%R.
Proof.
  intros Hdiag Hnz.
  destruct (pearson_of_pairs ps) as [v |] eqn:E.
  - f_equal. exact (pearson_of_pairs_diagonal ps v Hdiag E).
  - exfalso. revert E. unfold pearson_of_pairs.
    match goal with
    | |- context [Req_dec_T ?d 0] => destruct (Req_dec_T d 0) as [Hz | _]
    end; [| discriminate].
    intros _. apply sqrt_eq_0 in Hz.
    + apply Rmult_integral in Hz. destruct Hz as [Hz | Hz]; [exact (Hnz Hz) |].
      apply Hnz. rewrite <- Hz. f_equal.
      assert (Hmap : map snd ps = map fst ps).
      { clear -Hdiag. induction Hdiag as [| p t Hp _ IH]; simpl; [reflexivity |].
        rewrite Hp, IH. reflexivity. }
      rewrite Hmap. clear -Hdiag.
      generalize (Rsum (map fst ps) / INR (length ps))%R. intros m.
      induction Hdiag as [| p t Hp _ IH]; simpl; [reflexivity |].
      rewrite Hp, IH. reflexivity.
    + apply Rmult_le_pos;
        [apply (Rsum_squares_nonneg (fun p => (fst p - _)%R))
        | apply (Rsum_squares_nonneg (fun p => (snd p - _)%R))].
Qed.

Lemma complete_pairs_in (c : Listing -> option Q) (df : DataFrame) (r : Listing) (x : Q) :
  In r df -> c r = Some x -> In (Q2R x, Q2R x) (complete_pairs c c df).
Proof.
  induction df as [| r' df IH]; intros Hin Hx; [contradiction |].
  simpl. destruct Hin as [-> | Hin].
  - rewrite Hx. left. reflexivity.
  - destruct (c r'); [right |]; apply IH; assumption.
Qed.


Lemma pearson_varies (c : Listing -> option Q) (df : DataFrame) :
  column_varies c df -> pearson c c df = Some 1%R.
Proof.
  intros (r1 & r2 & x1 & x2 & Hr1 & Hr2 & Hx1 & Hx2 & Hne).
  pose proof (complete_pairs_in c df r1 x1 Hr1 Hx1) as H1.
  pose proof (complete_pairs_in c df r2 x2 Hr2 Hx2) as H2.
  pose proof (complete_pairs_diagonal c df) as Hdiag.
  unfold pearson. destruct (complete_pairs c c df) as [| p t] eqn:E; [contradiction |].
  rewrite <- E in *. clear E p t.
  apply pearson_of_pairs_diagonal_defined; [exact Hdiag |].
  intros Hz.
  apply (Rsum_squares_zero (fun p => (fst p - _)%R)) in Hz.
  rewrite Forall_forall in Hz.
  pose proof (Hz _ H1) as E1. pose proof (Hz _ H2) as E2. simpl in E1, E2.
  apply Hne, eqR_Qeq. lraR.
Qed.




Lemma unit_diagonal_when_all_vary (df : DataFrame) :
  (forall name col, In (name, col) numeric_cols -> column_varies col df) ->
  forall k, (k < 10)%nat -> entry (correlation_analysis df) k k = Some 1%R.
Proof.
  intros Hall k Hk. unfold correlation_analysis.
  rewrite (entry_of_maps (fun ci cj => pearson (snd ci) (snd cj) df)).
  destruct (nth_error numeric_cols k) as [[name col] |] eqn:E.
  - simpl. apply pearson_varies, (Hall name). exact (nth_error_In _ _ E).
  - apply nth_error_None in E. simpl in E. lia.
Qed.


(** A frame where the price column has a defined diagonal entry. *)
Example price_diagonal_defined :
  entry (correlation_analysis five_listings) 0 0 = Some 1%R.
Proof.
  destruct (entry (correlation_analysis five_listings) 0 0) as [v |] eqn:E.
  - f_equal. apply (pearson_diagonal price five_listings). exact E.
  - exfalso. revert E.
    change (entry (correlation_analysis five_listings) 0 0)
      with (pearson_of_pairs (complete_pairs price price five_listings)).
    unfold pearson_of_pairs.
    match goal with
    | |- context [Req_dec_T ?d 0] => destruct (Req_dec_T d 0) as [Hz | Hnz]
    end; [| discriminate].
    intros _. apply sqrt_eq_0 in Hz.
    + simpl in Hz. unfold Q2R in Hz. simpl in Hz. lraR.
    + apply Rmult_le_pos;
        [apply (Rsum_squares_nonneg (fun p => (fst p - _)%R))
        | apply (Rsum_squares_nonneg (fun p => (snd p - _)%R))].
Qed.

(** On the cleaned five-row frame the price column varies, so its diagonal
    entry is 1; the bedrooms column is constant, so its diagonal entry is
    NaN. *)
Example cleaned_frame_diagonal :
  entry (correlation_analysis (clean_data five_listings)) 0 0 = Some 1%R
  /\ entry (correlation_analysis (clean_data five_listings)) 2 2 = None.
Proof.
  split.
  - change (entry (correlation_analysis (clean_data five_listings)) 0 0)
      with (pearson price price (clean_data five_listings)).
    apply pearson_varies.
    exists (nth 0 (clean_data five_listings) (listing_priced 0 0)),
           (nth 1 (clean_data five_listings) (listing_priced 0 0)), 150, 200.
    split; [| split; [| split; [| split]]].
    + vm_compute. auto.
    + vm_compute. auto.
    + reflexivity.
    + reflexivity.
    + intros H. vm_compute in H. discriminate.
  - change (entry (correlation_analysis (clean_data five_listings)) 2 2)
      with (pearson (Zcol bedrooms) (Zcol bedrooms) (clean_data five_listings)).
    apply (pearson_constant_column _ _ _ (inject_Z 1)).
    intros r Hr. vm_compute in Hr.
    repeat (destruct Hr as [<- | Hr]; [reflexivity |]). contradiction.
Qed.

(** A cleaned frame on which every numeric column varies: its whole
    diagonal is 1. *)
Example cleaned_mixed_unit_diagonal (k : nat) :
  (k < 10)%nat ->
  entry (correlation_analysis (clean_data mixed_listings)) k k = Some 1%R.
Proof.
  apply unit_diagonal_when_all_vary. intros name col Hin.
  set (d := listing_priced 0 0).
  exists (nth 0 (clean_data mixed_listings) d), (nth 1 (clean_data mixed_listings) d).
  unfold numeric_cols in Hin. simpl in Hin.
  repeat (destruct Hin as [E | Hin];
          [injection E as <- <-; eexists _, _;
           split; [vm_compute; auto |];
           split; [vm_compute; auto |];
           split; [vm_compute; reflexivity |];
           split; [vm_compute; reflexivity |];
           intros H; vm_compute in H; discriminate |]).
  contradiction.
Qed.

(* ------------------------------------------------------------------ *)
(** ** The predictor *)

(** The size of the test part: a fifth of the rows, rounded up. *)
Lemma n_test_fifth (n : nat) :
  Z.to_nat (Qceiling ((2 # 10) * inject_Z (Z.of_nat n))) = ((n + 4) / 5)%nat.
Proof.
  unfold Qceiling, Qfloor. cbn [Qmult Qnum Qden inject_Z Qopp].
  change (Z.pos (10 * 1)) with 10%Z.
  apply Nat2Z.inj. rewrite Nat2Z.inj_div, Nat2Z.inj_add.
  change (Z.of_nat 4) with 4%Z. change (Z.of_nat 5) with 5%Z.
  set (z := Z.of_nat n). assert (0 <= z)%Z by lia.
  pose proof (Z.div_mod (- (2 * z)) 10 ltac:(lia)).
  pose proof (Z.mod_pos_bound (- (2 * z)) 10 ltac:(lia)).
  pose proof (Z.div_mod (z + 4) 5 ltac:(lia)).
  pose proof (Z.mod_pos_bound (z + 4) 5 ltac:(lia)).
  rewrite Z2Nat.id by lia. lia.
Qed.

Lemma fifth_bounds (n : nat) :
  (2 <= n)%nat -> (1 <= (n + 4) / 5 /\ (n + 4) / 5 < n)%nat.
Proof.
  intros Hn.
  pose proof (Nat.div_mod_eq (n + 4) 5) as Hd.
  pose proof (Nat.mod_upper_bound (n + 4) 5 ltac:(lia)) as Hm.
  lia.
Qed.

Lemma in_firstn_in {A : Type} (k : nat) (l : list A) (x : A) :
  In x (firstn k l) -> In x l.
Proof. intros Hx. rewrite <- (firstn_skipn k l). apply in_or_app. now left. Qed.

Lemma in_skipn_in {A : Type} (k : nat) (l : list A) (x : A) :
  In x (skipn k l) -> In x l.
Proof. intros Hx. rewrite <- (firstn_skipn k l). apply in_or_app. now right. Qed.

Lemma take_length {A : Type} (d : A) (l : list A) (idx : list nat) :
  length (take d l idx) = length idx.
Proof. apply length_map. Qed.

Lemma check_finite_take (what : string) (y : list (option Q)) (idx : list nat) :
  Forall (fun v => v <> None) y ->
  Forall (fun i => (i < length y)%nat) idx ->
  exists vs, check_finite what (take None y idx) = Ok vs
             /\ map Some vs = take None y idx.
Proof.
  intros Hy Hidx. induction Hidx as [| i idx Hi _ IH]; simpl.
  - exists []. split; reflexivity.
  - destruct IH as (vs & Hvs & Hmap).
    rewrite Forall_forall in Hy.
    pose proof (Hy (nth i y None) (nth_In y None Hi)) as Hv.
    destruct (nth i y None) as [v |]; [| congruence].
    fold (take None y idx). rewrite Hvs.
    exists (v :: vs). split; [reflexivity | simpl; congruence].
Qed.

Lemma reported_metrics_importances (l : list (string * Q)) :
  reported_metrics (map (fun fi => ImportanceLine (fst fi) (snd fi)) l) = [].
Proof. induction l as [| fi t IH]; simpl; [reflexivity | exact IH]. Qed.

Section PredictorFacts.
Variable permutation : Z -> nat -> list nat.
Variable Forest : Type.
Variable fit : nat -> Z -> list (list (option Q)) -> list Q -> Forest.
Variable predict : Forest -> list (list (option Q)) -> list Q.
Variable feature_importances_ : Forest -> list Q.
Variable np_sqrt : Q -> Q.

(** What numpy guarantees of [permutation]: a rearrangement of [0 .. n-1]. *)
Hypothesis permutation_spec :
  forall seed n, Permutation (permutation seed n) (seq 0 n).

Lemma permutation_length (seed : Z) (n : nat) :
  length (permutation seed n) = n.
Proof.
  rewrite (Permutation_length (permutation_spec seed n)). apply length_seq.
Qed.

Lemma permutation_range (seed : Z) (n : nat) :
  Forall (fun i => (i < n)%nat) (permutation seed n).
Proof.
  apply Forall_forall. intros i Hi.
  apply (Permutation_in _ (permutation_spec seed n)) in Hi.
  apply in_seq in Hi. lia.
Qed.

Lemma train_test_split_fifth (X : list (list (option Q))) (y : list (option Q)) :
  (2 <= length X)%nat ->
  let n := length X in
  let perm := permutation 42 n in
  train_test_split permutation X y (2 # 10) 42
  = Ok (mkSplit (take [] X (skipn ((n + 4) / 5) perm))
                (take [] X (firstn ((n + 4) / 5) perm))
                (take None y (skipn ((n + 4) / 5) perm))
                (take None y (firstn ((n + 4) / 5) perm))).
Proof.
  intros Hn n perm. unfold train_test_split. rewrite n_test_fifth.
  fold n. destruct (fifth_bounds n Hn) as [H1 H2].
  destruct (Nat.eqb_spec (n - (n + 4) / 5) 0) as [E | _]; [lia |].
  fold perm.
  assert (Hfirst : firstn (n - (n + 4) / 5) (skipn ((n + 4) / 5) perm)
                   = skipn ((n + 4) / 5) perm).
  { apply firstn_all2. rewrite length_skipn. unfold perm.
    rewrite permutation_length. lia. }
  rewrite Hfirst. reflexivity.
Qed.

(** C6, amended: on a cleaned frame of at least two rows the predictor
    splits the rows with the permutation seeded by 42, a fifth of them
    (rounded up) held out and the rest for training, fits the ensemble
    (100 trees, seed 42) on the training part, and prints R², RMSE and the
    mean absolute error of the held-out part; the mean squared error is
    computed for the RMSE only and is not printed. *)
Theorem predictor_split_fit_report (df : DataFrame) :
  (2 <= length (clean_data df))%nat ->
  let c := clean_data df in
  let n := length c in
  let perm := permutation 42 n in
  exists s y_tr y_te imp out,
    train_test_split permutation (map features c) (map price c) (2 # 10) 42 = Ok s
    /\ X_test s = take [] (map features c) (firstn ((n + 4) / 5) perm)
    /\ X_train s = take [] (map features c) (skipn ((n + 4) / 5) perm)
    /\ length (X_test s) = ((n + 4) / 5)%nat
    /\ length (X_train s) = (n - (n + 4) / 5)%nat
    /\ map Some y_tr = y_train s
    /\ map Some y_te = y_test s
    /\ build_price_prediction_model permutation Forest fit predict
         feature_importances_ np_sqrt c
       = Ok (fit 100 42 (X_train s) y_tr, imp, out)
    /\ (let y_pred := predict (fit 100 42 (X_train s) y_tr) (X_test s) in
        firstn 3 out
        = [MetricLine R2 (r2_score y_te y_pred);
           MetricLine RMSE (Some (np_sqrt (mean_squared_error y_te y_pred)));
           MetricLine MAE (Some (mean_absolute_error y_te y_pred))])
    /\ reported_metrics out = [R2; RMSE; MAE].
Proof.
  intros Hn c n perm.
  assert (HnX : (2 <= length (map features c))%nat) by (rewrite length_map; exact Hn).
  pose proof (train_test_split_fifth (map features c) (map price c) HnX) as Hsplit.
  cbv zeta in Hsplit. rewrite length_map in Hsplit. fold n perm in Hsplit.
  destruct (fifth_bounds n Hn) as [H1 H2].
  assert (Hy : Forall (fun v => v <> None) (map price c)).
  { apply Forall_map. apply clean_data_prices_present. }
  assert (Hrange : Forall (fun i => (i < length (map price c))%nat) perm).
  { rewrite length_map. apply permutation_range. }
  destruct (check_finite_take "Input y contains NaN" (map price c)
              (skipn ((n + 4) / 5) perm) Hy) as (y_tr & Htr & Htr').
  { apply Forall_forall. intros i Hi. rewrite Forall_forall in Hrange.
    apply Hrange. eapply in_skipn_in, Hi. }
  destruct (check_finite_take "Input contains NaN" (map price c)
              (firstn ((n + 4) / 5) perm) Hy) as (y_te & Hte & Hte').
  { apply Forall_forall. intros i Hi. rewrite Forall_forall in Hrange.
    apply Hrange. eapply in_firstn_in, Hi. }
  eexists. exists y_tr, y_te. eexists. eexists.
  split; [exact Hsplit |]. cbn [X_test X_train y_train y_test].
  split; [reflexivity |]. split; [reflexivity |].
  split. { rewrite take_length, length_firstn. unfold perm.
           rewrite permutation_length. lia. }
  split. { rewrite take_length, length_skipn. unfold perm.
           rewrite permutation_length. reflexivity. }
  split; [exact Htr' |]. split; [exact Hte' |].
  split.
  { unfold build_price_prediction_model. fold c. rewrite Hsplit.
    cbn [X_test X_train y_train y_test]. rewrite Htr, Hte. reflexivity. }
  split; [reflexivity |].
  cbn [app reported_metrics]. rewrite reported_metrics_importances. reflexivity.
Qed.

End PredictorFacts.

Lemma predictor_split_fit_report_witness :
  (2 <= length (clean_data twelve_listings))%nat
  /\ exists model imp out,
       build_price_prediction_model identity_permutation Q mean_fit mean_predict
         uniform_importances floor_sqrt (clean_data twelve_listings)
       = Ok (model, imp, out)
       /\ reported_metrics out = [R2; RMSE; MAE].
Proof.
  assert (Hn : (2 <= length (clean_data twelve_listings))%nat)
    by (vm_compute; repeat constructor).
  split; [exact Hn |].
  destruct (predictor_split_fit_report identity_permutation Q mean_fit
              mean_predict uniform_importances floor_sqrt
              (fun _ n => Permutation_refl (seq 0 n)) twelve_listings Hn)
    as (s & y_tr & y_te & imp & out & _ & _ & _ & _ & _ & _ & _ & Hrun & _ & Hrep).
  exists (mean_fit 100 42 (X_train s) y_tr), imp, out.
  split; [exact Hrun | exact Hrep].
Defined.

(** C6, as stated: all four metrics would be reported.  On the cleaned
    twelve listings the predictor returns normally and its lines carry R²,
    RMSE and the mean absolute error, but none carries the mean squared
    error. *)
Lemma predictor_does_not_report_mse :
  ~ (exists model imp out,
       build_price_prediction_model identity_permutation Q mean_fit mean_predict
         uniform_importances floor_sqrt (clean_data twelve_listings)
       = Ok (model, imp, out)
       /\ reports out MSE = true /\ reports out RMSE = true
       /\ reports out R2 = true /\ reports out MAE = true).
Proof.
  intros (model & imp & out & Hrun & Hmse & _).
  vm_compute in Hrun. injection Hrun as _ _ Hout. subst out.
  vm_compute in Hmse. discriminate.
Qed.

(** A cleaned frame of a single row leaves nothing to train on: the split
    raises. *)
Example predictor_raises_on_one_row :
  length (clean_data three_listings) = 1%nat
  /\ build_price_prediction_model identity_permutation Q mean_fit mean_predict
       uniform_importances floor_sqrt (clean_data three_listings)
     = Raise (Exception "ValueError" "the resulting train set will be empty").
Proof. split; reflexivity. Qed.

(* ================================================================== *)
(** * Further properties of the pipeline *)

(* ------------------------------------------------------------------ *)
(** ** Grouping is a partition of the table by key *)

Lemma Z_key_order : KeyOrder Z.eqb Z.ltb.
Proof.
  constructor.
  - apply Z.eqb_eq.
  - apply Z.ltb_irrefl.
  - intros a b c Hab Hbc. apply Z.ltb_lt in Hab, Hbc. apply Z.ltb_lt. lia.
  - intros a b Hne Hlt. apply Z.eqb_neq in Hne. apply Z.ltb_ge in Hlt.
    apply Z.ltb_lt. lia.
Qed.

Lemma string_ltb_lt (a b : string) :
  String.ltb a b = true <-> OrderedTypeEx.String_as_OT.lt a b.
Proof.
  unfold String.ltb. rewrite <- OrderedTypeEx.String_as_OT.cmp_lt.
  unfold OrderedTypeEx.String_as_OT.cmp.
  destruct (String.compare a b); split; intros; congruence.
Qed.

Lemma string_key_order : KeyOrder String.eqb String.ltb.
Proof.
  constructor.
  - apply String.eqb_eq.
  - intros a. destruct (String.ltb a a) eqn:E; [| reflexivity].
    apply string_ltb_lt in E.
    exfalso. apply (OrderedTypeEx.String_as_OT.lt_not_eq _ _ E). reflexivity.
  - intros a b c Hab Hbc. apply string_ltb_lt in Hab, Hbc. apply string_ltb_lt.
    eapply OrderedTypeEx.String_as_OT.lt_trans; eassumption.
  - intros a b Hne Hlt. apply String.eqb_neq in Hne.
    unfold String.ltb in *.
    pose proof (OrderedTypeEx.String_as_OT.cmp_antisym b a) as Ha.
    pose proof (OrderedTypeEx.String_as_OT.cmp_eq a b) as He.
    unfold OrderedTypeEx.String_as_OT.cmp in *.
    rewrite Ha. destruct (String.compare a b); simpl; try reflexivity.
    + exfalso. apply Hne, He. reflexivity.
    + discriminate.
Qed.

Section GroupPartition.
Context {K : Type} (eqb ltb : K -> K -> bool) (key : Listing -> K).
Hypothesis order : KeyOrder eqb ltb.

Lemma key_eqb_refl (a : K) : eqb a a = true.
Proof. apply (key_eqb_eq _ _ order). reflexivity. Qed.

Lemma key_eqb_sym (a b : K) : eqb a b = eqb b a.
Proof.
  destruct (eqb a b) eqn:E1, (eqb b a) eqn:E2; try reflexivity.
  - apply (key_eqb_eq _ _ order) in E1. subst. rewrite key_eqb_refl in E2. discriminate.
  - apply (key_eqb_eq _ _ order) in E2. subst. rewrite key_eqb_refl in E1. discriminate.
Qed.

Lemma key_ltb_neq (a b : K) : ltb a b = true -> eqb a b = false.
Proof.
  intros Hlt. destruct (eqb a b) eqn:E; [| reflexivity].
  apply (key_eqb_eq _ _ order) in E. subst.
  rewrite (key_ltb_irrefl _ _ order) in Hlt. discriminate.
Qed.

Lemma group_insert_keys_above (r : Listing) (k0 : K) (gs : list (K * list Listing)) :
  ltb k0 (key r) = true ->
  Forall (fun k => ltb k0 k = true) (map fst gs) ->
  Forall (fun k => ltb k0 k = true) (map fst (group_insert eqb ltb key r gs)).
Proof.
  intros Hr. induction gs as [| [k rs] t IH]; intros Hall; simpl.
  - repeat constructor. exact Hr.
  - inversion Hall as [| k' t' Hk Ht]; subst.
    destruct (eqb (key r) k); [constructor; assumption |].
    destruct (ltb (key r) k); simpl; constructor; auto.
Qed.

Lemma group_insert_ascending (r : Listing) (gs : list (K * list Listing)) :
  keys_ascending ltb gs -> keys_ascending ltb (group_insert eqb ltb key r gs).
Proof.
  unfold keys_ascending.
  induction gs as [| [k rs] t IH]; intros Hs; simpl.
  - repeat constructor.
  - simpl in Hs. apply StronglySorted_inv in Hs as [Ht Hk].
    destruct (eqb (key r) k) eqn:Eeq; [simpl; constructor; assumption |].
    destruct (ltb (key r) k) eqn:Elt; simpl.
    + constructor; [constructor; assumption |].
      constructor; [exact Elt |].
      eapply Forall_impl; [| exact Hk].
      intros k' Hk'. eapply (key_ltb_trans _ _ order); eassumption.
    + constructor; [apply IH, Ht |].
      apply group_insert_keys_above; [| exact Hk].
      apply (key_ltb_total _ _ order); assumption.
Qed.

Lemma group_rows_above (k : K) (gs : list (K * list Listing)) :
  Forall (fun k' => ltb k k' = true) (map fst gs) -> group_rows eqb k gs = [].
Proof.
  unfold group_rows. induction gs as [| [k1 rs1] t IH]; intros Hall; simpl.
  - reflexivity.
  - inversion Hall as [| k' t' Hk Ht]; subst.
    rewrite (key_ltb_neq _ _ Hk). apply IH, Ht.
Qed.

Lemma group_rows_insert (r : Listing) (k : K) (gs : list (K * list Listing)) :
  keys_ascending ltb gs ->
  group_rows eqb k (group_insert eqb ltb key r gs)
  = group_rows eqb k gs ++ (if eqb (key r) k then [r] else []).
Proof.
  unfold keys_ascending.
  induction gs as [| [k1 rs1] t IH]; intros Hs.
  - unfold group_rows. simpl. rewrite (key_eqb_sym k (key r)).
    destruct (eqb (key r) k); reflexivity.
  - simpl in Hs. apply StronglySorted_inv in Hs as [Ht Hk1].
    simpl. destruct (eqb (key r) k1) eqn:Eeq.
    + apply (key_eqb_eq _ _ order) in Eeq. unfold group_rows. simpl.
      rewrite Eeq. rewrite (key_eqb_sym k1 k).
      destruct (eqb k k1) eqn:Ek; [reflexivity |].
      fold (group_rows eqb k t). rewrite app_nil_r. reflexivity.
    + destruct (ltb (key r) k1) eqn:Elt.
      * unfold group_rows at 1. simpl. rewrite (key_eqb_sym k (key r)).
        destruct (eqb (key r) k) eqn:Ek.
        -- apply (key_eqb_eq _ _ order) in Ek. subst k.
           rewrite (group_rows_above (key r) ((k1, rs1) :: t)); [reflexivity |].
           simpl. constructor; [exact Elt |].
           eapply Forall_impl; [| exact Hk1].
           intros k' Hk'. eapply (key_ltb_trans _ _ order); eassumption.
        -- fold (group_rows eqb k ((k1, rs1) :: t)). rewrite app_nil_r. reflexivity.
      * unfold group_rows. simpl.
        destruct (eqb k k1) eqn:Ek.
        -- apply (key_eqb_eq _ _ order) in Ek. subst k.
           rewrite Eeq, app_nil_r. reflexivity.
        -- fold (group_rows eqb k (group_insert eqb ltb key r t)).
           fold (group_rows eqb k t). apply IH, Ht.
Qed.

Lemma group_by_snoc (table : DataFrame) (r : Listing) :
  group_by eqb ltb key (table ++ [r])
  = group_insert eqb ltb key r (group_by eqb ltb key table).
Proof. unfold group_by. rewrite fold_left_app. reflexivity. Qed.

Lemma group_by_ascending (table : DataFrame) :
  keys_ascending ltb (group_by eqb ltb key table).
Proof.
  induction table as [| r table IH] using rev_ind.
  - constructor.
  - rewrite group_by_snoc. apply group_insert_ascending, IH.
Qed.

Lemma group_rows_group_by (k : K) (table : DataFrame) :
  group_rows eqb k (group_by eqb ltb key table)
  = filter (fun r => eqb (key r) k) table.
Proof.
  induction table as [| r table IH] using rev_ind.
  - reflexivity.
  - rewrite group_by_snoc, group_rows_insert by apply group_by_ascending.
    rewrite IH, filter_app. simpl. reflexivity.
Qed.

Lemma group_rows_member (k : K) (rs : list Listing) (gs : list (K * list Listing)) :
  keys_ascending ltb gs -> In (k, rs) gs -> group_rows eqb k gs = rs.
Proof.
  unfold keys_ascending, group_rows.
  induction gs as [| [k1 rs1] t IH]; intros Hs Hin; [contradiction |].
  simpl in Hs. apply StronglySorted_inv in Hs as [Ht Hk1]. simpl.
  destruct Hin as [E | Hin].
  - injection E as -> ->. rewrite key_eqb_refl. reflexivity.
  - assert (Hlt : ltb k1 k = true).
    { rewrite Forall_forall in Hk1. apply Hk1.
      apply (in_map fst) in Hin. exact Hin. }
    rewrite key_eqb_sym, (key_ltb_neq _ _ Hlt). apply IH; assumption.
Qed.

Lemma group_by_rows (table : DataFrame) (k : K) (rs : list Listing) :
  In (k, rs) (group_by eqb ltb key table) ->
  rs = filter (fun r => eqb (key r) k) table /\ rs <> [].
Proof.
  intros Hin. split.
  - rewrite <- group_rows_group_by. symmetry.
    apply group_rows_member; [apply group_by_ascending | exact Hin].
  - assert (Hall : Forall (fun _ : Listing => True) table)
      by (apply Forall_forall; auto).
    pose proof (group_by_holds eqb ltb key (fun _ => True) table Hall) as Hh.
    unfold groups_hold in Hh. rewrite Forall_forall in Hh.
    apply (Hh (k, rs) Hin).
Qed.

Lemma group_by_has_key (table : DataFrame) (r : Listing) :
  In r table -> In (key r) (map fst (group_by eqb ltb key table)).
Proof.
  intros Hin.
  assert (Hrows : In r (group_rows eqb (key r) (group_by eqb ltb key table))).
  { rewrite group_rows_group_by. apply filter_In. split; [exact Hin |].
    apply key_eqb_refl. }
  unfold group_rows in Hrows.
  destruct (find _ _) as [[k rs] |] eqn:Ef; [| contradiction].
  apply find_some in Ef as [Hg Hk]. simpl in Hk.
  apply (key_eqb_eq _ _ order) in Hk. subst k.
  apply (in_map fst) in Hg. exact Hg.
Qed.

End GroupPartition.

Lemma group_insert_total {K : Type} (eqb ltb : K -> K -> bool)
    (key : Listing -> K) (r : Listing) (gs : list (K * list Listing)) :
  group_total (group_insert eqb ltb key r gs) = S (group_total gs).
Proof.
  induction gs as [| [k rs] t IH]; simpl; [reflexivity |].
  destruct (eqb (key r) k); simpl.
  - rewrite length_app. simpl. lia.
  - destruct (ltb (key r) k); simpl; [reflexivity | rewrite IH; lia].
Qed.

Lemma group_by_total {K : Type} (eqb ltb : K -> K -> bool)
    (key : Listing -> K) (table : DataFrame) :
  group_total (group_by eqb ltb key table) = length table.
Proof.
  induction table as [| r table IH] using rev_ind; [reflexivity |].
  unfold group_by in *. rewrite fold_left_app. simpl.
  rewrite group_insert_total, IH, length_app. simpl. lia.
Qed.

(* ------------------------------------------------------------------ *)
(** ** Sorting by a boolean order *)

Section SortByFacts.
Context {A : Type} (leb : A -> A -> bool).

Lemma insert_by_perm (x : A) (l : list A) : Permutation (insert_by leb x l) (x :: l).
Proof.
  induction l as [| y t IH]; simpl; [apply Permutation_refl |].
  destruct (leb x y); [apply Permutation_refl |].
  eapply Permutation_trans; [apply perm_skip, IH | apply perm_swap].
Qed.

Lemma sort_by_perm (l : list A) : Permutation (sort_by leb l) l.
Proof.
  induction l as [| x t IH]; simpl; [constructor |].
  eapply Permutation_trans; [apply insert_by_perm | apply perm_skip, IH].
Qed.

Hypothesis leb_total : forall a b, leb a b = true \/ leb b a = true.
Hypothesis leb_trans : forall a b c, leb a b = true -> leb b c = true -> leb a c = true.

Lemma insert_by_sorted (x : A) (l : list A) :
  StronglySorted (fun a b => leb a b = true) l ->
  StronglySorted (fun a b => leb a b = true) (insert_by leb x l).
Proof.
  induction 1 as [| y t Ht IH Hy]; simpl.
  - repeat constructor.
  - destruct (leb x y) eqn:E.
    + constructor; [constructor; assumption |].
      constructor; [exact E |].
      eapply Forall_impl; [| exact Hy]. intros z Hz. eapply leb_trans; eassumption.
    + constructor; [exact IH |].
      assert (Hyx : leb y x = true) by (destruct (leb_total x y); congruence).
      eapply Permutation_Forall; [apply Permutation_sym, insert_by_perm |].
      constructor; assumption.
Qed.

Lemma sort_by_sorted (l : list A) :
  StronglySorted (fun a b => leb a b = true) (sort_by leb l).
Proof.
  induction l as [| x t IH]; simpl; [constructor | apply insert_by_sorted, IH].
Qed.

End SortByFacts.

Lemma StronglySorted_firstn {A : Type} (R : A -> A -> Prop) (k : nat) (l : list A) :
  StronglySorted R l -> StronglySorted R (firstn k l).
Proof.
  intros Hs. revert k. induction Hs as [| x t Ht IH Hx]; intros [| k]; simpl;
    try constructor; auto.
  rewrite Forall_forall in *. intros y Hy. apply Hx. eapply in_firstn_in, Hy.
Qed.

Lemma avg_desc_leb_total (x y : option Q) :
  avg_desc_leb x y = true \/ avg_desc_leb y x = true.
Proof.
  destruct x as [a |], y as [b |]; simpl; auto.
  rewrite !Qle_bool_iff.
  destruct (Qlt_le_dec a b) as [H | H]; [right; apply Qlt_le_weak, H | left; exact H].
Qed.

Lemma avg_desc_leb_trans (x y z : option Q) :
  avg_desc_leb x y = true -> avg_desc_leb y z = true -> avg_desc_leb x z = true.
Proof.
  destruct x as [a |], y as [b |], z as [c |]; simpl; try congruence.
  rewrite !Qle_bool_iff. intros H1 H2. eapply Qle_trans; eassumption.
Qed.

(* ------------------------------------------------------------------ *)
(** ** The exploratory analysis and the SQL queries *)

Lemma sum_nat_perm (l1 l2 : list nat) : Permutation l1 l2 -> sum_nat l1 = sum_nat l2.
Proof. induction 1; simpl; lia. Qed.

Lemma dropna_app (xs ys : list (option Q)) : dropna (xs ++ ys) = dropna xs ++ dropna ys.
Proof.
  induction xs as [| [x |] xs IH]; simpl; [reflexivity | now rewrite IH | exact IH].
Qed.

Lemma priced_count_app (d1 d2 : DataFrame) :
  priced_count (d1 ++ d2) = (priced_count d1 + priced_count d2)%nat.
Proof. unfold priced_count. rewrite map_app, dropna_app, length_app. reflexivity. Qed.

Lemma group_insert_priced {K : Type} (eqb ltb : K -> K -> bool)
    (key : Listing -> K) (r : Listing) (gs : list (K * list Listing)) :
  sum_nat (map (fun g => priced_count (snd g)) (group_insert eqb ltb key r gs))
  = (sum_nat (map (fun g => priced_count (snd g)) gs) + priced_count [r])%nat.
Proof.
  induction gs as [| [k rs] t IH]; simpl; [lia |].
  destruct (eqb (key r) k); simpl.
  - rewrite priced_count_app. lia.
  - destruct (ltb (key r) k); simpl; [lia | rewrite IH; lia].
Qed.

Lemma group_by_priced {K : Type} (eqb ltb : K -> K -> bool)
    (key : Listing -> K) (table : DataFrame) :
  sum_nat (map (fun g => priced_count (snd g)) (group_by eqb ltb key table))
  = priced_count table.
Proof.
  induction table as [| r table IH] using rev_ind; [reflexivity |].
  rewrite group_by_snoc, group_insert_priced, IH, priced_count_app. reflexivity.
Qed.

Lemma price_agg_counts (gs : list (string * list Listing)) :
  map stat_count (price_agg gs) = map (fun g => priced_count (snd g)) gs.
Proof. unfold price_agg. rewrite map_map. reflexivity. Qed.

Lemma mean_desc_sorted (l : list PriceStats) :
  StronglySorted (fun a b => mean_desc_leb a b = true) (sort_by mean_desc_leb l).
Proof.
  apply sort_by_sorted.
  - intros a b. apply avg_desc_leb_total.
  - intros a b c. apply avg_desc_leb_trans.
Qed.

Lemma price_stats_of_groups (key : Listing -> string) (df : DataFrame) (s : PriceStats) :
  In s (sort_by mean_desc_leb (price_agg (group_by_string key df))) ->
  let rows := filter (fun r => String.eqb (key r) (stat_key s)) df in
  rows <> []
  /\ stat_mean s = mean (map price rows)
  /\ stat_median s = median (map price rows)
  /\ stat_count s = priced_count rows.
Proof.
  intros Hin rows.
  apply (Permutation_in _ (sort_by_perm mean_desc_leb _)) in Hin.
  unfold price_agg in Hin. apply in_map_iff in Hin as ([k rs] & <- & Hg).
  apply (group_by_rows String.eqb String.ltb key string_key_order) in Hg
    as [Hrs Hne].
  simpl in *. subst rows. rewrite <- Hrs. auto.
Qed.

(** X1: the per-city and the per-room-type tables of
    [perform_exploratory_analysis] are sorted by descending mean price; each
    row describes a key that occurs in the frame, with the mean, the median
    and the count of the prices of exactly the listings with that key; every
    city of the frame has a row; and the counts of either table add up to
    the number of listings whose price is present. *)
Theorem exploratory_analysis_tables (df : DataFrame) :
  let insights := perform_exploratory_analysis df in
  StronglySorted (fun a b => mean_desc_leb a b = true) (city_prices insights)
  /\ StronglySorted (fun a b => mean_desc_leb a b = true) (room_prices insights)
  /\ (forall s, In s (city_prices insights) ->
        let rows := filter (fun r => String.eqb (city r) (stat_key s)) df in
        rows <> [] /\ stat_mean s = mean (map price rows)
        /\ stat_median s = median (map price rows)
        /\ stat_count s = priced_count rows)
  /\ (forall s, In s (room_prices insights) ->
        let rows := filter (fun r => String.eqb (room_type r) (stat_key s)) df in
        rows <> [] /\ stat_mean s = mean (map price rows)
        /\ stat_median s = median (map price rows)
        /\ stat_count s = priced_count rows)
  /\ (forall r, In r df -> In (city r) (map stat_key (city_prices insights)))
  /\ sum_nat (map stat_count (city_prices insights)) = priced_count df
  /\ sum_nat (map stat_count (room_prices insights)) = priced_count df.
Proof.
  unfold perform_exploratory_analysis. cbv zeta. cbn [city_prices room_prices].
  split; [apply mean_desc_sorted |]. split; [apply mean_desc_sorted |].
  split; [intros s Hs; apply (price_stats_of_groups city df s Hs) |].
  split; [intros s Hs; apply (price_stats_of_groups room_type df s Hs) |].
  split.
  - intros r Hr.
    apply (Permutation_in _ (Permutation_map stat_key
             (Permutation_sym (sort_by_perm mean_desc_leb _)))).
    unfold price_agg. rewrite map_map. simpl.
    apply (group_by_has_key String.eqb String.ltb city string_key_order df r Hr).
  - split.
    + rewrite (sum_nat_perm _ _ (Permutation_map stat_count (sort_by_perm mean_desc_leb _))).
      rewrite price_agg_counts. apply group_by_priced.
    + rewrite (sum_nat_perm _ _ (Permutation_map stat_count (sort_by_perm mean_desc_leb _))).
      rewrite price_agg_counts. apply group_by_priced.
Qed.

Lemma avg_rows_counts {K : Type} (gs : list (K * list Listing)) :
  sum_nat (map num_listings (avg_rows gs)) = group_total gs.
Proof.
  unfold avg_rows. rewrite map_map. simpl.
  induction gs as [| g t IH]; simpl; [reflexivity | rewrite IH; reflexivity].
Qed.

Lemma avg_rows_keys {K : Type} (gs : list (K * list Listing)) :
  map row_key (avg_rows gs) = map fst gs.
Proof. unfold avg_rows. rewrite map_map. reflexivity. Qed.

Lemma avg_rows_of_Z_groups (key : Listing -> Z) (table : DataFrame) (a : AvgRow Z) :
  In a (avg_rows (group_by_Z key table)) ->
  let rows := filter (fun r => Z.eqb (key r) (row_key a)) table in
  rows <> []
  /\ avg_price a = sql_round2 (mean (map price rows))
  /\ num_listings a = length rows.
Proof.
  intros Hin rows. unfold avg_rows in Hin.
  apply in_map_iff in Hin as ([k rs] & <- & Hg).
  apply (group_by_rows Z.eqb Z.ltb key Z_key_order) in Hg as [Hrs Hne].
  simpl in *. subst rows. rewrite <- Hrs. auto.
Qed.

Lemma avg_rows_of_string_groups (key : Listing -> string) (table : DataFrame)
    (a : AvgRow string) :
  In a (avg_rows (group_by_string key table)) ->
  let rows := filter (fun r => String.eqb (key r) (row_key a)) table in
  rows <> []
  /\ avg_price a = sql_round2 (mean (map price rows))
  /\ num_listings a = length rows.
Proof.
  intros Hin rows. unfold avg_rows in Hin.
  apply in_map_iff in Hin as ([k rs] & <- & Hg).
  apply (group_by_rows String.eqb String.ltb key string_key_order) in Hg as [Hrs Hne].
  simpl in *. subst rows. rewrite <- Hrs. auto.
Qed.

(** X2: query 1 of [perform_sql_analysis] returns at most ten rows, sorted
    by descending rounded average price (NULL last); each row is a city of
    the table with the rounded average price and the number of exactly that
    city's listings. *)
Theorem query1_top_cities (listings : DataFrame) :
  length (query1 listings)
  = Nat.min 10 (length (group_by_string city listings))
  /\ StronglySorted
       (fun a b => avg_desc_leb (avg_price a) (avg_price b) = true)
       (query1 listings)
  /\ (forall a, In a (query1 listings) ->
        let rows := filter (fun r => String.eqb (city r) (row_key a)) listings in
        rows <> []
        /\ avg_price a = sql_round2 (mean (map price rows))
        /\ num_listings a = length rows).
Proof.
  unfold query1. split; [| split].
  - rewrite length_firstn, sort_by_length. unfold avg_rows. rewrite length_map.
    reflexivity.
  - apply StronglySorted_firstn. apply sort_by_sorted.
    + intros a b. apply avg_desc_leb_total.
    + intros a b c. apply avg_desc_leb_trans.
  - intros a Hin. apply in_firstn_in in Hin.
    apply (Permutation_in _ (sort_by_perm _ _)) in Hin.
    apply (avg_rows_of_string_groups city listings a Hin).
Qed.

(** X3: query 3 of [perform_sql_analysis] has a row "Regular Host" exactly
    for the listings whose host is no superhost and a row "Superhost" exactly
    for those whose host is one, in this order and only for a non-empty
    group, each with the rounded average price and the size of its group;
    the sizes add up to the size of the table. *)
Theorem query3_superhost_rows (listings : DataFrame) :
  (forall a, In a (query3 listings) ->
     exists v,
       (v = 0%Z /\ row_key a = "Regular Host"%string
        \/ v = 1%Z /\ row_key a = "Superhost"%string)
       /\ where_flag host_is_superhost v listings <> []
       /\ avg_price a
          = sql_round2 (mean (map price (where_flag host_is_superhost v listings)))
       /\ num_listings a = length (where_flag host_is_superhost v listings))
  /\ (map row_key (query3 listings) = []
      \/ map row_key (query3 listings) = ["Regular Host"%string]
      \/ map row_key (query3 listings) = ["Superhost"%string]
      \/ map row_key (query3 listings) = ["Regular Host"; "Superhost"]%string)
  /\ (forall r, In r listings ->
        In (if flag_truth (host_is_superhost r) then "Superhost" else "Regular Host")%string
           (map row_key (query3 listings)))
  /\ sum_nat (map num_listings (query3 listings)) = length listings.
Proof.
  unfold query3.
  set (key := fun r => flag_int (host_is_superhost r)).
  split; [| split; [| split]].
  - intros a Hin. apply in_map_iff in Hin as (a0 & <- & Ha0).
    pose proof (avg_rows_of_Z_groups key listings a0 Ha0) as (Hne & Havg & Hnum).
    pose proof (flag_group_by_shape host_is_superhost listings) as Hshape.
    fold key in Hshape.
    assert (Hk : row_key a0 = 0%Z \/ row_key a0 = 1%Z).
    { apply (in_map row_key) in Ha0. rewrite avg_rows_keys in Ha0.
      unfold flag_groups_shape in Hshape.
      destruct Hshape as [Hs | [Hs | [Hs | Hs]]]; rewrite Hs in Ha0; simpl in Ha0;
        intuition. }
    exists (row_key a0). simpl. unfold where_flag. fold key.
    split; [destruct Hk as [-> | ->]; simpl; auto |]. auto.
  - rewrite map_map. simpl.
    pose proof (flag_group_by_shape host_is_superhost listings) as Hshape.
    fold key in Hshape. unfold flag_groups_shape in Hshape.
    rewrite <- (avg_rows_keys (group_by_Z key listings)) in Hshape.
    rewrite <- (map_map row_key
                  (fun k => if (k =? 1)%Z then "Superhost"%string
                            else "Regular Host"%string)).
    destruct Hshape as [Hs | [Hs | [Hs | Hs]]]; rewrite Hs; simpl; auto.
  - intros r Hr. rewrite map_map. simpl.
    pose proof (group_by_has_key Z.eqb Z.ltb key Z_key_order listings r Hr) as Hk.
    fold (group_by_Z key listings) in Hk.
    rewrite <- (avg_rows_keys (group_by_Z key listings)) in Hk.
    apply in_map_iff in Hk as (a & Ha & Hin).
    apply in_map_iff. exists a. split; [| exact Hin].
    rewrite Ha. unfold key, flag_int.
    destruct (flag_truth (host_is_superhost r)); reflexivity.
  - rewrite map_map. simpl.
    change (fun x : AvgRow Z => num_listings x) with (@num_listings Z).
    rewrite avg_rows_counts. apply group_by_total.
Qed.

(** X4: query 4 of [perform_sql_analysis] lists bedroom counts of at most 5
    in ascending order; each row carries the rounded average price and the
    number of exactly the listings with that bedroom count, and the numbers
    add up to the number of listings with at most five bedrooms. *)
Theorem query4_bedroom_rows (listings : DataFrame) :
  StronglySorted Z.lt (map row_key (query4 listings))
  /\ (forall a, In a (query4 listings) ->
        let rows := filter (fun r => Z.eqb (bedrooms r) (row_key a)) listings in
        (row_key a <= 5)%Z
        /\ rows <> []
        /\ avg_price a = sql_round2 (mean (map price rows))
        /\ num_listings a = length rows)
  /\ sum_nat (map num_listings (query4 listings))
     = length (filter (fun r => (bedrooms r <=? 5)%Z) listings).
Proof.
  unfold query4.
  set (small := filter (fun r => (bedrooms r <=? 5)%Z) listings).
  split; [| split].
  - rewrite avg_rows_keys.
    pose proof (group_by_ascending Z.eqb Z.ltb bedrooms Z_key_order small) as Hs.
    unfold keys_ascending in Hs. fold (group_by_Z bedrooms small) in Hs.
    induction Hs as [| k t Ht IH Hk]; constructor; auto.
    eapply Forall_impl; [| exact Hk]. intros k' Hk'. apply Z.ltb_lt, Hk'.
  - intros a Hin.
    set (rows := filter (fun r => (bedrooms r =? row_key a)%Z) listings).
    pose proof (avg_rows_of_Z_groups bedrooms small a Hin) as (Hne & Havg & Hnum).
    assert (Hle : (row_key a <= 5)%Z).
    { destruct (filter (fun r => (bedrooms r =? row_key a)%Z) small) as [| r t] eqn:E;
        [congruence |].
      assert (Hr : In r (filter (fun r => (bedrooms r =? row_key a)%Z) small))
        by (rewrite E; left; reflexivity).
      apply filter_In in Hr as [Hr Hk]. apply filter_In in Hr as [_ Hb].
      apply Z.eqb_eq in Hk. apply Z.leb_le in Hb. lia. }
    assert (Hrows : filter (fun r => (bedrooms r =? row_key a)%Z) small = rows).
    { unfold small, rows. clear -Hle.
      induction listings as [| r t IH]; simpl; [reflexivity |].
      destruct (Z.leb_spec (bedrooms r) 5); simpl.
      - destruct (bedrooms r =? row_key a)%Z; rewrite IH; reflexivity.
      - destruct (Z.eqb_spec (bedrooms r) (row_key a)); [lia | exact IH]. }
    rewrite Hrows in *. auto.
  - rewrite avg_rows_counts. apply group_by_total.
Qed.

(* ------------------------------------------------------------------ *)
(** ** The generator: shape and ranges of the rows *)


Section GeneratorShape.
Context {G : Type} `{NumpyRandom G}.

Lemma generate_listing_shape (i : Z) (g : G) :
  listing_id (fst (generate_listing i g)) = (i + 1)%Z
  /\ generated_shape (fst (generate_listing i g)).
Proof.
  unfold generate_listing, bind, ret, choice_bool, choice, bind, ret.
  destruct (np_choice (length cities) None g) as [i1 g1].
  destruct (np_choice (length room_types) _ g1) as [i2 g2].
  destruct (np_choice (length property_types) None g2) as [i3 g3].
  destruct (np_choice (length neighborhoods) None g3) as [i4 g4].
  destruct (np_randint 1 6 g4) as [beds g5].
  destruct (np_choice _ _ g5) as [i5 g6].
  destruct (np_randint 0 3 g6) as [extra g7].
  destruct (np_poisson 20 g7) as [reviews g8].
  unfold generated_shape.
  destruct (Z.ltb_spec 0 reviews);
    [destruct (np_uniform (35 # 10) 5 g8) as [x g9] |];
    step_draws; simpl;
    (split; [reflexivity |]); (split; [| split; [reflexivity | discriminate]]);
    split; intros; first [discriminate | lia | reflexivity | exfalso; lia].
Qed.

Lemma generate_rows_shape (todo : nat) :
  forall i g,
    map listing_id (fst (generate_rows todo i g))
    = map (fun k => (i + Z.of_nat k)%Z) (seq 1 todo)
    /\ Forall generated_shape (fst (generate_rows todo i g)).
Proof.
  induction todo as [| todo IH]; intros i g; simpl; [split; constructor |].
  unfold bind, ret.
  pose proof (generate_listing_shape i g) as [Hid Hshape].
  destruct (generate_listing i g) as [row g1].
  destruct (IH (i + 1)%Z g1) as [IHid IHshape].
  destruct (generate_rows todo (i + 1)%Z g1) as [rest g2].
  simpl in *. split; [| constructor; assumption].
  rewrite Hid, IHid. f_equal; try lia.
  rewrite <- (seq_shift todo 1), map_map. apply map_ext. intros k. lia.
Qed.

(** X5: whatever the draws, the generated frame numbers its listings 1, 2,
    ..., n in order; every row has a price, a rating exactly when it has at
    least one review, and its six boolean columns hold booleans. *)
Theorem generated_frame_shape (n : nat) (g : G) :
  let df := fst (_generate_sample_data n g) in
  map listing_id df = map Z.of_nat (seq 1 n)
  /\ Forall generated_shape df.
Proof.
  intros df. subst df. rewrite generate_sample_data_rows.
  destruct (generate_rows_shape n 0%Z (np_seed 42)) as [Hid Hshape].
  split; [| exact Hshape]. rewrite Hid. apply map_ext. intros k. lia.
Qed.

End GeneratorShape.

Lemma round_half_even_ge (k : Z) (x : Q) :
  inject_Z k <= x -> (k <= round_half_even x)%Z.
Proof.
  intros Hk. unfold round_half_even.
  assert (Hf : (k <= Qfloor x)%Z).
  { apply Qfloor_resp_le in Hk. rewrite Qfloor_Z in Hk. exact Hk. }
  destruct (Qcompare _ _); [destruct (Z.even _) | |]; lia.
Qed.

Lemma round_half_even_le (k : Z) (x : Q) :
  x <= inject_Z k -> (round_half_even x <= k)%Z.
Proof.
  intros Hk. unfold round_half_even.
  pose proof (Qfloor_le x) as Hfl.
  assert (Hf : (Qfloor x <= k)%Z).
  { apply Qfloor_resp_le in Hk. rewrite Qfloor_Z in Hk. exact Hk. }
  destruct (Z.eq_dec (Qfloor x) k) as [E | N].
  - assert (Hx : x - inject_Z (Qfloor x) <= 0) by (rewrite E; lraQ).
    destruct (Qcompare (x - inject_Z (Qfloor x)) (1 # 2)) eqn:C.
    + apply Qeq_alt in C. lraQ.
    + lia.
    + apply Qgt_alt in C. lraQ.
  - destruct (Qcompare _ _); [destruct (Z.even _) | |]; lia.
Qed.

Lemma py_round2_bounds (lo hi : Z) (x : Q) :
  inject_Z lo / 100 <= x -> x <= inject_Z hi / 100 ->
  inject_Z lo / 100 <= py_round2 x /\ py_round2 x <= inject_Z hi / 100.
Proof.
  intros Hlo Hhi. unfold py_round2.
  unfold Qdiv in *. change (/ 100) with (1 # 100) in *.
  assert (H1 : inject_Z lo <= x * 100).
  { set (l := inject_Z lo) in *. lraQ. }
  assert (H2 : x * 100 <= inject_Z hi).
  { set (h := inject_Z hi) in *. lraQ. }
  apply round_half_even_ge in H1. apply round_half_even_le in H2.
  rewrite Zle_Qle in H1, H2.
  set (m := inject_Z (round_half_even (x * 100))) in *.
  set (l := inject_Z lo) in *. set (h := inject_Z hi) in *.
  split; lraQ.
Qed.

Lemma mult_bounds (a x b c y d : Q) :
  0 <= a -> a <= x -> x <= b -> 0 <= c -> c <= y -> y <= d ->
  a * c <= x * y /\ x * y <= b * d.
Proof.
  intros. split.
  - apply Qle_trans with (a * y).
    + rewrite !(Qmult_comm a). apply Qmult_le_compat_r; lraQ.
    + apply Qmult_le_compat_r; lraQ.
  - apply Qle_trans with (b * y).
    + apply Qmult_le_compat_r; lraQ.
    + rewrite !(Qmult_comm b). apply Qmult_le_compat_r; lraQ.
Qed.

Lemma base_price_bounds (c rt : string) :
  In c cities -> In rt room_types ->
  36 <= room_type_adjust rt (100 * dict_get city_multipliers c 1)
  /\ room_type_adjust rt (100 * dict_get city_multipliers c 1) <= 225.
Proof.
  intros Hc Hrt. simpl in Hc, Hrt.
  repeat (destruct Hc as [<- | Hc]; [| ]); try contradiction;
    repeat (destruct Hrt as [<- | Hrt]; [| ]); try contradiction;
    vm_compute; split; discriminate.
Qed.

Lemma Q_in_bounds (x lo hi : Q) (l : list Q) :
  In x l -> Forall (fun y => lo <= y /\ y <= hi) l -> lo <= x /\ x <= hi.
Proof. intros Hin Hall. rewrite Forall_forall in Hall. auto. Qed.


Lemma price_before_noise_bounds (base : Q) (bed : Z) (bath : Q) (am : Z)
    (wifi kitchen parking pool superhost : bool) (rating : option Q) :
  36 <= base -> base <= 225 -> (1 <= bed <= 5)%Z ->
  In bath [1; 15 # 10; 2; 25 # 10; 3] -> (5 <= am <= 24)%Z ->
  (forall x, rating = Some x -> 35 # 10 <= x /\ x <= 5) ->
  81 <= price_before_noise base bed bath am wifi kitchen parking pool superhost rating
  /\ price_before_noise base bed bath am wifi kitchen parking pool superhost rating
     <= 658.
Proof.
  intros Hb1 Hb2 Hbed Hbath Ham Hrating. unfold price_before_noise.
  assert (Hbath' : 1 <= bath /\ bath <= 3).
  { simpl in Hbath.
    repeat (destruct Hbath as [<- | Hbath]; [split; discriminate |]).
    contradiction. }
  assert (Hbed' : 1 <= inject_Z bed /\ inject_Z bed <= 5).
  { split; [change 1 with (inject_Z 1) | change 5 with (inject_Z 5)];
      rewrite <- Zle_Qle; lia. }
  assert (Ham' : 5 <= inject_Z am /\ inject_Z am <= 24).
  { split; [change 5 with (inject_Z 5) | change 24 with (inject_Z 24)];
      rewrite <- Zle_Qle; lia. }
  set (zb := inject_Z bed) in *. set (za := inject_Z am) in *.
  assert (Hterm : -15 <= (if py_truthy rating
                          then match rating with
                               | Some r => (r - 4) * 30
                               | None => 0
                               end
                          else 0)
                  /\ (if py_truthy rating
                      then match rating with
                           | Some r => (r - 4) * 30
                           | None => 0
                           end
                      else 0) <= 30).
  { destruct rating as [x |]; simpl; [| split; discriminate].
    destruct (Hrating x eq_refl) as [Hx1 Hx2].
    destruct (negb (Qeq_bool x 0)); [split; lraQ | split; discriminate]. }
  set (term := if py_truthy rating then _ else 0) in *.
  destruct wifi, kitchen, parking, pool, superhost; split; lraQ.
Qed.

Section GeneratorRanges.
Context {G : Type} `{NumpyRandomLaws G}.

Lemma choice_in {A : Type} (d : A) (a : list A) (p : option (list Q)) (g : G) :
  a <> [] -> In (fst (choice d a p g)) a.
Proof.
  intros Hne. unfold choice, bind, ret.
  pose proof (np_choice_range (length a) p g) as Hr.
  destruct (np_choice (length a) p g) as [i g']. simpl in *.
  apply nth_In, Hr. destruct a; [congruence | simpl; lia].
Qed.

Lemma generate_listing_ranges (i : Z) (g : G) :
  generated_ranges (fst (generate_listing i g)).
Proof.
  unfold generate_listing, bind, ret, choice_bool.
  pose proof (choice_in EmptyString cities None g ltac:(discriminate)) as Hcity.
  destruct (choice EmptyString cities None g) as [c g1]. simpl fst in Hcity.
  match goal with |- context [choice EmptyString room_types ?p g1] =>
    pose proof (choice_in EmptyString room_types p g1 ltac:(discriminate)) as Hrt;
    destruct (choice EmptyString room_types p g1) as [rt g2] end. simpl fst in Hrt.
  pose proof (choice_in EmptyString property_types None g2 ltac:(discriminate)) as Hpt.
  destruct (choice EmptyString property_types None g2) as [pt g3]. simpl fst in Hpt.
  pose proof (choice_in EmptyString neighborhoods None g3 ltac:(discriminate)) as Hnb.
  destruct (choice EmptyString neighborhoods None g3) as [nb g4]. simpl fst in Hnb.
  pose proof (np_randint_range 1 6 g4 ltac:(lia)) as Hbed.
  destruct (np_randint 1 6 g4) as [bed g5]. simpl in Hbed.
  match goal with |- context [choice 0 ?a ?p g5] =>
    pose proof (choice_in 0 a p g5 ltac:(discriminate)) as Hbath;
    destruct (choice 0 a p g5) as [bath g6] end. simpl fst in Hbath.
  pose proof (np_randint_range 0 3 g6 ltac:(lia)) as Hex.
  destruct (np_randint 0 3 g6) as [extra g7]. simpl in Hex.
  pose proof (np_poisson_nonneg 20 g7) as Hrev.
  destruct (np_poisson 20 g7) as [rev g8]. simpl in Hrev.
  assert (Hrating : exists rating g9,
    (if (0 <? rev)%Z
     then bind (np_uniform (35 # 10) 5) (fun x => ret (Some x))
     else ret None) g8 = (rating, g9)
    /\ (rating = None <-> rev = 0%Z)
    /\ (forall x, rating = Some x -> 35 # 10 <= x /\ x <= 5)).
  { destruct (Z.ltb_spec 0 rev).
    - unfold bind, ret.
      pose proof (np_uniform_range (35 # 10) 5 g8 ltac:(discriminate)) as Hu.
      destruct (np_uniform (35 # 10) 5 g8) as [x g9]. simpl in Hu.
      exists (Some x), g9. split; [reflexivity |]. split.
      + split; [discriminate | lia].
      + intros y Hy. injection Hy as <-. exact Hu.
    - exists None, g8. split; [reflexivity |]. split.
      + split; [lia | reflexivity].
      + discriminate. }
  destruct Hrating as (rating & g9 & Erating & Hnone & Hrange).
  unfold bind, ret in Erating. rewrite Erating. clear Erating.
  pose proof (np_randint_range 5 25 g9 ltac:(lia)) as Ham.
  destruct (np_randint 5 25 g9) as [am g10]. simpl in Ham.
  repeat match goal with
         | |- context [choice false [true; false] ?p ?g0] =>
             destruct (choice false [true; false] p g0)
         end.
  match goal with |- context [choice 0%Z ?a ?p ?g0] =>
    pose proof (choice_in 0%Z a p g0 ltac:(discriminate)) as Hhl;
    destruct (choice 0%Z a p g0) as [hl g16] end. simpl fst in Hhl.
  repeat match goal with
         | |- context [choice false [true; false] ?p ?g0] =>
             destruct (choice false [true; false] p g0)
         end.
  match goal with |- context [choice 0%Z ?a ?p ?g0] =>
    pose proof (choice_in 0%Z a p g0 ltac:(discriminate)) as Hmn;
    destruct (choice 0%Z a p g0) as [mn g18] end. simpl fst in Hmn.
  match goal with |- context [np_uniform ?lo ?hi ?g0] =>
    pose proof (np_uniform_range lo hi g0 ltac:(discriminate)) as Hnoise;
    destruct (np_uniform lo hi g0) as [noise g19] end. simpl in Hnoise.
  pose proof (np_randint_range 0 366 g19 ltac:(lia)) as Hav.
  destruct (np_randint 0 366 g19) as [av g20]. simpl in Hav.
  cbn [fst]. unfold generated_ranges.
  cbn [city room_type property_type neighborhood bedrooms bathrooms accommodates
       number_of_reviews review_scores_rating num_amenities host_listings_count
       minimum_nights availability_365 price].
  repeat (split; [first [assumption | lia] |]).
  destruct (base_price_bounds c rt Hcity Hrt) as [Hb1 Hb2].
  destruct (price_before_noise_bounds _ bed bath am b b0 b1 b2 b3 rating
              Hb1 Hb2 ltac:(lia) Hbath ltac:(lia) Hrange) as [Hp1 Hp2].
  set (P := price_before_noise _ _ _ _ _ _ _ _ _ _) in *.
  destruct Hnoise as [Hn1 Hn2].
  destruct (mult_bounds 81 P 658 (85 # 100) noise (115 # 100)) as [Hm1 Hm2];
    try assumption; try discriminate.
  destruct (py_round2_bounds 6885 75670 (P * noise)) as [Hr1 Hr2].
  { eapply Qle_trans; [| exact Hm1]. discriminate. }
  { eapply Qle_trans; [exact Hm2 |]. discriminate. }
  set (y := py_round2 (P * noise)) in *.
  assert (Hy1 : 6885 # 100 <= y) by (eapply Qle_trans; [| exact Hr1]; discriminate).
  assert (Hy2 : y <= 7567 # 10) by (eapply Qle_trans; [exact Hr2 |]; discriminate).
  exists y. split; [| split; assumption].
  unfold py_max. destruct (Qle_bool y 30) eqn:E; [| reflexivity].
  apply Qle_bool_iff in E. lraQ.
Qed.
Lemma generate_rows_ranges (todo : nat) :
  forall i g, Forall generated_ranges (fst (generate_rows todo i g)).
Proof.
  induction todo as [| todo IH]; intros i g; simpl; [constructor |].
  unfold bind, ret.
  pose proof (generate_listing_ranges i g) as Hrow.
  destruct (generate_listing i g) as [row g1].
  specialize (IH (i + 1)%Z g1).
  destruct (generate_rows todo (i + 1)%Z g1) as [rest g2].
  simpl in *. constructor; assumption.
Qed.

(** X6: when the draws stay in the ranges numpy documents, every generated
    row has its categories among the listed ones, 1 to 5 bedrooms, a listed
    bathroom count, between twice the bedrooms and two more guests, a rating
    between 3.5 and 5 exactly when it has reviews, 5 to 24 amenities, 0 to
    365 available days, and a price between 68.85 and 756.70: the floor of
    30 in [max(30, ...)] is never the price. *)
Theorem generated_frame_ranges (n : nat) (g : G) :
  Forall generated_ranges (fst (_generate_sample_data n g)).
Proof. rewrite generate_sample_data_rows. apply generate_rows_ranges. Qed.

End GeneratorRanges.

#[export] Instance lcg_laws : NumpyRandomLaws Z.
Proof.
  constructor.
  - intros n p g Hn. simpl.
    pose proof (Z.mod_pos_bound g (Z.of_nat n) ltac:(lia)). lia.
  - intros low high g Hlh. simpl.
    pose proof (Z.mod_pos_bound g (high - low) ltac:(lia)). lia.
  - intros lam g. simpl. pose proof (Z.mod_pos_bound g 40 ltac:(lia)). lia.
  - intros low high g Hlh. simpl.
    pose proof (Z.mod_pos_bound g 1000 ltac:(lia)) as Hm.
    apply lerp_between; [exact Hlh | |]; unfold Qle; simpl; lia.
Qed.

Lemma generated_frame_ranges_witness :
  Forall generated_ranges (fst (_generate_sample_data 3 0%Z)).
Proof. apply (generated_frame_ranges (G := Z) 3 0%Z). Defined.


(* ------------------------------------------------------------------ *)
(** ** How many rows the cleaner keeps *)

Lemma filter_in_band_prices (a b : Q) (df : DataFrame) :
  length (filter (in_band (Some a) (Some b)) df)
  = length (filter (in_band_Q a b) (dropna (map price df))).
Proof.
  induction df as [| r df IH]; simpl; [reflexivity |].
  unfold in_band at 1. unfold ge_nan, le_nan.
  destruct (price r) as [p |]; simpl; [| exact IH].
  unfold in_band_Q at 1. destruct (Qle_bool a p && Qle_bool p b); simpl; now rewrite IH.
Qed.

Lemma filter_length_perm {A : Type} (f : A -> bool) (l l' : list A) :
  Permutation l l' -> length (filter f l) = length (filter f l').
Proof.
  induction 1 as [| x l l' _ IH | x y l | l l' l'' _ IH1 _ IH2]; simpl.
  - reflexivity.
  - destruct (f x); simpl; now rewrite IH.
  - destruct (f x), (f y); reflexivity.
  - congruence.
Qed.

Lemma filter_count_range {A : Type} (f : A -> bool) (d : A) (l : list A) :
  forall i j, (j <= length l)%nat ->
    (forall k, (i <= k < j)%nat -> f (nth k l d) = true) ->
    (j - i <= length (filter f l))%nat.
Proof.
  induction l as [| x t IH]; intros i j Hj Hall; simpl in *; [lia |].
  destruct j as [| j]; [lia |].
  destruct i as [| i].
  - pose proof (Hall 0%nat ltac:(lia)) as Hx. simpl in Hx. rewrite Hx. simpl.
    specialize (IH 0%nat j ltac:(lia)).
    assert (Ht : forall k, (0 <= k < j)%nat -> f (nth k t d) = true).
    { intros k Hk. apply (Hall (S k)). lia. }
    specialize (IH Ht). lia.
  - specialize (IH i j ltac:(lia)).
    assert (Ht : forall k, (i <= k < j)%nat -> f (nth k t d) = true).
    { intros k Hk. apply (Hall (S k)). lia. }
    specialize (IH Ht). destruct (f x); simpl; lia.
Qed.

Lemma virtual_index_floor (n c : nat) :
  (1 <= n)%nat ->
  Z.to_nat (Qfloor ((inject_Z (Z.of_nat n) - 1) * (Z.of_nat c # 100)))
  = ((c * (n - 1)) / 100)%nat.
Proof.
  intros Hn. unfold Qfloor. cbn [Qmult Qminus Qplus Qopp Qnum Qden inject_Z].
  change (Z.pos (1 * 1 * 100)) with 100%Z.
  apply Nat2Z.inj. rewrite Nat2Z.inj_div, Nat2Z.inj_mul, Nat2Z.inj_sub by lia.
  rewrite Z2Nat.id.
  - change (Z.of_nat 100) with 100%Z. change (Z.of_nat 1) with 1%Z. f_equal. ring.
  - apply Z.div_pos; [apply Z.mul_nonneg_nonneg; lia | lia].
Qed.

Lemma priced_sample_length (df : DataFrame) :
  length (QSort.sort (dropna (map price df))) = priced_count df.
Proof. unfold priced_count. apply sort_length. Qed.

Lemma middle_in_band (vs : list Q) (h1 h2 : Q) (k : nat) :
  StronglySorted Qle vs -> vs <> [] -> 0 <= h1 -> 0 <= h2 ->
  (Z.to_nat (Qfloor h1) < k)%nat -> (k <= Z.to_nat (Qfloor h2))%nat ->
  (k < length vs)%nat ->
  in_band_Q (lerp_at vs h1) (lerp_at vs h2) (nth k vs 0) = true.
Proof.
  intros Hs Hne H1 H2 Hlo Hhi Hk.
  unfold in_band_Q. rewrite andb_true_iff, !Qle_bool_iff.
  assert (Hnth : clipped_nth vs k = nth k vs 0).
  { unfold clipped_nth. f_equal. lia. }
  unfold lerp_at.
  destruct (floor_fraction h1) as [Ht1 Ht1'].
  destruct (floor_fraction h2) as [Ht2 Ht2'].
  pose proof (clipped_nth_mono vs _ _ Hs Hne (Nat.le_succ_diag_r (Z.to_nat (Qfloor h1)))) as Hab1.
  pose proof (clipped_nth_mono vs _ _ Hs Hne (Nat.le_succ_diag_r (Z.to_nat (Qfloor h2)))) as Hab2.
  destruct (lerp_between _ _ _ Hab1 Ht1 Ht1') as [_ Hu].
  destruct (lerp_between _ _ _ Hab2 Ht2 Ht2') as [Hl _].
  rewrite <- Hnth. split.
  - eapply Qle_trans; [exact Hu |]. apply clipped_nth_mono; auto.
  - eapply Qle_trans; [| exact Hl]. apply clipped_nth_mono; auto.
Qed.

Lemma band_keeps_middle (df : DataFrame) :
  let n := priced_count df in
  ((99 * (n - 1)) / 100 - (n - 1) / 100
   <= length (filter (in_band (q01_of df) (q99_of df)) df))%nat.
Proof.
  intros n.
  unfold q01_of, q99_of, quantile.
  pose proof (priced_sample_length df) as Hlen. fold n in Hlen.
  pose proof (sort_strongly_sorted (dropna (map price df))) as Hs.
  destruct (QSort.sort (dropna (map price df))) as [| v vs] eqn:E.
  - simpl in Hlen. rewrite <- Hlen. simpl. lia.
  - rewrite filter_in_band_prices.
    rewrite (filter_length_perm _ _ _ (QSort.Permuted_sort (dropna (map price df)))).
    rewrite E, Hlen.
    assert (Hn : (1 <= n)%nat) by (rewrite <- Hlen; simpl; lia).
    assert (HN : 0 <= inject_Z (Z.of_nat n) - 1).
    { assert (1 <= inject_Z (Z.of_nat n)); [| lraQ].
      change 1 with (inject_Z 1). rewrite <- Zle_Qle. lia. }
    set (N := inject_Z (Z.of_nat n) - 1) in *.
    pose proof (virtual_index_floor n 1 Hn) as F1.
    pose proof (virtual_index_floor n 99 Hn) as F2.
    change (Z.of_nat 1 # 100) with (1 # 100) in F1.
    change (Z.of_nat 99 # 100) with (99 # 100) in F2.
    fold N in F1, F2. rewrite Nat.mul_1_l in F1.
    assert (Hd : ((99 * (n - 1)) / 100 <= n - 1)%nat)
      by (apply Nat.Div0.div_le_upper_bound; lia).
    pose proof (filter_count_range
                  (in_band_Q (lerp_at (v :: vs) (N * (1 # 100)))
                             (lerp_at (v :: vs) (N * (99 # 100))))
                  0 (v :: vs) (S ((n - 1) / 100)) (S ((99 * (n - 1)) / 100))) as Hc.
    rewrite Hlen in Hc. simpl Nat.sub in Hc. apply Hc; [lia |].
    intros k Hk. apply middle_in_band; auto; try discriminate; try lraQ;
      try (rewrite ?F1, ?F2, ?Hlen; lia).
Qed.

(** X7: the cleaner keeps at least the middle of the sorted prices: with n
    priced rows, at least floor(99(n-1)/100) - floor((n-1)/100) rows remain
    (980 of 1000). *)
Theorem clean_data_keeps_middle (df : DataFrame) :
  let n := priced_count df in
  ((99 * (n - 1)) / 100 - (n - 1) / 100 <= length (clean_data df))%nat.
Proof.
  intros n. rewrite clean_data_filter, length_map. apply band_keeps_middle.
Qed.

(* ------------------------------------------------------------------ *)
(** ** Imputation, the split, degenerate correlations and the presenters *)

Lemma in_dropna (x : Q) (xs : list (option Q)) : In x (dropna xs) <-> In (Some x) xs.
Proof.
  induction xs as [| [y |] xs IH]; simpl.
  - tauto.
  - rewrite IH. split; intros [E | Hin]; auto; [left; congruence | left; congruence].
  - rewrite IH. split; [auto | intros [E | Hin]; [discriminate | exact Hin]].
Qed.

Lemma median_bounds (xs : list (option Q)) (lo hi m : Q) :
  (forall x, In (Some x) xs -> lo <= x /\ x <= hi) ->
  median xs = Some m -> lo <= m /\ m <= hi.
Proof.
  intros Hall. unfold median.
  set (vs := QSort.sort (dropna xs)).
  assert (Hvs : forall k, (k < length vs)%nat -> lo <= nth k vs 0 /\ nth k vs 0 <= hi).
  { intros k Hk. apply Hall, in_dropna, sort_In. apply nth_In, Hk. }
  destruct vs as [| v vs'] eqn:E; [discriminate |].
  set (n := length (v :: vs')) in *.
  assert (Hn : (1 <= n)%nat) by (unfold n; simpl; lia).
  assert (H2 : (n / 2 < n)%nat) by (apply Nat.div_lt; lia).
  destruct (Nat.odd n).
  - intros Hm. assert (Em : m = nth (n / 2) (v :: vs') 0) by congruence.
    rewrite Em. apply Hvs, H2.
  - destruct (Hvs (n / 2)%nat H2) as [Ha Hb].
    destruct (Hvs (n / 2 - 1)%nat ltac:(lia)) as [Hc Hd].
    set (a := nth (n / 2 - 1) (v :: vs') 0) in *.
    set (b := nth (n / 2) (v :: vs') 0) in *.
    intros Hm. assert (Em : m = (a + b) / 2) by congruence. rewrite Em.
    unfold Qdiv. change (/ 2) with (1 # 2). split; lraQ.
Qed.

(** X11: when the ratings of a frame lie in a range, every cleaned row is a
    row of the frame with all columns but the rating unchanged (the flags
    cast to 0/1 with the same truth values); a present rating is kept, a
    missing one is left missing or becomes the median of the present
    ratings, and every rating present after cleaning lies in the same
    range.  This holds whether or not [fillna(..., inplace=True)] on the
    selected column writes through to the frame. *)
Theorem clean_data_changes_only_ratings_and_flags (df : DataFrame) (lo hi : Q) :
  (forall r x, In r df -> review_scores_rating r = Some x -> lo <= x /\ x <= hi) ->
  Forall (fun r =>
            exists r0, In r0 df /\ same_listing r0 r
              /\ forallb is_int_cell (bool_columns r) = true
              /\ (forall x, review_scores_rating r0 = Some x ->
                            review_scores_rating r = Some x)
              /\ (review_scores_rating r0 = None ->
                  review_scores_rating r = None
                  \/ review_scores_rating r = median (map review_scores_rating df))
              /\ (forall x, review_scores_rating r = Some x -> lo <= x /\ x <= hi))
    (clean_data df).
Proof.
  intros Hrange.
  rewrite clean_data_filter. apply Forall_forall. intros r Hin.
  apply in_map_iff in Hin as (r0 & <- & Hin0).
  apply filter_In in Hin0 as [Hin0 _].
  exists r0. split; [exact Hin0 |].
  split; [unfold same_listing, cleaned_row; simpl; repeat split; reflexivity |].
  split; [reflexivity |].
  unfold cleaned_row. simpl.
  split; [intros x Hx; rewrite Hx; reflexivity |].
  split; [intros Hx; rewrite Hx; right; reflexivity |].
  intros x. destruct (review_scores_rating r0) as [y |] eqn:Ey; simpl.
  - intros Hx. injection Hx as <-. eapply Hrange; eassumption.
  - intros Hm. apply (median_bounds (map review_scores_rating df)); [| exact Hm].
    intros y Hy. apply in_map_iff in Hy as (r1 & Hr1 & Hin1). eapply Hrange; eassumption.
Qed.

Lemma take_all {A : Type} (d : A) (l : list A) : take d l (seq 0 (length l)) = l.
Proof.
  unfold take. induction l as [| x t IH]; simpl; [reflexivity |].
  f_equal. rewrite <- seq_shift, map_map. exact IH.
Qed.

Lemma take_perm {A : Type} (d : A) (l : list A) (idx : list nat) :
  Permutation idx (seq 0 (length l)) -> Permutation (take d l idx) l.
Proof.
  intros Hp. rewrite <- (take_all d l) at 2. unfold take. apply Permutation_map, Hp.
Qed.

Lemma take_combine {A B : Type} (da : A) (db : B) (la : list A) (lb : list B)
    (idx : list nat) :
  length la = length lb ->
  combine (take da la idx) (take db lb idx) = take (da, db) (combine la lb) idx.
Proof.
  intros Hlen. unfold take. induction idx as [| i idx IH]; simpl; [reflexivity |].
  rewrite IH. f_equal. symmetry. apply combine_nth, Hlen.
Qed.

Section SplitFacts.
Variable permutation : Z -> nat -> list nat.
Hypothesis permutation_spec :
  forall seed n, Permutation (permutation seed n) (seq 0 n).

(** X12: whenever [train_test_split] returns, the test part and the train
    part together are a rearrangement of the rows, each feature row still
    paired with its own target; no row is lost or used twice, and the train
    part is not empty. *)
Theorem train_test_split_partitions (X : list (list (option Q)))
    (y : list (option Q)) (test_size : Q) (random_state : Z) (s : Split) :
  length y = length X ->
  train_test_split permutation X y test_size random_state = Ok s ->
  Permutation (combine (X_test s) (y_test s) ++ combine (X_train s) (y_train s))
              (combine X y)
  /\ length (X_train s) = length (y_train s)
  /\ length (X_test s) = length (y_test s)
  /\ (0 < length (X_train s))%nat
  /\ (length (X_test s) + length (X_train s) = length X)%nat.
Proof.
  intros Hlen. unfold train_test_split.
  set (n := length X). set (n_test := Z.to_nat _).
  destruct (Nat.eqb_spec (n - n_test) 0) as [E | N]; [discriminate |].
  intros Hs. injection Hs as <-. cbn [X_train X_test y_train y_test].
  set (perm := permutation random_state n).
  assert (Hpl : length perm = n).
  { unfold perm. rewrite (Permutation_length (permutation_spec random_state n)).
    apply length_seq. }
  assert (Hfirst : firstn (n - n_test) (skipn n_test perm) = skipn n_test perm).
  { apply firstn_all2. rewrite length_skipn. lia. }
  rewrite Hfirst. rewrite !take_combine by (symmetry; exact Hlen).
  split.
  - unfold take. rewrite <- map_app, firstn_skipn. fold (take ([], None) (combine X y) perm).
    apply take_perm. rewrite length_combine, Hlen, Nat.min_id. fold n.
    apply permutation_spec.
  - rewrite !take_length, length_skipn, length_firstn, Hpl. repeat split; lia.
Qed.
End SplitFacts.


(** X13: if one of the ten numeric columns is constant over the frame, its
    whole row and column of the correlation matrix are NaN, the diagonal
    entry included. *)
Theorem correlation_constant_column_is_nan (df : DataFrame) (i j : nat)
    (name : string) (col : Listing -> option Q) (c : Q) :
  nth_error numeric_cols i = Some (name, col) ->
  (forall r, In r df -> col r = Some c) ->
  entry (correlation_analysis df) i j = None
  /\ entry (correlation_analysis df) j i = None.
Proof.
  intros Hi Hc. unfold correlation_analysis.
  rewrite !(entry_of_maps (fun ci cj => pearson (snd ci) (snd cj) df)).
  rewrite Hi. destruct (nth_error numeric_cols j) as [cj |]; [| split; reflexivity].
  simpl. apply (pearson_constant_column col (snd cj) df c Hc).
Qed.

(** [create_visualizations] builds its panels exactly when the frame has at
    least one row. *)
Lemma create_visualizations_ok_iff (df : DataFrame) :
  (exists fig, create_visualizations df = Ok fig) <-> df <> [].
Proof.
  split.
  - intros [fig Hfig] ->. discriminate.
  - apply create_visualizations_ok.
Qed.

Lemma mean_some_iff (xs : list (option Q)) :
  mean xs <> None <-> exists x, In (Some x) xs.
Proof.
  unfold mean. destruct (dropna xs) as [| v vs] eqn:E.
  - split; [congruence |]. intros [x Hx]. apply in_dropna in Hx. rewrite E in Hx. contradiction.
  - split; [| discriminate]. intros _. exists v. apply in_dropna. rewrite E. left. reflexivity.
Qed.

Lemma first_max_none {K : Type} (s : list (K * option Q)) :
  Forall (fun e => snd e = None) s -> first_max None s = None.
Proof.
  induction 1 as [| [k v] t Hv _ IH]; simpl; [reflexivity |].
  simpl in Hv. subst v. exact IH.
Qed.

Lemma first_max_found {K : Type} (s : list (K * option Q)) :
  (exists e, In e s /\ snd e <> None) -> first_max None s <> None.
Proof.
  induction s as [| [k v] t IH]; intros (e & Hin & He); simpl; [contradiction |].
  destruct v as [v |].
  - apply first_max_from_some. discriminate.
  - apply IH. destruct Hin as [<- | Hin]; [simpl in He; congruence | eauto].
Qed.

Lemma first_max_some_entry {K : Type} (s : list (K * option Q)) :
  first_max None s <> None -> exists e, In e s /\ snd e <> None.
Proof.
  induction s as [| [k v] t IH]; simpl; [congruence |].
  destruct v as [v |].
  - intros _. exists (k, Some v). split; [left; reflexivity | discriminate].
  - intros Hm. destruct (IH Hm) as (e & Hin & He). eauto.
Qed.

Lemma priced_group_row (df : DataFrame) :
  (exists e, In e (group_mean_price (group_by_string city df)) /\ snd e <> None)
  <-> (exists r, In r df /\ price r <> None).
Proof.
  split.
  - intros ([k m] & Hin & Hm). simpl in Hm.
    unfold group_mean_price in Hin.
    apply in_map_iff in Hin as ([k0 rows] & Heq & Hg).
    injection Heq as <- <-. simpl in Hm.
    apply mean_some_iff in Hm as [x Hx].
    apply in_map_iff in Hx as (r & Hr & Hin).
    apply (group_by_rows String.eqb String.ltb city string_key_order) in Hg
      as [Hrows _].
    subst rows. apply filter_In in Hin as [Hin _].
    exists r. split; [exact Hin | congruence].
  - intros (r & Hin & Hp).
    pose proof (group_by_has_key String.eqb String.ltb city string_key_order
                  df r Hin) as Hk.
    fold (group_by_string city df) in Hk.
    apply in_map_iff in Hk as ([k rows] & Hkey & Hg). simpl in Hkey. subst k.
    exists (city r, mean (map price rows)). split.
    + unfold group_mean_price. apply in_map_iff. exists (city r, rows). auto.
    + simpl. apply mean_some_iff.
      apply (group_by_rows String.eqb String.ltb city string_key_order) in Hg
        as [Hrows _].
      destruct (price r) as [x |] eqn:Ex; [| congruence].
      exists x. apply in_map_iff. exists r. split; [exact Ex |].
      rewrite Hrows. apply filter_In. split; [exact Hin | apply String.eqb_refl].
Qed.

(** [generate_report] returns its findings exactly when some listing of the
    frame has a price. *)
Lemma generate_report_ok_iff (df : DataFrame) :
  (exists rep, generate_report df = Ok rep)
  <-> (exists r, In r df /\ price r <> None).
Proof.
  rewrite <- priced_group_row. unfold generate_report, idxmax.
  destruct (first_max None (group_mean_price (group_by_string city df)))
    as [[k v] |] eqn:E.
  - split; [| intros _; eexists; reflexivity].
    intros _. apply first_max_some_entry. rewrite E. discriminate.
  - split; [intros [rep Hrep]; discriminate |].
    intros Hex. apply first_max_found in Hex. congruence.
Qed.

Lemma where_flag_key (col : Listing -> flag) (v : Z) (df : DataFrame) :
  where_flag col v df <> [] ->
  In v (map fst (group_by_Z (fun r => flag_int (col r)) df)).
Proof.
  intros Hne. destruct (where_flag col v df) as [| r t] eqn:E; [congruence |].
  assert (Hr : In r (where_flag col v df)) by (rewrite E; left; reflexivity).
  unfold where_flag in Hr. apply filter_In in Hr as [Hin Hk]. apply Z.eqb_eq in Hk.
  rewrite <- Hk.
  apply (group_by_has_key Z.eqb Z.ltb (fun r => flag_int (col r)) Z_key_order df r Hin).
Qed.

Lemma flag_group_by_eq (col : Listing -> flag) (df : DataFrame) :
  group_by_Z (fun r => flag_int (col r)) df
  = nonempty_group 0 (where_flag col 0 df) ++ nonempty_group 1 (where_flag col 1 df).
Proof.
  pose proof (flag_group_by_shape col df) as Hshape.
  pose proof (where_flag_key col 0 df) as H0.
  pose proof (where_flag_key col 1 df) as H1.
  assert (Hrows : forall k rs,
            In (k, rs) (group_by_Z (fun r => flag_int (col r)) df) ->
            rs = where_flag col k df /\ rs <> []).
  { intros k rs Hin.
    apply (group_by_rows Z.eqb Z.ltb (fun r => flag_int (col r)) Z_key_order) in Hin.
    exact Hin. }
  unfold flag_groups_shape in Hshape.
  destruct (group_by_Z (fun r => flag_int (col r)) df)
    as [| [k1 rs1] [| [k2 rs2] [| g3 t]]];
    simpl in Hshape, H0, H1;
    destruct Hshape as [Hs | [Hs | [Hs | Hs]]]; try discriminate;
    try (injection Hs as Hs1 Hs2); try (injection Hs as Hs1); subst.
  - destruct (where_flag col 0 df); [| exfalso; apply H0; discriminate].
    destruct (where_flag col 1 df); [reflexivity | exfalso; apply H1; discriminate].
  - destruct (Hrows 0%Z rs1 (or_introl eq_refl)) as [E Hne]. rewrite <- E.
    destruct rs1; [congruence |]. simpl.
    destruct (where_flag col 1 df); [reflexivity |].
    exfalso. destruct H1 as [H1 | []]; [discriminate | discriminate].
  - destruct (Hrows 1%Z rs1 (or_introl eq_refl)) as [E Hne]. rewrite <- E.
    destruct rs1; [congruence |].
    destruct (where_flag col 0 df); [reflexivity |].
    exfalso. destruct H0 as [H0 | []]; [discriminate | discriminate].
  - destruct (Hrows 0%Z rs1 (or_introl eq_refl)) as [E1 Hne1].
    destruct (Hrows 1%Z rs2 (or_intror (or_introl eq_refl))) as [E2 Hne2].
    rewrite <- E1, <- E2. destruct rs1, rs2; try congruence. reflexivity.
Qed.

(** X14: the superhost chart shows the mean price of the regular hosts and
    of the superhosts when the frame has both; when it has only one kind,
    both bars, "Regular Host" and "Superhost", show the mean of that one
    kind. *)
Theorem superhost_bars_heights (df : DataFrame) (fig : Figure) :
  create_visualizations df = Ok fig ->
  let regular := where_flag host_is_superhost 0 df in
  let super := where_flag host_is_superhost 1 df in
  superhost_bars fig
  = match regular, super with
    | [], _ => [("Regular Host"%string, flag_mean host_is_superhost 1 df);
                ("Superhost"%string, flag_mean host_is_superhost 1 df)]
    | _ :: _, [] => [("Regular Host"%string, flag_mean host_is_superhost 0 df);
                     ("Superhost"%string, flag_mean host_is_superhost 0 df)]
    | _ :: _, _ :: _ => [("Regular Host"%string, flag_mean host_is_superhost 0 df);
                         ("Superhost"%string, flag_mean host_is_superhost 1 df)]
    end.
Proof.
  unfold create_visualizations. intros Hfig.
  destruct (plot_series (sort_by _ _)) as [p2 | e]; [| discriminate].
  destruct (plot_series (group_mean_price (group_by_Z bedrooms df))) as [p4 | e];
    [| discriminate].
  rewrite flag_group_by_eq in Hfig. unfold flag_mean.
  destruct (where_flag host_is_superhost 0 df) as [| r0 t0] eqn:E0;
    destruct (where_flag host_is_superhost 1 df) as [| r1 t1] eqn:E1;
    simpl in Hfig; try discriminate; injection Hfig as <-; reflexivity.
Qed.

Lemma status_query_rows (col : Listing -> flag) (with_label without_label : string)
    (listings : DataFrame) :
  status_query col with_label without_label listings
  = status_rows col with_label without_label listings.
Proof.
  unfold status_query, status_rows, flag_mean. rewrite flag_group_by_eq.
  destruct (where_flag col 0 listings), (where_flag col 1 listings); reflexivity.
Qed.

(** X15: query 2 of [perform_sql_analysis] consists, for WiFi, kitchen and
    pool in this order, of a "No ..." row with the rounded mean price of the
    listings without the amenity and a "With ..." row for those with it,
    each present only when there is such a listing. *)
Theorem query2_amenity_rows (listings : DataFrame) :
  query2 listings
  = status_rows has_wifi "With WiFi" "No WiFi" listings
    ++ status_rows has_kitchen "With Kitchen" "No Kitchen" listings
    ++ status_rows has_pool "With Pool" "No Pool" listings.
Proof. unfold query2. rewrite !status_query_rows. reflexivity. Qed.

Lemma check_finite_nan (what : string) (ys : list (option Q)) :
  In None ys -> exists e, check_finite what ys = Raise e.
Proof.
  induction ys as [| [y |] ys IH]; simpl; intros Hin; [contradiction | |].
  - destruct Hin as [E | Hin]; [discriminate |].
    destruct (IH Hin) as [e He]. rewrite He. eauto.
  - eauto.
Qed.

Lemma take_In {A : Type} (d : A) (l : list A) (idx : list nat) (i : nat) :
  In i idx -> In (nth i l d) (take d l idx).
Proof. intros Hi. unfold take. apply in_map_iff. exists i. auto. Qed.

Lemma importance_sorted (l : list (string * Q)) :
  StronglySorted (fun a b => snd b <= snd a) (sort_by importance_desc_leb l).
Proof.
  assert (Hs : StronglySorted (fun a b => importance_desc_leb a b = true)
                 (sort_by importance_desc_leb l)).
  { apply sort_by_sorted.
    - intros a b. unfold importance_desc_leb. rewrite !Qle_bool_iff.
      destruct (Qlt_le_dec (snd a) (snd b));
        [right; apply Qlt_le_weak; assumption | left; assumption].
    - intros a b c. unfold importance_desc_leb. rewrite !Qle_bool_iff.
      intros; eapply Qle_trans; eassumption. }
  induction Hs as [| x t Ht IH Hx]; constructor; auto.
  eapply Forall_impl; [| exact Hx]. intros y Hy. apply Qle_bool_iff, Hy.
Qed.

Section PredictorOutcome.
Variable permutation : Z -> nat -> list nat.
Variable Forest : Type.
Variable fit : nat -> Z -> list (list (option Q)) -> list Q -> Forest.
Variable predict : Forest -> list (list (option Q)) -> list Q.
Variable feature_importances_ : Forest -> list Q.
Variable np_sqrt : Q -> Q.
Hypothesis permutation_spec :
  forall seed n, Permutation (permutation seed n) (seq 0 n).

Let run := build_price_prediction_model permutation Forest fit predict
             feature_importances_ np_sqrt.

Lemma predictor_ok (df : DataFrame) :
  (2 <= length df)%nat -> prices_present df -> exists res, run df = Ok res.
Proof.
  intros Hn Hp. unfold run, build_price_prediction_model.
  assert (HnX : (2 <= length (map features df))%nat) by (rewrite length_map; exact Hn).
  rewrite (train_test_split_fifth permutation permutation_spec
             (map features df) (map price df) HnX).
  cbn [X_test X_train y_train y_test]. rewrite length_map.
  set (n := length df). set (perm := permutation 42 n).
  assert (Hy : Forall (fun v => v <> None) (map price df))
    by (apply Forall_map; exact Hp).
  assert (Hrange : Forall (fun i => (i < length (map price df))%nat) perm).
  { rewrite length_map. apply permutation_range, permutation_spec. }
  destruct (check_finite_take "Input y contains NaN" (map price df)
              (skipn ((n + 4) / 5) perm) Hy) as (y_tr & Htr & _).
  { apply Forall_forall. intros i Hi. rewrite Forall_forall in Hrange.
    apply Hrange. eapply in_skipn_in, Hi. }
  destruct (check_finite_take "Input contains NaN" (map price df)
              (firstn ((n + 4) / 5) perm) Hy) as (y_te & Hte & _).
  { apply Forall_forall. intros i Hi. rewrite Forall_forall in Hrange.
    apply Hrange. eapply in_firstn_in, Hi. }
  rewrite Htr, Hte. eexists. reflexivity.
Qed.

Lemma predictor_raises_small (df : DataFrame) :
  (length df < 2)%nat ->
  run df = Raise (Exception "ValueError" "the resulting train set will be empty").
Proof.
  intros Hn. unfold run, build_price_prediction_model, train_test_split.
  rewrite n_test_fifth, length_map.
  destruct df as [| r [| r' t]]; simpl in Hn; try lia; reflexivity.
Qed.

Lemma predictor_raises_nan (df : DataFrame) (r : Listing) :
  (2 <= length df)%nat -> In r df -> price r = None ->
  exists e, run df = Raise e.
Proof.
  intros Hn Hin Hp. unfold run, build_price_prediction_model.
  assert (HnX : (2 <= length (map features df))%nat) by (rewrite length_map; exact Hn).
  rewrite (train_test_split_fifth permutation permutation_spec
             (map features df) (map price df) HnX).
  cbn [X_test X_train y_train y_test]. rewrite length_map.
  set (n := length df). set (perm := permutation 42 n).
  apply (In_nth _ _ r) in Hin as (i & Hi & Hnth).
  assert (Hy : nth i (map price df) None = None).
  { rewrite (nth_indep _ None (price r)) by (rewrite length_map; exact Hi).
    rewrite map_nth, Hnth. exact Hp. }
  assert (Hperm : In i perm).
  { apply (Permutation_in _ (Permutation_sym (permutation_spec 42 n))).
    apply in_seq. fold n in Hi. lia. }
  rewrite <- (firstn_skipn ((n + 4) / 5) perm) in Hperm.
  apply in_app_or in Hperm as [Htest | Htrain].
  - destruct (check_finite "Input y contains NaN" _) as [y_tr | e]; [| eauto].
    destruct (check_finite_nan "Input contains NaN"
                (take None (map price df) (firstn ((n + 4) / 5) perm))) as [e He].
    { pose proof (take_In None (map price df) _ i Htest) as Ht.
      rewrite Hy in Ht. exact Ht. }
    rewrite He. eauto.
  - destruct (check_finite_nan "Input y contains NaN"
                (take None (map price df) (skipn ((n + 4) / 5) perm))) as [e He].
    { pose proof (take_In None (map price df) _ i Htrain) as Ht.
      rewrite Hy in Ht. exact Ht. }
    rewrite He. eauto.
Qed.

(** X16: [build_price_prediction_model] returns exactly when the frame has
    at least two rows and every price is present; with fewer rows the split
    raises, with a missing price the validation of the target raises. *)
Theorem predictor_ok_iff (df : DataFrame) :
  (exists res, run df = Ok res) <-> (2 <= length df)%nat /\ prices_present df.
Proof.
  split.
  - intros [res Hres].
    assert (Hn : (2 <= length df)%nat).
    { destruct (le_lt_dec 2 (length df)) as [H | H]; [exact H |].
      rewrite (predictor_raises_small df H) in Hres. discriminate. }
    split; [exact Hn |].
    apply Forall_forall. intros r Hin Hp.
    destruct (predictor_raises_nan df r Hn Hin Hp) as [e He].
    rewrite He in Hres. discriminate.
  - intros [Hn Hp]. apply predictor_ok; assumption.
Qed.

(** X17: when the predictor returns, the feature ranking it returns is the
    features with their importances rearranged in descending order of
    importance, and after the three metric lines it prints the first ten of
    them, so at most thirteen lines. *)
Theorem predictor_feature_ranking (df : DataFrame) (model : Forest)
    (imp : list (string * Q)) (out : list out_line) :
  run df = Ok (model, imp, out) ->
  StronglySorted (fun a b => snd b <= snd a) imp
  /\ Permutation imp (combine (map fst feature_cols) (feature_importances_ model))
  /\ skipn 3 out = map (fun fi => ImportanceLine (fst fi) (snd fi)) (firstn 10 imp)
  /\ (length out <= 13)%nat.
Proof.
  unfold run, build_price_prediction_model. intros Hrun.
  destruct (train_test_split _ _ _ _ _) as [s | e]; [| discriminate].
  destruct (check_finite _ (y_train s)) as [y_tr | e]; [| discriminate].
  destruct (check_finite _ (y_test s)) as [y_te | e]; [| discriminate].
  set (fi := sort_by importance_desc_leb _) in Hrun.
  assert (Hfi : StronglySorted (fun a b => snd b <= snd a) fi
                /\ Permutation fi (combine (map fst feature_cols)
                      (feature_importances_ (fit 100 42 (X_train s) y_tr)))).
  { split; [apply importance_sorted | apply sort_by_perm]. }
  clearbody fi. destruct Hfi as [Hs Hperm].
  assert (Em : model = fit 100 42 (X_train s) y_tr) by congruence.
  assert (Ei : imp = fi) by congruence.
  match type of Hrun with
  | Ok (_, _, ?o) = _ => assert (Eo : out = o) by congruence
  end.
  subst model imp out.
  split; [exact Hs |]. split; [exact Hperm |]. split; [reflexivity |].
  rewrite length_app, length_map, length_firstn. simpl length. lia.
Qed.

End PredictorOutcome.

(* ------------------------------------------------------------------ *)
(** ** The default pipeline *)

Lemma priced_count_all (df : DataFrame) :
  Forall (fun r => exists p, price r = Some p /\ 30 <= p) df ->
  priced_count df = length df.
Proof.
  unfold priced_count. induction 1 as [| r df (p & Hp & _) _ IH]; simpl;
    [reflexivity |].
  rewrite Hp. simpl. congruence.
Qed.

Section SamplePipeline.
Context {G : Type} `{NumpyRandom G}.

Lemma cleaned_sample_length (g : G) :
  (980 <= length (clean_data (fst (_generate_sample_data 1000 g))) <= 1000)%nat.
Proof.
  rewrite generate_sample_data_rows.
  pose proof (generate_rows_length 1000 0%Z (np_seed 42)) as Hlen.
  pose proof (generate_rows_price 1000 0%Z (np_seed 42)) as Hprice.
  set (df := fst (generate_rows 1000 0%Z (np_seed 42))) in *.
  pose proof (band_keeps_middle df) as Hkeep. cbv zeta in Hkeep.
  rewrite (priced_count_all df Hprice), Hlen in Hkeep.
  assert (E : ((99 * (1000 - 1)) / 100 - (1000 - 1) / 100 = 980)%nat)
    by (vm_compute; reflexivity).
  rewrite E in Hkeep.
  rewrite clean_data_filter, length_map. split; [exact Hkeep |].
  rewrite <- Hlen. apply filter_length_le.
Qed.

(** X18: cleaning the thousand generated listings removes at most twenty of
    them, whatever the draws. *)
Theorem generated_clean_keeps_980 (g : G) :
  let cleaned := clean_data (fst (_generate_sample_data 1000 g)) in
  (980 <= length cleaned <= 1000)%nat.
Proof. intros cleaned. apply cleaned_sample_length. Qed.

Variable read_csv : string -> result DataFrame.
Variable permutation : Z -> nat -> list nat.
Variable Forest : Type.
Variable fit : nat -> Z -> list (list (option Q)) -> list Q -> Forest.
Variable predict : Forest -> list (list (option Q)) -> list Q.
Variable feature_importances_ : Forest -> list Q.
Variable np_sqrt : Q -> Q.
Hypothesis permutation_spec :
  forall seed n, Permutation (permutation seed n) (seq 0 n).

(** X19: the default pipeline of [main] (generate, clean, aggregate,
    correlate, predict, chart, report) runs to its end without raising, on
    the cleaned sample of between 980 and 1000 listings; it never reads a
    file, and it prints the two lines of the loader. *)
Theorem main_runs (w : World G) :
  exists out w',
    main read_csv permutation Forest fit predict feature_importances_ np_sqrt w
    = (Ok out, w')
    /\ out_frame out = clean_data (fst (_generate_sample_data 1000 (rng w)))
    /\ (980 <= length (out_frame out) <= 1000)%nat
    /\ stdout w' = stdout w ++ [MsgLoading; MsgGenerated 1000].
Proof.
  unfold main, load_data, py_bind, print, call, py_ret, draw. simpl rng. simpl stdout.
  change (String.eqb "sample" "sample") with true. cbv iota.
  pose proof (cleaned_sample_length (rng w)) as Hlen.
  pose proof (generate_rows_length 1000 0%Z (np_seed 42)) as Hrows.
  rewrite !generate_sample_data_rows in *.
  destruct (generate_rows 1000 0%Z (np_seed 42)) as [df g'].
  simpl fst in *. simpl rng. simpl stdout.
  set (c := clean_data df) in *.
  assert (Hne : c <> []) by (destruct c; [simpl in Hlen; lia | discriminate]).
  destruct (predictor_ok permutation Forest fit predict feature_importances_
              np_sqrt permutation_spec c ltac:(lia)
              (clean_data_prices_present df)) as [pred Hpred].
  destruct (create_visualizations_ok c Hne) as [fig Hfig].
  destruct (generate_report_ok c Hne (clean_data_prices_present df)) as [rep Hrep].
  rewrite Hpred, Hfig, Hrep.
  eexists. eexists. split; [reflexivity |].
  cbn [out_frame rng stdout]. split; [reflexivity |]. split; [exact Hlen |].
  rewrite Hrows, <- app_assoc. reflexivity.
Qed.

End SamplePipeline.

(* ------------------------------------------------------------------ *)
(** ** The further properties at concrete frames *)

Lemma partly_rated_ratings (r : Listing) (x : Q) :
  In r partly_rated -> review_scores_rating r = Some x -> 35 # 10 <= x /\ x <= 5.
Proof.
  simpl. intros Hin Hx.
  repeat (destruct Hin as [<- | Hin];
          [simpl in Hx; try discriminate; injection Hx as <-; split; discriminate |]).
  contradiction.
Qed.

Lemma clean_data_changes_only_ratings_and_flags_witness :
  Forall (fun r =>
            exists r0, In r0 partly_rated /\ same_listing r0 r
              /\ forallb is_int_cell (bool_columns r) = true
              /\ (forall x, review_scores_rating r0 = Some x ->
                            review_scores_rating r = Some x)
              /\ (review_scores_rating r0 = None ->
                  review_scores_rating r = None
                  \/ review_scores_rating r
                     = median (map review_scores_rating partly_rated))
              /\ (forall x, review_scores_rating r = Some x ->
                            35 # 10 <= x /\ x <= 5))
    (clean_data partly_rated).
Proof.
  apply (clean_data_changes_only_ratings_and_flags partly_rated (35 # 10) 5).
  exact partly_rated_ratings.
Defined.

Lemma train_test_split_partitions_witness :
  exists s,
    train_test_split identity_permutation (map features twelve_listings)
      (map price twelve_listings) (2 # 10) 42 = Ok s
    /\ Permutation
         (combine (X_test s) (y_test s) ++ combine (X_train s) (y_train s))
         (combine (map features twelve_listings) (map price twelve_listings))
    /\ length (X_train s) = length (y_train s)
    /\ length (X_test s) = length (y_test s)
    /\ (0 < length (X_train s))%nat
    /\ (length (X_test s) + length (X_train s)
        = length (map features twelve_listings))%nat.
Proof.
  destruct (train_test_split identity_permutation (map features twelve_listings)
              (map price twelve_listings) (2 # 10) 42) as [s | e] eqn:E.
  - exists s. split; [reflexivity |].
    apply (train_test_split_partitions identity_permutation
             (fun _ n => Permutation_refl (seq 0 n))
             (map features twelve_listings) (map price twelve_listings)
             (2 # 10) 42 s); [reflexivity | exact E].
  - exfalso. vm_compute in E. discriminate.
Defined.

Lemma five_listings_bedrooms (r : Listing) :
  In r five_listings -> Zcol bedrooms r = Some (inject_Z 1).
Proof.
  simpl. intros Hin.
  repeat (destruct Hin as [<- | Hin]; [reflexivity |]). contradiction.
Qed.

Lemma correlation_constant_column_is_nan_witness :
  entry (correlation_analysis five_listings) 2 0 = None
  /\ entry (correlation_analysis five_listings) 0 2 = None.
Proof.
  apply (correlation_constant_column_is_nan five_listings 2 0 "bedrooms"
           (Zcol bedrooms) (inject_Z 1)).
  - reflexivity.
  - exact five_listings_bedrooms.
Defined.

Lemma superhost_bars_heights_witness :
  exists fig,
    create_visualizations (clean_data four_listings) = Ok fig
    /\ superhost_bars fig
       = match where_flag host_is_superhost 0 (clean_data four_listings),
               where_flag host_is_superhost 1 (clean_data four_listings) with
         | [], _ =>
             [("Regular Host"%string,
               flag_mean host_is_superhost 1 (clean_data four_listings));
              ("Superhost"%string,
               flag_mean host_is_superhost 1 (clean_data four_listings))]
         | _ :: _, [] =>
             [("Regular Host"%string,
               flag_mean host_is_superhost 0 (clean_data four_listings));
              ("Superhost"%string,
               flag_mean host_is_superhost 0 (clean_data four_listings))]
         | _ :: _, _ :: _ =>
             [("Regular Host"%string,
               flag_mean host_is_superhost 0 (clean_data four_listings));
              ("Superhost"%string,
               flag_mean host_is_superhost 1 (clean_data four_listings))]
         end.
Proof.
  destruct (create_visualizations (clean_data four_listings)) as [fig | e] eqn:E.
  - exists fig. split; [reflexivity |].
    apply (superhost_bars_heights (clean_data four_listings) fig E).
  - exfalso. vm_compute in E. discriminate.
Defined.

Lemma predictor_ok_iff_witness :
  (exists res,
     build_price_prediction_model identity_permutation Q mean_fit mean_predict
       uniform_importances floor_sqrt (clean_data twelve_listings) = Ok res)
  <-> (2 <= length (clean_data twelve_listings))%nat
      /\ prices_present (clean_data twelve_listings).
Proof.
  apply (predictor_ok_iff identity_permutation Q mean_fit mean_predict
           uniform_importances floor_sqrt
           (fun _ n => Permutation_refl (seq 0 n)) (clean_data twelve_listings)).
Defined.

Lemma predictor_feature_ranking_witness :
  exists model imp out,
    build_price_prediction_model identity_permutation Q mean_fit mean_predict
      uniform_importances floor_sqrt (clean_data twelve_listings)
    = Ok (model, imp, out)
    /\ StronglySorted (fun a b => snd b <= snd a) imp
    /\ Permutation imp (combine (map fst feature_cols) (uniform_importances model))
    /\ skipn 3 out = map (fun fi => ImportanceLine (fst fi) (snd fi)) (firstn 10 imp)
    /\ (length out <= 13)%nat.
Proof.
  destruct (build_price_prediction_model identity_permutation Q mean_fit
              mean_predict uniform_importances floor_sqrt
              (clean_data twelve_listings)) as [[[model imp] out] | e] eqn:E.
  - exists model, imp, out. split; [reflexivity |].
    apply (predictor_feature_ranking identity_permutation Q mean_fit mean_predict
             uniform_importances floor_sqrt (clean_data twelve_listings)
             model imp out E).
  - exfalso. vm_compute in E. discriminate.
Defined.

Lemma main_runs_witness :
  exists out w',
    main (fun _ => Raise (Exception "FileNotFoundError" "listings.csv"))
      identity_permutation Q mean_fit mean_predict uniform_importances floor_sqrt
      (mkWorld 7%Z [])
    = (Ok out, w')
    /\ out_frame out = clean_data (fst (_generate_sample_data 1000 7%Z))
    /\ (980 <= length (out_frame out) <= 1000)%nat
    /\ stdout w' = [] ++ [MsgLoading; MsgGenerated 1000].
Proof.
  apply (main_runs (fun _ => Raise (Exception "FileNotFoundError" "listings.csv"))
           identity_permutation Q mean_fit mean_predict uniform_importances
           floor_sqrt (fun _ n => Permutation_refl (seq 0 n)) (mkWorld 7%Z [])).
Defined.
